(** * linty: the indentation check (linty/indent.py)

    A shallow embedding of the indentation engine of linty: the tab-expanding
    column function [lengthExpandedTabs], the class [IndentLevel], the node
    handlers with their token window and curly-brace checks, the handler
    lookup [getHandler] and the tree check [IndentationCheck].

    Python integers are unbounded and are modelled by [Z]; the byte strings
    of Python 2 by [string]; [set] by stdpp's [gset]; [list] by [list].
    Python exceptions are explicit: a computation yields an [outcome], and a
    method that mutates objects is a function from the state before the call
    to an outcome and the state after it.  A raised exception keeps the
    mutations done before it, as in Python. *)

From Stdlib Require Import ZArith Ascii String List Lia.
From stdpp Require Import base gmap sets list strings sorting.

#[local] Set Warnings "-clear-no-such-hyp".

Local Open Scope string_scope.
Local Open Scope Z_scope.

(** ** Exceptions and outcomes *)

(** The exceptions the modelled code can raise.  [AbstractMethod] is
    [Exception('Abstract method!')] of
    [IndentSyntaxNodeHandler.checkIndentation]. *)
Inductive PyExn : Type :=
  | IndexError
  | ZeroDivisionError
  | AssertionError
  | NameError
  | AttributeError
  | TypeError
  | AbstractMethod
  | IOError.

Inductive outcome (A : Type) : Type :=
  | Ok (a : A)
  | Raise (e : PyExn).
Arguments Ok {A} a.
Arguments Raise {A} e.

(** Exceptions only: sequencing of computations that have no state. *)
Definition obind {A B} (o : outcome A) (k : A -> outcome B) : outcome B :=
  match o with
  | Ok a => k a
  | Raise e => Raise e
  end.

(** State and exceptions: the state after a raise is the state reached. *)
Definition M (S A : Type) : Type := S -> outcome A * S.

Definition ret {S A} (a : A) : M S A := fun s => (Ok a, s).
Definition raise {S A} (e : PyExn) : M S A := fun s => (Raise e, s).
Definition bind {S A B} (m : M S A) (k : A -> M S B) : M S B :=
  fun s => match m s with
           | (Ok a, s') => k a s'
           | (Raise e, s') => (Raise e, s')
           end.
Definition get {S} : M S S := fun s => (Ok s, s).
Definition put {S} (s : S) : M S unit := fun _ => (Ok tt, s).
Definition modify {S} (f : S -> S) : M S unit := fun s => (Ok tt, f s).
Definition lift {S A} (o : outcome A) : M S A := fun s => (o, s).
(** [assert c]. *)
Definition assert {S} (c : bool) : M S unit :=
  if c then ret tt else raise AssertionError.

(** The state a computation ends in. *)
Definition exec {S A} (m : M S A) (s : S) : S := snd (m s).

Declare Scope py_scope.
Delimit Scope py_scope with py.
Notation "'let*' x ':=' m 'in' k" := (bind m (fun x => k))
  (at level 10, x name, m at level 100, k at level 200) : py_scope.
Notation "'run' m 'then' k" := (bind m (fun _ => k))
  (at level 10, m at level 100, k at level 200) : py_scope.
Local Open Scope py_scope.

(** ** Column resolver *)

Definition tab : ascii := "009"%char.

(** One round of the loop body of [lengthExpandedTabs]: [s[i]] raises
    [IndexError] past the end of [s]; [l / tab_width] is Python 2 integer
    division, which raises [ZeroDivisionError] for a zero divisor and is
    [Z.div] otherwise.  The source has [l += ...] in both branches. *)
Definition lengthExpandedTabs_body (s : string) (tab_width : Z) (l : Z) (i : nat)
  : outcome Z :=
  match String.get i s with
  | None => Raise IndexError
  | Some c =>
      if Ascii.eqb c tab then
        if tab_width =? 0 then Raise ZeroDivisionError
        else Ok (l + (l / tab_width + 1) * tab_width)
      else Ok (l + 1)
  end.

Fixpoint lengthExpandedTabs_loop (s : string) (tab_width : Z) (l : Z) (range : list nat)
  : outcome Z :=
  match range with
  | [] => Ok l
  | i :: range' =>
      obind (lengthExpandedTabs_body s tab_width l i)
            (fun l' => lengthExpandedTabs_loop s tab_width l' range')
  end.

(** [lengthExpandedTabs(s, to_idx, tab_width)]; [range(0, to_idx)] is empty
    for [to_idx <= 0]. *)
Definition lengthExpandedTabs (s : string) (to_idx tab_width : Z) : outcome Z :=
  lengthExpandedTabs_loop s tab_width 0 (seq 0 (Z.to_nat to_idx)).

(** The tab stop the specification names: the next multiple of [w] strictly
    greater than [l]. *)
Definition next_tab_stop (l w : Z) : Z := (l / w + 1) * w.

(** ** Indent levels *)

Module IndentLevel.

(** An [IndentLevel] object: its only attribute is the set [levels]. *)
Record t : Type := Build { levels : gset Z }.

(** [IndentLevel(indent, base, offset)]; [None] is the default of each
    argument.  The loop [for l in base.levels: self.levels.add(l + offset)]
    is a fold over the members of [base.levels]. *)
Definition __init__ (indent : option Z) (base : option t) (offset : option Z)
  : outcome t :=
  if negb (bool_decide (is_Some indent) || bool_decide (is_Some base)
           || bool_decide (is_Some offset))
  then Raise AssertionError
  else
    match indent with
    | Some i => Ok (Build ({[ i ]} ∪ ∅))
    | None =>
        match base, offset with
        | Some b, Some k =>
            Ok (Build (set_fold (fun l (acc : gset Z) => {[ l + k ]} ∪ acc) ∅ (levels b)))
        | _, _ => Raise AssertionError
        end
    end.

Definition isMultilevel (self : t) : bool :=
  bool_decide (1 < size (levels self))%nat.

Definition accept (self : t) (indent : Z) : bool :=
  bool_decide (indent ∈ levels self).

(** [sorted(self.levels)[-1] > indent]: the index raises on an empty set. *)
Definition gt (self : t) (indent : Z) : outcome bool :=
  match last (merge_sort Z.le (elements (levels self))) with
  | None => Raise IndexError
  | Some m => Ok (bool_decide (m > indent))
  end.

(** *** The mutating method, over a store of objects

    [addAcceptedIndent] mutates [self] in place; its argument is an integer
    or (a reference to) another [IndentLevel], possibly [self] itself.
    Objects live in a store indexed by references. *)
Definition ref : Type := positive.
Abbreviation store := (gmap ref t).

Inductive arg : Type :=
  | Int (v : Z)
  | Level (r : ref).

(** [self.levels.add(i)]. *)
Definition levels_add (self : ref) (i : Z) (σ : store) : store :=
  match σ !! self with
  | Some L => <[ self := Build ({[ i ]} ∪ levels L) ]> σ
  | None => σ
  end.

(** [self.addAcceptedIndent(level)].  The result is [None] only for a
    reference that denotes no object, which Python cannot build. *)
Definition addAcceptedIndent (self : ref) (level : arg) (σ : store) : option store :=
  match σ !! self with
  | None => None
  | Some _ =>
      match level with
      | Level r =>
          match σ !! r with
          | None => None
          | Some V => Some (foldl (fun σ' i => levels_add self i σ') σ (elements (levels V)))
          end
      | Int v => Some (levels_add self v σ)
      end
  end.

(** [self.accept(indent)] on a reference. *)
Definition accept_at (σ : store) (self : ref) (indent : Z) : bool :=
  match σ !! self with
  | Some L => accept L indent
  | None => false
  end.

(** The levels the public operations can build, starting from nothing:
    a singleton, a derivation from such a level, and a widening of such a
    level by an integer or by such a level. *)
Inductive reachable : t -> Prop :=
  | reach_singleton c base offset L :
      __init__ (Some c) base offset = Ok L -> reachable L
  | reach_derive P k L :
      reachable P -> __init__ None (Some P) (Some k) = Ok L -> reachable L
  | reach_widen σ self v σ' L L' :
      σ !! self = Some L -> reachable L ->
      (forall r V, v = Level r -> σ !! r = Some V -> reachable V) ->
      addAcceptedIndent self v σ = Some σ' ->
      σ' !! self = Some L' -> reachable L'.

End IndentLevel.

(** ** Source positions, tokens and cursors (clang.cindex) *)

(** A [SourceLocation]: [file] stands for [location.file.name]. *)
Module SourceLocation.
Record t : Type := Build { file : string; line : Z; column : Z }.
End SourceLocation.

Module SourceRange.
Record t : Type := Build { start : SourceLocation.t; end_ : SourceLocation.t }.
End SourceRange.

Inductive TokenKind : Type :=
  | PUNCTUATION
  | KEYWORD
  | IDENTIFIER
  | LITERAL
  | COMMENT.

Module Token.
Record t : Type := Build { kind : TokenKind; spelling : string; extent : SourceRange.t }.
End Token.

(** A cursor, the [node] of a handler.  [kind] is [str(node.kind)], such as
    [CursorKind.CLASS_DECL]. *)
Module Cursor.
Record t : Type := Build { kind : string; spelling : string; extent : SourceRange.t }.
End Cursor.

(** ** Violations *)

(** Modelled from the spec: [violations.RuleViolation] and the violation
    sink behind [self.violations], both defined outside this file.  A
    violation is an immutable record of rule kind, file, line, column and
    message; the sink is an ordered collection whose [add] appends, so that
    insertion order is discovery order. *)
Record RuleViolation : Type := Build_RuleViolation {
  rule_type : string;
  rv_file : string;
  rv_line : Z;
  rv_column : Z;
  rv_text : string
}.

Definition violations_add (v : RuleViolation) (sink : list RuleViolation)
  : list RuleViolation :=
  sink ++ [v].

(** ** Configuration *)

(** [IndentationConfig], restricted to the attributes the handlers read and
    to [indent_statements_within_switch_body], the one attribute [__init__]
    sets for switch bodies.  [SwitchStmtHandler] reads
    [indent_within_switch_body] instead, which [__init__] does not set and
    the loop over [kwargs] refuses to create. *)
Record IndentationConfig : Type := Build_IndentationConfig {
  indentation_size : Z;
  tab_size : Z;
  indent_inside_class_struct_body : bool;
  indent_statements_within_switch_body : bool;
  indent_declarations_within_namespace_definition : bool;
  brace_positions_class_struct_declaration : string;
  brace_positions_namespace_declaration : string
}.

(** The values [IndentationConfig()] sets. *)
Definition IndentationConfig_default : IndentationConfig :=
  {| indentation_size := 4;
     tab_size := 4;
     indent_inside_class_struct_body := true;
     indent_statements_within_switch_body := false;
     indent_declarations_within_namespace_definition := false;
     brace_positions_class_struct_declaration := "same-line";
     brace_positions_namespace_declaration := "same-line" |}.

(** ** The handler classes *)

(** One constructor per handler class of the module, in source order. *)
Inductive HandlerClass : Type :=
  | IndentSyntaxNodeHandler
  | RootHandler
  | CurlyBraceBlockHandler
  | AddrLabelExprHandler
  | ArraySubscriptExprHandler
  | AsmStmtHandler
  | BinaryOperatorHandler
  | BlockExprHandler
  | BreakStmtHandler
  | CallExprHandler
  | CaseStmtHandler
  | CharacterLiteralHandler
  | ClassDeclHandler
  | ClassTemplateHandler
  | ClassTemplatePartialSpecializationHandler
  | CompoundAssignmentOperatorHandler
  | CompoundLiteralExprHandler
  | CompoundStmtHandler
  | ConditonalOperatorHandler
  | ConstructorHandler
  | ContinueStmtHandler
  | ConversionFunctionHandler
  | CstyleCastExprHandler
  | CxxAccessSpecDeclHandler
  | CxxBaseSpecifierHandler
  | CxxBoolLiteralExprHandler
  | CxxCatchStmtHandler
  | CxxConstCastExprHandler
  | CxxDeleteExprHandler
  | CxxDynamicCastExprHandler
  | CxxForRangeStmtHandler
  | CxxFunctionalCastExprHandler
  | CxxMethodHandler
  | CxxNewExprHandler
  | CxxNullPtrLiteralExprHandler
  | CxxReinterpretCastExprHandler
  | CxxStaticCastExprHandler
  | CxxThisExprHandler
  | CxxThrowExprHandler
  | CxxTryStmtHandler
  | CxxTypeidExprHandler
  | CxxUnaryExprHandler
  | DeclRefExprHandler
  | DeclStmtHandler
  | DefaultStmtHandler
  | DestructorHandler
  | DoStmtHandler
  | EnumConstantDeclHandler
  | EnumDeclHandler
  | FieldDeclHandler
  | FloatingLiteralHandler
  | ForStmtHandler
  | FunctionDeclHandler
  | FunctionTemplateHandler
  | GenericSelectionExprHandler
  | GnuNullExprHandler
  | GotoStmtHandler
  | IbActionAttrHandler
  | IbOutletAttrHandler
  | IbOutletCollectionAttrHandler
  | IfStmtHandler
  | ImaginaryLiteralHandler
  | InclusionDirectiveHandler
  | IndirectGotoStmtHandler
  | InitListExprHandler
  | IntegerLiteralHandler
  | InvalidCodeHandler
  | InvalidFileHandler
  | LabelRefHandler
  | LabelStmtHandler
  | LinkageSpecHandler
  | MacroDefinitionHandler
  | MacroInstantiationHandler
  | MemberRefHandler
  | MemberRefExprHandler
  | NamespaceHandler
  | NamespaceAliasHandler
  | NamespaceRefHandler
  | NotImplementedHandler
  | NoDeclFoundHandler
  | NullStmtHandler
  | ObjcAtCatchStmtHandler
  | ObjcAtFinallyStmtHandler
  | ObjcAtSynchronizedStmtHandler
  | ObjcAtThrowStmtHandler
  | ObjcAtTryStmtHandler
  | ObjcAutoreleasePoolStmtHandler
  | ObjcBridgeCastExprHandler
  | ObjcCategoryDeclHandler
  | ObjcCategoryImplDeclHandler
  | ObjcClassMethodDeclHandler
  | ObjcClassRefHandler
  | ObjcDynamicDeclHandler
  | ObjcEncodeExprHandler
  | ObjcForCollectionStmtHandler
  | ObjcImplementationDeclHandler
  | ObjcInstanceMethodDeclHandler
  | ObjcInterfaceDeclHandler
  | ObjcIvarDeclHandler
  | ObjcMessageExprHandler
  | ObjcPropertyDeclHandler
  | ObjcProtocolDeclHandler
  | ObjcProtocolExprHandler
  | ObjcProtocolRefHandler
  | ObjcSelectorExprHandler
  | ObjcStringLiteralHandler
  | ObjcSuperClassRefHandler
  | ObjcSynthesizeDeclHandler
  | OverloadedDeclRefHandler
  | PackExpansionExprHandler
  | ParenExprHandler
  | ParmDeclHandler
  | PreprocessingDirectiveHandler
  | ReturnStmtHandler
  | SehExceptStmtHandler
  | SehFinallyStmtHandler
  | SehTryStmtHandler
  | SizeOfPackExprHandler
  | StringLiteralHandler
  | StructDeclHandler
  | SwitchStmtHandler
  | StmtexprHandler
  | TemplateNonTypeParameterHandler
  | TemplateRefHandler
  | TemplateTemplateParameterHandler
  | TemplateTypeParameterHandler
  | TranslationUnitHandler
  | TypedefDeclHandler
  | TypeAliasDeclHandler
  | TypeRefHandler
  | UnaryOperatorHandler
  | UnexposedAttrHandler
  | UnexposedDeclHandler
  | UnexposedExprHandler
  | UnexposedStmtHandler
  | UnionDeclHandler
  | UsingDeclarationHandler
  | UsingDirectiveHandler
  | VarDeclHandler
  | WhileStmtHandler.

(** The names ending in [Handler] that the module binds to a class: what
    [eval(class_name)] can find.  The other name of that shape, [getHandler],
    starts with a lower-case letter, which [title()] never leaves in front. *)
Definition handler_classes : list (string * HandlerClass) :=
  [
   ("IndentSyntaxNodeHandler", IndentSyntaxNodeHandler);
   ("RootHandler", RootHandler);
   ("CurlyBraceBlockHandler", CurlyBraceBlockHandler);
   ("AddrLabelExprHandler", AddrLabelExprHandler);
   ("ArraySubscriptExprHandler", ArraySubscriptExprHandler);
   ("AsmStmtHandler", AsmStmtHandler);
   ("BinaryOperatorHandler", BinaryOperatorHandler);
   ("BlockExprHandler", BlockExprHandler);
   ("BreakStmtHandler", BreakStmtHandler);
   ("CallExprHandler", CallExprHandler);
   ("CaseStmtHandler", CaseStmtHandler);
   ("CharacterLiteralHandler", CharacterLiteralHandler);
   ("ClassDeclHandler", ClassDeclHandler);
   ("ClassTemplateHandler", ClassTemplateHandler);
   ("ClassTemplatePartialSpecializationHandler", ClassTemplatePartialSpecializationHandler);
   ("CompoundAssignmentOperatorHandler", CompoundAssignmentOperatorHandler);
   ("CompoundLiteralExprHandler", CompoundLiteralExprHandler);
   ("CompoundStmtHandler", CompoundStmtHandler);
   ("ConditonalOperatorHandler", ConditonalOperatorHandler);
   ("ConstructorHandler", ConstructorHandler);
   ("ContinueStmtHandler", ContinueStmtHandler);
   ("ConversionFunctionHandler", ConversionFunctionHandler);
   ("CstyleCastExprHandler", CstyleCastExprHandler);
   ("CxxAccessSpecDeclHandler", CxxAccessSpecDeclHandler);
   ("CxxBaseSpecifierHandler", CxxBaseSpecifierHandler);
   ("CxxBoolLiteralExprHandler", CxxBoolLiteralExprHandler);
   ("CxxCatchStmtHandler", CxxCatchStmtHandler);
   ("CxxConstCastExprHandler", CxxConstCastExprHandler);
   ("CxxDeleteExprHandler", CxxDeleteExprHandler);
   ("CxxDynamicCastExprHandler", CxxDynamicCastExprHandler);
   ("CxxForRangeStmtHandler", CxxForRangeStmtHandler);
   ("CxxFunctionalCastExprHandler", CxxFunctionalCastExprHandler);
   ("CxxMethodHandler", CxxMethodHandler);
   ("CxxNewExprHandler", CxxNewExprHandler);
   ("CxxNullPtrLiteralExprHandler", CxxNullPtrLiteralExprHandler);
   ("CxxReinterpretCastExprHandler", CxxReinterpretCastExprHandler);
   ("CxxStaticCastExprHandler", CxxStaticCastExprHandler);
   ("CxxThisExprHandler", CxxThisExprHandler);
   ("CxxThrowExprHandler", CxxThrowExprHandler);
   ("CxxTryStmtHandler", CxxTryStmtHandler);
   ("CxxTypeidExprHandler", CxxTypeidExprHandler);
   ("CxxUnaryExprHandler", CxxUnaryExprHandler);
   ("DeclRefExprHandler", DeclRefExprHandler);
   ("DeclStmtHandler", DeclStmtHandler);
   ("DefaultStmtHandler", DefaultStmtHandler);
   ("DestructorHandler", DestructorHandler);
   ("DoStmtHandler", DoStmtHandler);
   ("EnumConstantDeclHandler", EnumConstantDeclHandler);
   ("EnumDeclHandler", EnumDeclHandler);
   ("FieldDeclHandler", FieldDeclHandler);
   ("FloatingLiteralHandler", FloatingLiteralHandler);
   ("ForStmtHandler", ForStmtHandler);
   ("FunctionDeclHandler", FunctionDeclHandler);
   ("FunctionTemplateHandler", FunctionTemplateHandler);
   ("GenericSelectionExprHandler", GenericSelectionExprHandler);
   ("GnuNullExprHandler", GnuNullExprHandler);
   ("GotoStmtHandler", GotoStmtHandler);
   ("IbActionAttrHandler", IbActionAttrHandler);
   ("IbOutletAttrHandler", IbOutletAttrHandler);
   ("IbOutletCollectionAttrHandler", IbOutletCollectionAttrHandler);
   ("IfStmtHandler", IfStmtHandler);
   ("ImaginaryLiteralHandler", ImaginaryLiteralHandler);
   ("InclusionDirectiveHandler", InclusionDirectiveHandler);
   ("IndirectGotoStmtHandler", IndirectGotoStmtHandler);
   ("InitListExprHandler", InitListExprHandler);
   ("IntegerLiteralHandler", IntegerLiteralHandler);
   ("InvalidCodeHandler", InvalidCodeHandler);
   ("InvalidFileHandler", InvalidFileHandler);
   ("LabelRefHandler", LabelRefHandler);
   ("LabelStmtHandler", LabelStmtHandler);
   ("LinkageSpecHandler", LinkageSpecHandler);
   ("MacroDefinitionHandler", MacroDefinitionHandler);
   ("MacroInstantiationHandler", MacroInstantiationHandler);
   ("MemberRefHandler", MemberRefHandler);
   ("MemberRefExprHandler", MemberRefExprHandler);
   ("NamespaceHandler", NamespaceHandler);
   ("NamespaceAliasHandler", NamespaceAliasHandler);
   ("NamespaceRefHandler", NamespaceRefHandler);
   ("NotImplementedHandler", NotImplementedHandler);
   ("NoDeclFoundHandler", NoDeclFoundHandler);
   ("NullStmtHandler", NullStmtHandler);
   ("ObjcAtCatchStmtHandler", ObjcAtCatchStmtHandler);
   ("ObjcAtFinallyStmtHandler", ObjcAtFinallyStmtHandler);
   ("ObjcAtSynchronizedStmtHandler", ObjcAtSynchronizedStmtHandler);
   ("ObjcAtThrowStmtHandler", ObjcAtThrowStmtHandler);
   ("ObjcAtTryStmtHandler", ObjcAtTryStmtHandler);
   ("ObjcAutoreleasePoolStmtHandler", ObjcAutoreleasePoolStmtHandler);
   ("ObjcBridgeCastExprHandler", ObjcBridgeCastExprHandler);
   ("ObjcCategoryDeclHandler", ObjcCategoryDeclHandler);
   ("ObjcCategoryImplDeclHandler", ObjcCategoryImplDeclHandler);
   ("ObjcClassMethodDeclHandler", ObjcClassMethodDeclHandler);
   ("ObjcClassRefHandler", ObjcClassRefHandler);
   ("ObjcDynamicDeclHandler", ObjcDynamicDeclHandler);
   ("ObjcEncodeExprHandler", ObjcEncodeExprHandler);
   ("ObjcForCollectionStmtHandler", ObjcForCollectionStmtHandler);
   ("ObjcImplementationDeclHandler", ObjcImplementationDeclHandler);
   ("ObjcInstanceMethodDeclHandler", ObjcInstanceMethodDeclHandler);
   ("ObjcInterfaceDeclHandler", ObjcInterfaceDeclHandler);
   ("ObjcIvarDeclHandler", ObjcIvarDeclHandler);
   ("ObjcMessageExprHandler", ObjcMessageExprHandler);
   ("ObjcPropertyDeclHandler", ObjcPropertyDeclHandler);
   ("ObjcProtocolDeclHandler", ObjcProtocolDeclHandler);
   ("ObjcProtocolExprHandler", ObjcProtocolExprHandler);
   ("ObjcProtocolRefHandler", ObjcProtocolRefHandler);
   ("ObjcSelectorExprHandler", ObjcSelectorExprHandler);
   ("ObjcStringLiteralHandler", ObjcStringLiteralHandler);
   ("ObjcSuperClassRefHandler", ObjcSuperClassRefHandler);
   ("ObjcSynthesizeDeclHandler", ObjcSynthesizeDeclHandler);
   ("OverloadedDeclRefHandler", OverloadedDeclRefHandler);
   ("PackExpansionExprHandler", PackExpansionExprHandler);
   ("ParenExprHandler", ParenExprHandler);
   ("ParmDeclHandler", ParmDeclHandler);
   ("PreprocessingDirectiveHandler", PreprocessingDirectiveHandler);
   ("ReturnStmtHandler", ReturnStmtHandler);
   ("SehExceptStmtHandler", SehExceptStmtHandler);
   ("SehFinallyStmtHandler", SehFinallyStmtHandler);
   ("SehTryStmtHandler", SehTryStmtHandler);
   ("SizeOfPackExprHandler", SizeOfPackExprHandler);
   ("StringLiteralHandler", StringLiteralHandler);
   ("StructDeclHandler", StructDeclHandler);
   ("SwitchStmtHandler", SwitchStmtHandler);
   ("StmtexprHandler", StmtexprHandler);
   ("TemplateNonTypeParameterHandler", TemplateNonTypeParameterHandler);
   ("TemplateRefHandler", TemplateRefHandler);
   ("TemplateTemplateParameterHandler", TemplateTemplateParameterHandler);
   ("TemplateTypeParameterHandler", TemplateTypeParameterHandler);
   ("TranslationUnitHandler", TranslationUnitHandler);
   ("TypedefDeclHandler", TypedefDeclHandler);
   ("TypeAliasDeclHandler", TypeAliasDeclHandler);
   ("TypeRefHandler", TypeRefHandler);
   ("UnaryOperatorHandler", UnaryOperatorHandler);
   ("UnexposedAttrHandler", UnexposedAttrHandler);
   ("UnexposedDeclHandler", UnexposedDeclHandler);
   ("UnexposedExprHandler", UnexposedExprHandler);
   ("UnexposedStmtHandler", UnexposedStmtHandler);
   ("UnionDeclHandler", UnionDeclHandler);
   ("UsingDeclarationHandler", UsingDeclarationHandler);
   ("UsingDirectiveHandler", UsingDirectiveHandler);
   ("VarDeclHandler", VarDeclHandler);
   ("WhileStmtHandler", WhileStmtHandler)
  ].

(** ** Python helpers *)

(** [x is None]. *)
Definition is_None {A} (x : option A) : bool :=
  match x with None => true | Some _ => false end.

(** [l[i]] on a list: a negative index counts from the end, an index out of
    range raises [IndexError]. *)
Definition py_index {A} (l : list A) (i : Z) : outcome A :=
  let n := Z.of_nat (length l) in
  let j := if i <? 0 then i + n else i in
  if (j <? 0) || (n <=? j) then Raise IndexError
  else match l !! Z.to_nat j with
       | Some x => Ok x
       | None => Raise IndexError
       end.

Definition isupper (c : ascii) : bool :=
  let n := nat_of_ascii c in (65 <=? n)%nat && (n <=? 90)%nat.
Definition islower (c : ascii) : bool :=
  let n := nat_of_ascii c in (97 <=? n)%nat && (n <=? 122)%nat.
Definition toupper (c : ascii) : ascii :=
  if islower c then ascii_of_nat (nat_of_ascii c - 32) else c.
Definition tolower (c : ascii) : ascii :=
  if isupper c then ascii_of_nat (nat_of_ascii c + 32) else c.

(** [s.title()] on a byte string: a cased character is made upper case when
    the character before it is not cased, lower case when it is. *)
Fixpoint title_from (previous_is_cased : bool) (s : string) : string :=
  match s with
  | EmptyString => EmptyString
  | String c s' =>
      if islower c then
        String (if previous_is_cased then c else toupper c) (title_from true s')
      else if isupper c then
        String (if previous_is_cased then tolower c else c) (title_from true s')
      else String c (title_from false s')
  end.
Definition title (s : string) : string := title_from false s.

(** [s.replace(c, '')] and [s.replace(c, d)] for one-character [c], [d]. *)
Fixpoint remove_char (c : ascii) (s : string) : string :=
  match s with
  | EmptyString => EmptyString
  | String x s' => if Ascii.eqb x c then remove_char c s' else String x (remove_char c s')
  end.
Fixpoint replace_char (c d : ascii) (s : string) : string :=
  match s with
  | EmptyString => EmptyString
  | String x s' => String (if Ascii.eqb x c then d else x) (replace_char c d s')
  end.

(** [s.split('.')[-1]]: what follows the last dot, [s] itself without one. *)
Fixpoint after_last_dot_from (acc : string) (s : string) : string :=
  match s with
  | EmptyString => acc
  | String x s' =>
      if Ascii.eqb x "."%char then after_last_dot_from s' s'
      else after_last_dot_from acc s'
  end.
Definition after_last_dot (s : string) : string := after_last_dot_from s s.

(** [repr(s)] of a string of printable characters without quote or
    backslash, which the names of cursor kinds are. *)
Definition repr (s : string) : string := ("'" ++ s ++ "'")%string.

(** [kind_name] and [class_name] of [getHandler]. *)
Definition kind_name_of (node : Cursor.t) : string :=
  after_last_dot (repr (Cursor.kind node)).
Definition class_name_of (kind_name : string) : string :=
  (remove_char " "%char
     (title (replace_char "_"%char " "%char (remove_char "'"%char kind_name)))
   ++ "Handler")%string.

(** [eval(class_name)]: the class bound to the name, [NameError] for a name
    the module does not bind.  The names of cursor kinds are identifiers, so
    that [class_name] is one too and [eval] is a look-up of that name. *)
Fixpoint lookup_class (class_name : string) (classes : list (string * HandlerClass))
  : outcome HandlerClass :=
  match classes with
  | [] => Raise NameError
  | (n, k) :: classes' =>
      if String.eqb n class_name then Ok k else lookup_class class_name classes'
  end.
Definition eval (class_name : string) : outcome HandlerClass :=
  lookup_class class_name handler_classes.

(** ** The state the handlers share *)

(** The violation sink, and the log of the calls of [ci.tokenize] (the
    extent of each call, in order).  The log is not a variable of the
    program: it records the calls of the external tokenizer, which a
    statement about caching counts. *)
Record World : Type := Build_World {
  violations : list RuleViolation;
  tokenize_calls : list SourceRange.t
}.

Definition World_add_violation (v : RuleViolation) (w : World) : World :=
  {| violations := violations_add v (violations w);
     tokenize_calls := tokenize_calls w |}.
Definition World_log_tokenize (extent : SourceRange.t) (w : World) : World :=
  {| violations := violations w;
     tokenize_calls := tokenize_calls w ++ [extent] |}.

(** ** Node handlers *)

Module Handler.

(** A handler object.  [klass] is its class; [node] and [parent] are
    [None] for the root handler; [config] is [indentation_check.config];
    the sink [self.violations] is the one of the shared [World]. *)
#[local] Unset Elimination Schemes.
Inductive t : Type := Build {
  klass : HandlerClass;
  handler_name : option string;
  node : option Cursor.t;
  parent : option t;
  config : IndentationConfig;
  level : IndentLevel.t;
  _token_set : option (list Token.t)
}.
#[local] Set Elimination Schemes.

Definition set_token_set (ts : list Token.t) (self : t) : t :=
  Build (klass self) (handler_name self) (node self) (parent self)
        (config self) (level self) (Some ts).

(** A method runs on [self] and the shared world and may change both. *)
Definition st : Type := (t * World)%type.

Definition is_punctuation (spelling : string) (tok : Token.t) : bool :=
  match Token.kind tok with
  | PUNCTUATION => String.eqb (Token.spelling tok) spelling
  | _ => false
  end.

(** The loop of [getTokenLeftOfLeftLCurlyBrace]. *)
Fixpoint token_left_of_lcurly (token_set : list Token.t) (res : option Token.t)
  : option Token.t :=
  match token_set with
  | [] => None
  | tok :: token_set' =>
      if is_punctuation "{" tok then res
      else token_left_of_lcurly token_set' (Some tok)
  end.

(** The loops of [getLCurlyBrace] and, on the reversed list, of
    [getRCurlyBrace]. *)
Fixpoint first_punctuation (spelling : string) (token_set : list Token.t)
  : option Token.t :=
  match token_set with
  | [] => None
  | tok :: token_set' =>
      if is_punctuation spelling tok then Some tok
      else first_punctuation spelling token_set'
  end.

(** [node1 and node2 and node1.extent.start.line == node2.extent.start.line],
    as a truth value; [None] is the only falsy node. *)
Definition areOnSameLine (node1 node2 : option Token.t) : bool :=
  match node1, node2 with
  | Some n1, Some n2 =>
      SourceLocation.line (SourceRange.start (Token.extent n1))
      =? SourceLocation.line (SourceRange.start (Token.extent n2))
  | _, _ => false
  end.

Definition areOnSameColumn (node1 node2 : option Token.t) : bool :=
  match node1, node2 with
  | Some n1, Some n2 =>
      SourceLocation.column (SourceRange.start (Token.extent n1))
      =? SourceLocation.column (SourceRange.start (Token.extent n2))
  | _, _ => false
  end.

(** [shouldIncreaseIndent], by class.  [StructDeclHandler] inherits the
    method of [ClassDeclHandler]; [SwitchStmtHandler] reads an attribute
    the configuration does not have. *)
Definition shouldIncreaseIndent (self : t) : outcome bool :=
  match klass self with
  | ClassDeclHandler | ClassTemplateHandler
  | ClassTemplatePartialSpecializationHandler | StructDeclHandler
  | EnumDeclHandler =>
      Ok (indent_inside_class_struct_body (config self))
  | NamespaceHandler =>
      Ok (indent_declarations_within_namespace_definition (config self))
  | SwitchStmtHandler => Raise AttributeError
  | _ => Ok false
  end.

(** [self.suggestedChildLevel(child)]; the child is not looked at. *)
Definition suggestedChildLevel (self : t) : outcome IndentLevel.t :=
  obind (shouldIncreaseIndent self) (fun increase =>
    if increase
    then IndentLevel.__init__ None (Some (level self)) (Some (indentation_size (config self)))
    else IndentLevel.__init__ None (Some (level self)) (Some 0)).

(** [_getLevelImpl]: [RootHandler] overrides it; the other classes ask the
    parent, and [None] has no method. *)
Definition _getLevelImpl (k : HandlerClass) (parent : option t) : outcome IndentLevel.t :=
  match k with
  | RootHandler => IndentLevel.__init__ (Some 0) None None
  | _ =>
      match parent with
      | None => Raise AttributeError
      | Some p => suggestedChildLevel p
      end
  end.

(** [IndentSyntaxNodeHandler.__init__], which every class but
    [RootHandler] inherits. *)
Definition __init__ (k : HandlerClass) (cfg : IndentationConfig)
    (handler_name : option string) (node : option Cursor.t) (parent : option t)
  : outcome t :=
  obind (_getLevelImpl k parent) (fun lvl =>
    Ok (Build k handler_name node parent cfg lvl None)).

Section Methods.

(** [ci.tokenize(translation_unit, extent)] for the translation unit
    of the session, and [file_reader.readFile(name)], of which the code
    uses the list of lines. *)
Variable tokenize : SourceRange.t -> list Token.t.
Variable readFile : string -> outcome (list string).

(** [_getTokenSet]: [if self._token_set] holds for a sequence that is
    neither [None] nor empty. *)
Definition _getTokenSet : M st (list Token.t) :=
  let* s := get in
  match _token_set (fst s) with
  | Some (tok :: toks) => ret (tok :: toks)
  | _ =>
      match node (fst s) with
      | None => raise AttributeError
      | Some n =>
          let extent := Cursor.extent n in
          let ts := tokenize extent in
          run modify (fun s : st =>
                (set_token_set ts (fst s), World_log_tokenize extent (snd s))) then
          ret ts
      end
  end.

(** The token sequence [_getTokenSet] returns for [self]: the cached
    one if it is kept, a fresh one otherwise, none without a node. *)
Definition window (self : t) : option (list Token.t) :=
  match _token_set self with
  | Some (tok :: toks) => Some (tok :: toks)
  | _ =>
      match node self with
      | Some n => Some (tokenize (Cursor.extent n))
      | None => None
      end
  end.

(** The world after [_getTokenSet]: one more call of the tokenizer,
    unless the cached sequence is kept. *)
Definition tokenized (self : t) (w : World) : World :=
  match _token_set self with
  | Some (_ :: _) => w
  | _ =>
      match node self with
      | Some n => World_log_tokenize (Cursor.extent n) w
      | None => w
      end
  end.

Definition getFirstToken : M st Token.t :=
  let* ts := _getTokenSet in
  match ts with
  | [] => raise AssertionError
  | tok :: _ => ret tok
  end.

Definition getTokenLeftOfLeftLCurlyBrace : M st (option Token.t) :=
  let* token_set := _getTokenSet in
  ret (token_left_of_lcurly token_set None).

Definition getLCurlyBrace : M st (option Token.t) :=
  let* token_set := _getTokenSet in
  ret (first_punctuation "{" token_set).

Definition getRCurlyBrace : M st (option Token.t) :=
  let* token_set := _getTokenSet in
  ret (first_punctuation "}" (rev token_set)).

(** [logViolation(rule_type, node, text)]: [node] is a token or a
    cursor, of which only [node.extent] is read; [None] has none. *)
Definition logViolation (rule_type : string) (node : option SourceRange.t)
    (text : string) : M st unit :=
  match node with
  | None => raise AttributeError
  | Some extent =>
      let start := SourceRange.start extent in
      let v := Build_RuleViolation rule_type (SourceLocation.file start)
                 (SourceLocation.line start) (SourceLocation.column start) text in
      modify (fun s : st => (fst s, World_add_violation v (snd s)))
  end.

(** [expandedTabsColumnNo(node)], on [node.extent] as above. *)
Definition expandedTabsColumnNo (self : t) (node : option SourceRange.t)
  : outcome Z :=
  match node with
  | None => Raise AttributeError
  | Some extent =>
      let start := SourceRange.start extent in
      obind (readFile (SourceLocation.file start)) (fun lines =>
      obind (py_index lines (SourceLocation.line start - 1)) (fun line =>
      lengthExpandedTabs line (SourceLocation.column start - 1)
                         (tab_size (config self))))
  end.

Definition start_line (tok : Token.t) : Z :=
  SourceLocation.line (SourceRange.start (Token.extent tok)).

(** [t.extent.start.line == lbrace.extent.start.line + 1], the test of
    the styles [next-line] and [next-line-indent]; [t] may be [None]. *)
Definition owner_line_is_after_lbrace (t : option Token.t) (lbrace : Token.t)
  : M st bool :=
  match t with
  | None => raise AttributeError
  | Some tok => ret (start_line tok =? start_line lbrace + 1)
  end.

Definition msg_same_line : string :=
  "Opening brace should be on the same line as the token left of it.".
Definition msg_open_column : string :=
  "Opening brace should be on the same column as block start.".
Definition msg_close_column : string :=
  "Closing brace should be on the same column as block start.".
Definition msg_line_after : string :=
  "Opening brace should be on the line directly after block start.".
Definition msg_open_indent : string :=
  "Opening brace should be indented one level further than block start.".
Definition msg_close_indent : string :=
  "Closing brace should be indented one level further than block start.".

(** [if c: body]. *)
Definition when (c : bool) (body : M st unit) : M st unit :=
  if c then body else ret tt.

(** [checkCurlyBraces(indent_type)].  The two [print] statements of the
    last style write to the standard output, which is not modelled; the
    first reads [rbrace.spelling] and so raises for [rbrace = None]. *)
Definition checkCurlyBraces (indent_type : string) : M st unit :=
  let* lbrace := getLCurlyBrace in
  let* rbrace := getRCurlyBrace in
  let* t := getTokenLeftOfLeftLCurlyBrace in
  match lbrace with
  | None =>
      run assert (is_None rbrace) then
      run assert (is_None t) then
      ret tt
  | Some lb =>
      let lbrace_extent := Some (Token.extent lb) in
      let rbrace_extent := Token.extent <$> rbrace in
      if String.eqb indent_type "same-line" then
        run when (negb (areOnSameLine t lbrace))
              (logViolation "indent.brace" lbrace_extent msg_same_line) then
        let* first := getFirstToken in
        when (negb (areOnSameColumn (Some first) rbrace))
          (logViolation "indent.brace" rbrace_extent msg_close_column)
      else if String.eqb indent_type "next-line" then
        let* first := getFirstToken in
        run when (negb (areOnSameColumn (Some first) lbrace))
              (logViolation "indent.brace" lbrace_extent msg_open_column) then
        let* after := owner_line_is_after_lbrace t lb in
        run when after
              (logViolation "indent.brace" lbrace_extent msg_line_after) then
        let* first' := getFirstToken in
        when (negb (areOnSameColumn (Some first') rbrace))
          (logViolation "indent.brace" rbrace_extent msg_close_column)
      else
        run assert (String.eqb indent_type "next-line-indent") then
        let* after := owner_line_is_after_lbrace t lb in
        run when after
              (logViolation "indent.brace" lbrace_extent msg_line_after) then
        let* self := get in
        let* next_level :=
          lift (IndentLevel.__init__ None (Some (level (fst self)))
                  (Some (indentation_size (config (fst self))))) in
        run (match rbrace with
             | None => raise AttributeError
             | Some _ => ret tt
             end) then
        let* lcol := lift (expandedTabsColumnNo (fst self) lbrace_extent) in
        run when (negb (IndentLevel.accept next_level lcol))
              (logViolation "indent.brace" lbrace_extent msg_open_indent) then
        let* rcol := lift (expandedTabsColumnNo (fst self) rbrace_extent) in
        when (negb (IndentLevel.accept next_level rcol))
          (logViolation "indent.brace" rbrace_extent msg_close_indent)
  end.

(** [TypedefDeclHandler.checkIndentation]: the [print] statement
    evaluates the column once, the test once more. *)
Definition TypedefDecl_checkIndentation : M st unit :=
  let* self := get in
  let node_extent := Cursor.extent <$> node (fst self) in
  let* _printed := lift (expandedTabsColumnNo (fst self) node_extent) in
  let* col := lift (expandedTabsColumnNo (fst self) node_extent) in
  when (negb (IndentLevel.accept (level (fst self)) col))
    (logViolation "indent.statement" node_extent "Invalid indentation level.").

(** [checkIndentation], by class: abstract in the two base classes, the
    brace check in the class-like handlers and the namespace handler,
    the column check in [TypedefDeclHandler], [pass] elsewhere. *)
Definition checkIndentation : M st unit :=
  let* self := get in
  match klass (fst self) with
  | IndentSyntaxNodeHandler | CurlyBraceBlockHandler => raise AbstractMethod
  | ClassDeclHandler | ClassTemplateHandler
  | ClassTemplatePartialSpecializationHandler | StructDeclHandler =>
      checkCurlyBraces (brace_positions_class_struct_declaration (config (fst self)))
  | NamespaceHandler =>
      checkCurlyBraces (brace_positions_namespace_declaration (config (fst self)))
  | TypedefDeclHandler => TypedefDecl_checkIndentation
  | _ => ret tt
  end.

End Methods.

End Handler.

(** ** Handler lookup *)

(** [getHandler(indentation_check, node, parent)]; [cfg] is
    [indentation_check.config].  [RootHandler.__init__] takes the check
    alone, so that calling the class with four arguments raises. *)
Definition getHandler (cfg : IndentationConfig) (node : Cursor.t) (parent : Handler.t)
  : outcome Handler.t :=
  let kind_name := kind_name_of node in
  let class_name := class_name_of kind_name in
  obind (eval class_name) (fun klass =>
    match klass with
    | RootHandler => Raise TypeError
    | _ => Handler.__init__ klass cfg (Some kind_name) (Some node) (Some parent)
    end).

(** ** The tree check *)

(** Modelled from the spec: the syntax tree the traversal engine walks, a
    node with its children in source order; the tree and its walker are
    defined outside this file. *)
#[local] Unset Elimination Schemes.
Inductive Tree : Type :=
  | TreeNode (node : Cursor.t) (children : list Tree).
#[local] Set Elimination Schemes.

Module IndentationCheck.

(** An [IndentationCheck] object; [world] holds the sink
    [self.violations], which the base class [TreeCheck] provides. *)
Record t : Type := Build {
  config : IndentationConfig;
  handlers : list Handler.t;
  level : Z;
  world : World
}.

Definition __init__ (cfg : IndentationConfig) (w : World) : t :=
  Build cfg [] 0 w.

Section Methods.

Variable tokenize : SourceRange.t -> list Token.t.
Variable readFile : string -> outcome (list string).

Definition beginTree : M t unit :=
  let* self := get in
  run assert (length (handlers self) =? 0)%nat then
  let* root := lift (Handler.__init__ RootHandler (config self) None None None) in
  modify (fun self => Build (config self) [root] (level self) (world self)).

Definition endTree : M t unit :=
  let* self := get in
  run assert (length (handlers self) =? 1)%nat then
  modify (fun self => Build (config self) [] (level self) (world self)).

(** [self.handlers.append(handler)] followed by
    [handler.checkIndentation()].  The list holds the very object the
    check works on, so what the check changes of the handler is seen in
    the list, whether the check returns or raises. *)
Definition append_and_check (handler : Handler.t) : M t unit :=
  fun self =>
    let '(o, (handler', w')) :=
      Handler.checkIndentation tokenize readFile (handler, world self) in
    (o, Build (config self) (handlers self ++ [handler']) (level self) w').

(** [enterNode(node)].  The arguments of [getHandler] are evaluated
    first, [self.handlers[-1]] among them; a handler object is truthy. *)
Definition enterNode (node : Cursor.t) : M t unit :=
  let* self := get in
  let* parent := lift (py_index (handlers self) (-1)) in
  let* handler := lift (getHandler (config self) node parent) in
  run append_and_check handler then
  modify (fun self =>
    Build (config self) (handlers self) (level self + 1) (world self)).

(** [exitNode(node)]: [pop()] raises on an empty list. *)
Definition exitNode : M t unit :=
  run modify (fun self =>
        Build (config self) (handlers self) (level self - 1) (world self)) then
  let* self := get in
  match handlers self with
  | [] => raise IndexError
  | _ :: _ =>
      put (Build (config self) (removelast (handlers self)) (level self) (world self))
  end.

(** Modelled from the spec: the traversal engine, which is defined
    outside this file.  It walks the tree depth first, entering a node
    before its children and leaving it after them, between [beginTree]
    and [endTree]; an exception of a callback ends the walk. *)
Fixpoint walk (tree : Tree) : M t unit :=
  match tree with
  | TreeNode node children =>
      run enterNode node then
      run (fix walk_children (cs : list Tree) : M t unit :=
             match cs with
             | [] => ret tt
             | c :: cs' => run walk c then walk_children cs'
             end) children then
      exitNode
  end.

Definition traverse (root : Tree) : M t unit :=
  run beginTree then
  run walk root then
  endTree.

End Methods.

End IndentationCheck.

(** ** Violations added by a call *)

(** The violation [logViolation('indent.brace', tok, text)] adds. *)
Definition brace_violation (tok : Token.t) (text : string) : RuleViolation :=
  let start := SourceRange.start (Token.extent tok) in
  Build_RuleViolation "indent.brace" (SourceLocation.file start)
    (SourceLocation.line start) (SourceLocation.column start) text.

Definition start_column (tok : Token.t) : Z :=
  SourceLocation.column (SourceRange.start (Token.extent tok)).

(** The violations a call added to the sink. *)
Definition added (before after : World) : list RuleViolation :=
  drop (length (violations before)) (violations after).

(** Several violations added in order. *)
Definition World_add_violations (vs : list RuleViolation) (w : World) : World :=
  foldl (fun w' v => World_add_violation v w') w vs.

(** What a test of the check contributes: one violation or none. *)
Definition unless (ok : bool) (v : RuleViolation) : list RuleViolation :=
  if ok then [] else [v].

(** Whether a call added a violation of the given message to the sink. *)
Definition records (text : string) (before after : World) : bool :=
  existsb (fun v => String.eqb (rv_text v) text) (added before after).

(** The handler of the root, as [beginTree] builds it. *)
Definition root_handler (cfg : IndentationConfig) : Handler.t :=
  Handler.Build RootHandler None None None cfg (IndentLevel.Build ({[ 0 ]} ∪ ∅)) None.

(** ** Sample inputs *)

Module Sample.

Definition loc (line column : Z) : SourceLocation.t :=
  SourceLocation.Build "a.cpp" line column.

(** A token of the given spelling that starts at the given line and
    column, both counted from 1. *)
Definition tok (kind : TokenKind) (spelling : string) (line column : Z) : Token.t :=
  Token.Build kind spelling
    (SourceRange.Build (loc line column)
       (loc line (column + Z.of_nat (String.length spelling)))).

Definition cursor (kind : string) (spelling : string) (line column : Z) : Cursor.t :=
  Cursor.Build kind spelling
    (SourceRange.Build (loc line column) (loc line (column + 1))).

Definition world0 : World := Build_World [] [].

(** A handler of a class declaration below the root: its level is the
    level of the root, the column 0. *)
Definition class_handler (cfg : IndentationConfig) (node : Cursor.t) : Handler.t :=
  Handler.Build ClassDeclHandler (Some "CLASS_DECL'") (Some node) None cfg
    (IndentLevel.Build {[ 0 ]}) None.

Definition class_node : Cursor.t := cursor "CursorKind.CLASS_DECL" "C" 1 1.

(** [class C {] and, two lines below, the closing brace on column 1; the
    opening brace is on the given line. *)
Definition same_line_tokens (lbrace_line : Z) : list Token.t :=
  [ tok KEYWORD "class" 1 1; tok IDENTIFIER "C" 1 7;
    tok PUNCTUATION "{" lbrace_line 9; tok PUNCTUATION "}" 3 1 ].

(** [class C], the opening brace on the next line after the given
    indentation, and the closing brace on the third line after four
    spaces. *)
Definition next_line_lines (indent : string) : list string :=
  [ "class C"; (indent ++ "{")%string; "    }" ].
Definition next_line_tokens (indent : string) : list Token.t :=
  [ tok KEYWORD "class" 1 1; tok IDENTIFIER "C" 1 7;
    tok PUNCTUATION "{" 2 (Z.of_nat (String.length indent) + 1);
    tok PUNCTUATION "}" 3 5 ].

End Sample.

Module SampleTree.

(** [class C {], a member declaration after five spaces, and [};]. *)
Definition lines (member : string) : list string :=
  [ "class C {"; ("     " ++ member)%string; "};" ].

Definition class_tokens (member : list Token.t) : list Token.t :=
  ([ Sample.tok KEYWORD "class" 1 1; Sample.tok IDENTIFIER "C" 1 7;
     Sample.tok PUNCTUATION "{" 1 9 ]
   ++ member
   ++ [ Sample.tok PUNCTUATION "}" 3 1; Sample.tok PUNCTUATION ";" 3 2 ])%list.

Definition typedef_tokens : list Token.t :=
  [ Sample.tok KEYWORD "typedef" 2 6; Sample.tok KEYWORD "int" 2 14;
    Sample.tok IDENTIFIER "T" 2 18; Sample.tok PUNCTUATION ";" 2 19 ].
Definition field_tokens : list Token.t :=
  [ Sample.tok KEYWORD "int" 2 6; Sample.tok IDENTIFIER "x" 2 10;
    Sample.tok PUNCTUATION ";" 2 11 ].

(** The tokenizer: the extent of the class starts on line 1. *)
Definition tokenize (member : list Token.t) (extent : SourceRange.t) : list Token.t :=
  if SourceLocation.line (SourceRange.start extent) =? 1
  then class_tokens member else member.

Definition typedef_node : Cursor.t := Sample.cursor "CursorKind.TYPEDEF_DECL" "T" 2 6.
Definition field_node : Cursor.t := Sample.cursor "CursorKind.FIELD_DECL" "x" 2 6.

End SampleTree.

(** ** Notions for the traversal *)

(** The loop over the children inside [walk]. *)
Definition walk_children (tokenize : SourceRange.t -> list Token.t)
    (readFile : string -> outcome (list string))
  : list Tree -> M IndentationCheck.t unit :=
  fix walk_children (cs : list Tree) : M IndentationCheck.t unit :=
    match cs with
    | [] => ret tt
    | c :: cs' => run IndentationCheck.walk tokenize readFile c then walk_children cs'
    end.

(** A property of every node of a tree. *)
Fixpoint tree_forall (P : Cursor.t -> bool) (tree : Tree) : bool :=
  match tree with
  | TreeNode node children =>
      P node
      && (fix children_forall (cs : list Tree) : bool :=
            match cs with
            | [] => true
            | c :: cs' => tree_forall P c && children_forall cs'
            end) children
  end.

(** Two states of one handler object that differ in the stored token
    window at most. *)
Definition same_handler (h h' : Handler.t) : Prop :=
  Handler.klass h' = Handler.klass h
  /\ Handler.handler_name h' = Handler.handler_name h
  /\ Handler.node h' = Handler.node h
  /\ Handler.parent h' = Handler.parent h
  /\ Handler.config h' = Handler.config h
  /\ Handler.level h' = Handler.level h.

(** The sink and the log of the tokenizer only grow at their ends. *)
Definition grows (w w' : World) : Prop :=
  violations w `prefix_of` violations w'
  /\ tokenize_calls w `prefix_of` tokenize_calls w'.

(** A method that changes of its handler the stored window at most, and
    that only adds to the sink. *)
Definition steady {A} (m : M Handler.st A) : Prop :=
  forall s : Handler.st,
    same_handler (fst s) (fst (exec m s)) /\ grows (snd s) (snd (exec m s)).

(** Every handler on the stack accepts exactly one column. *)
Definition single_levels (self : IndentationCheck.t) : Prop :=
  Forall (fun h => size (IndentLevel.levels (Handler.level h)) = 1%nat)
         (IndentationCheck.handlers self).

(** The classes whose [checkIndentation] is [pass] and whose
    [shouldIncreaseIndent] returns. *)
Definition checks_nothing (k : HandlerClass) : bool :=
  match k with
  | IndentSyntaxNodeHandler | RootHandler | CurlyBraceBlockHandler
  | ClassDeclHandler | ClassTemplateHandler
  | ClassTemplatePartialSpecializationHandler | StructDeclHandler
  | NamespaceHandler | SwitchStmtHandler | TypedefDeclHandler => false
  | _ => true
  end.

(** A node for which [getHandler] finds such a class. *)
Definition unchecked_kind (node : Cursor.t) : bool :=
  match eval (class_name_of (kind_name_of node)) with
  | Ok k => checks_nothing k
  | Raise _ => false
  end.

(** What a walk does to the check: the configuration stays, sink and log
    grow, single levels stay single; a walk that returns leaves stack and
    depth as they were, one that raises leaves the stack it found below
    what it pushed. *)
Definition walk_shape (m : M IndentationCheck.t unit) : Prop :=
  forall s : IndentationCheck.t,
    let r := m s in
    IndentationCheck.config (snd r) = IndentationCheck.config s
    /\ grows (IndentationCheck.world s) (IndentationCheck.world (snd r))
    /\ (single_levels s -> single_levels (snd r))
    /\ match fst r with
       | Ok _ =>
           IndentationCheck.handlers (snd r) = IndentationCheck.handlers s
           /\ IndentationCheck.level (snd r) = IndentationCheck.level s
       | Raise _ =>
           IndentationCheck.handlers s `prefix_of` IndentationCheck.handlers (snd r)
       end.

(** * Properties *)

(** ** Indent levels *)

Section IndentLevelFacts.

Import IndentLevel.

(** The loop of the constructor builds the translated set and keeps the
    number of members. *)
Lemma derive_fold_spec (k : Z) (X : gset Z) :
  let Y := set_fold (fun l (acc : gset Z) => {[ l + k ]} ∪ acc) ∅ X in
  (forall c, c ∈ Y <-> c - k ∈ X) /\ size Y = size X.
Proof.
  cbv zeta.
  apply (set_fold_ind_L
           (fun (Y X : gset Z) => (forall c, c ∈ Y <-> c - k ∈ X) /\ size Y = size X)).
  - split; [set_solver | by rewrite !size_empty].
  - intros x X' r Hx [Hmem Hsize]. split.
    + intros c. rewrite !elem_of_union, !elem_of_singleton, Hmem.
      split; (intros [?|?]; [left; lia | by right]).
    + rewrite !size_union, !size_singleton, Hsize; [done | set_solver |].
      apply disjoint_singleton_l. rewrite Hmem.
      by replace (x + k - k) with x by lia.
Qed.

Lemma init_singleton (c : Z) (base : option t) (offset : option Z) :
  __init__ (Some c) base offset = Ok (Build {[ c ]}).
Proof. cbn. by rewrite (right_id_L ∅ (∪)). Qed.

Lemma init_derive (P : t) (k : Z) :
  __init__ None (Some P) (Some k)
  = Ok (Build (set_fold (fun l (acc : gset Z) => {[ l + k ]} ∪ acc) ∅ (levels P))).
Proof. reflexivity. Qed.

Lemma accept_true (L : t) (c : Z) : accept L c = true <-> c ∈ levels L.
Proof. unfold accept. apply bool_decide_eq_true. Qed.

(** Adding members one by one to [self] leaves the other objects alone and
    yields the union at [self]. *)
Lemma levels_add_fold (self : ref) (l : list Z) (σ : store) (L : t) :
  σ !! self = Some L ->
  foldl (fun σ' i => levels_add self i σ') σ l
  = <[ self := Build (list_to_set l ∪ levels L) ]> σ.
Proof.
  revert σ L. induction l as [|i l IH]; intros σ L HL; simpl.
  - rewrite (left_id_L ∅ (∪)). destruct L. by rewrite insert_id.
  - unfold levels_add at 2. rewrite HL.
    rewrite (IH _ (Build ({[ i ]} ∪ levels L))) by apply lookup_insert_eq.
    rewrite insert_insert_eq. simpl. do 2 f_equal. set_solver.
Qed.

(** What [addAcceptedIndent] does to the store. *)
Lemma addAcceptedIndent_spec (σ : store) (self : ref) (v : arg) (L : t) :
  σ !! self = Some L ->
  (forall r, v = Level r -> is_Some (σ !! r)) ->
  exists added : gset Z,
    match v with
    | Int x => added = {[ x ]}
    | Level r => σ !! r = Some (Build added)
    end
    /\ addAcceptedIndent self v σ = Some (<[ self := Build (added ∪ levels L) ]> σ).
Proof.
  intros HL Hv. unfold addAcceptedIndent. rewrite HL.
  destruct v as [x|r].
  - exists {[ x ]}. split; [done|]. unfold levels_add. by rewrite HL.
  - destruct (Hv r eq_refl) as [[V] HV]. exists V. rewrite HV. split; [done|].
    rewrite (levels_add_fold _ _ _ L HL). simpl.
    by rewrite list_to_set_elements_L.
Qed.

End IndentLevelFacts.

(** C4.  A level derived from [P] with offset [k], that is
    [IndentLevel(base=P, offset=k)], is built without an exception, accepts
    a column [c] exactly when [P] accepts [c - k], and has as many members
    as [P]. *)
Theorem derived_level_accept_and_size (P : IndentLevel.t) (k : Z) :
  exists L : IndentLevel.t,
    IndentLevel.__init__ None (Some P) (Some k) = Ok L
    /\ (forall c : Z, IndentLevel.accept L c = IndentLevel.accept P (c - k))
    /\ size (IndentLevel.levels L) = size (IndentLevel.levels P).
Proof.
  eexists. split; [apply init_derive|].
  destruct (derive_fold_spec k (IndentLevel.levels P)) as [Hmem Hsize].
  split; [|exact Hsize].
  intros c. unfold IndentLevel.accept. simpl.
  apply bool_decide_ext, Hmem.
Qed.

(** C8.  Every level that the public operations can build (a singleton, a
    derivation with a constant offset, a widening by [addAcceptedIndent])
    has at least one member. *)
Theorem reachable_level_nonempty (L : IndentLevel.t) :
  IndentLevel.reachable L -> IndentLevel.levels L <> ∅.
Proof.
  induction 1 as [c base offset L Hinit | P k L HP IHP Hinit
                 | σ self v σ' L L' Hself HL IHL Harg _ Hadd Hself'].
  - rewrite init_singleton in Hinit. injection Hinit as <-. simpl.
    apply non_empty_singleton_L.
  - rewrite init_derive in Hinit. injection Hinit as <-. simpl.
    destruct (derive_fold_spec k (IndentLevel.levels P)) as [_ Hsize].
    intros Hempty. rewrite Hempty, size_empty in Hsize.
    symmetry in Hsize. by apply size_empty_iff, leibniz_equiv in Hsize.
  - assert (Hv : forall r, v = IndentLevel.Level r -> is_Some (σ !! r)).
    { intros r ->. unfold IndentLevel.addAcceptedIndent in Hadd.
      rewrite Hself in Hadd. destruct (σ !! r); [by eexists | done]. }
    destruct (addAcceptedIndent_spec σ self v L Hself Hv) as (added & _ & Heq).
    rewrite Heq in Hadd. injection Hadd as <-.
    rewrite lookup_insert_eq in Hself'. injection Hself' as <-. simpl.
    intros Hempty. apply IHL. set_solver.
Qed.

Lemma reachable_level_nonempty_witness :
  IndentLevel.levels (IndentLevel.Build ({[ 0 ]} ∪ ∅)) <> ∅.
Proof.
  apply (reachable_level_nonempty (IndentLevel.Build ({[ 0 ]} ∪ ∅))).
  apply (IndentLevel.reach_singleton 0 None None). reflexivity.
Defined.

(** C10.  [L.addAcceptedIndent(v)] returns; afterwards [L] accepts a column
    exactly when it accepted it before or the column is [v] (is accepted by
    [v], for a level [v]); nothing accepted before is lost; and a level
    given as argument is what it was, also when it is [L] itself. *)
Theorem addAcceptedIndent_monotone_union
    (σ : gmap IndentLevel.ref IndentLevel.t) (self : IndentLevel.ref)
    (v : IndentLevel.arg) (L : IndentLevel.t) :
  σ !! self = Some L ->
  (forall r, v = IndentLevel.Level r -> is_Some (σ !! r)) ->
  exists σ',
    IndentLevel.addAcceptedIndent self v σ = Some σ'
    /\ (forall c : Z,
          IndentLevel.accept_at σ' self c
          = IndentLevel.accept_at σ self c
            || match v with
               | IndentLevel.Int x => bool_decide (c = x)
               | IndentLevel.Level r => IndentLevel.accept_at σ r c
               end)
    /\ (forall c : Z,
          IndentLevel.accept_at σ self c = true ->
          IndentLevel.accept_at σ' self c = true)
    /\ (forall r, v = IndentLevel.Level r -> σ' !! r = σ !! r).
Proof.
  intros Hself Hv.
  destruct (addAcceptedIndent_spec σ self v L Hself Hv) as (added & Hadded & Heq).
  eexists. split; [exact Heq|].
  assert (Hacc : forall c : Z,
            IndentLevel.accept_at (<[self:=IndentLevel.Build (added ∪ IndentLevel.levels L)]> σ) self c
            = IndentLevel.accept_at σ self c || bool_decide (c ∈ added)).
  { intros c. unfold IndentLevel.accept_at, IndentLevel.accept.
    rewrite lookup_insert_eq, Hself. simpl.
    apply eq_true_iff_eq.
    rewrite orb_true_iff, !bool_decide_eq_true. set_solver. }
  split; [|split].
  - intros c. rewrite Hacc. f_equal.
    destruct v as [x|r].
    + subst added. apply bool_decide_ext. set_solver.
    + unfold IndentLevel.accept_at. rewrite Hadded. reflexivity.
  - intros c Hc. rewrite Hacc, Hc. reflexivity.
  - intros r ->. destruct (decide (r = self)) as [->|Hne].
    + rewrite lookup_insert_eq, Hself. rewrite Hself in Hadded.
      injection Hadded as ->. f_equal. simpl.
      by rewrite (idemp_L (∪)).
    + by rewrite lookup_insert_ne.
Qed.

Lemma addAcceptedIndent_monotone_union_witness :
  let σ : gmap IndentLevel.ref IndentLevel.t :=
    {[ 1%positive := IndentLevel.Build {[ 0 ]};
       2%positive := IndentLevel.Build {[ 4 ]} ]} in
  exists σ',
    IndentLevel.addAcceptedIndent 1%positive (IndentLevel.Level 2%positive) σ = Some σ'
    /\ (forall c : Z,
          IndentLevel.accept_at σ' 1%positive c
          = IndentLevel.accept_at σ 1%positive c || IndentLevel.accept_at σ 2%positive c)
    /\ (forall c : Z,
          IndentLevel.accept_at σ 1%positive c = true ->
          IndentLevel.accept_at σ' 1%positive c = true)
    /\ (forall r, IndentLevel.Level 2%positive = IndentLevel.Level r ->
                  σ' !! r = σ !! r).
Proof.
  intros σ.
  apply (addAcceptedIndent_monotone_union σ 1%positive
           (IndentLevel.Level 2%positive) (IndentLevel.Build {[ 0 ]})).
  - reflexivity.
  - intros r Hr. injection Hr as <-. eexists. reflexivity.
Defined.

(** ** Column resolver *)

Section ColumnFacts.

Lemma lengthExpandedTabs_loop_app (s : string) (w l : Z) (r1 r2 : list nat) :
  lengthExpandedTabs_loop s w l (r1 ++ r2)
  = obind (lengthExpandedTabs_loop s w l r1)
          (fun l' => lengthExpandedTabs_loop s w l' r2).
Proof.
  revert l. induction r1 as [|i r1 IH]; intros l; simpl; [done|].
  destruct (lengthExpandedTabs_body s w l i); simpl; [apply IH | done].
Qed.

Lemma lengthExpandedTabs_0 (s : string) (w : Z) :
  lengthExpandedTabs s 0 w = Ok 0.
Proof. reflexivity. Qed.

(** One more character: the loop body runs on the column reached so far. *)
Lemma lengthExpandedTabs_succ (s : string) (n : nat) (w : Z) :
  lengthExpandedTabs s (Z.of_nat (S n)) w
  = obind (lengthExpandedTabs s (Z.of_nat n) w)
          (fun l => lengthExpandedTabs_body s w l n).
Proof.
  unfold lengthExpandedTabs. rewrite !Nat2Z.id, seq_S, lengthExpandedTabs_loop_app.
  simpl. destruct (lengthExpandedTabs_loop s w 0 (seq 0 n)); simpl; [|done].
  by destruct (lengthExpandedTabs_body s w a n).
Qed.

(** A character that is not a tab advances the column by one. *)
Lemma lengthExpandedTabs_body_other (s : string) (w l : Z) (i : nat) (c : ascii) :
  String.get i s = Some c -> c <> tab ->
  lengthExpandedTabs_body s w l i = Ok (l + 1).
Proof.
  intros Hget Hc. unfold lengthExpandedTabs_body. rewrite Hget.
  destruct (Ascii.eqb_spec c tab); [done | reflexivity].
Qed.

(** A tab adds the next tab stop to the column: the result is the next
    tab stop only where the column before the tab is 0. *)
Lemma lengthExpandedTabs_body_tab (s : string) (w l : Z) (i : nat) :
  String.get i s = Some tab -> w <> 0 ->
  lengthExpandedTabs_body s w l i = Ok (l + next_tab_stop l w).
Proof.
  intros Hget Hw. unfold lengthExpandedTabs_body, next_tab_stop. rewrite Hget.
  rewrite Ascii.eqb_refl. by destruct (Z.eqb_spec w 0).
Qed.

End ColumnFacts.

(** C1.  On the line of two tabs and an [x], with tab width 4, the column of
    index 1 is 4, the next tab stop after column 4 is 8, and the column the
    code returns for index 2 is 12. *)
Theorem lengthExpandedTabs_second_tab :
  let line := String tab (String tab "x") in
  lengthExpandedTabs line 1 4 = Ok 4
  /\ next_tab_stop 4 4 = 8
  /\ lengthExpandedTabs line 2 4 = Ok 12.
Proof. repeat split. Qed.

(** The first example of the specification holds: the tab is met at
    column 0. *)
Lemma lengthExpandedTabs_first_tab :
  lengthExpandedTabs (String tab "x") 1 4 = Ok 4.
Proof. reflexivity. Qed.

(** ** Sequencing *)

Lemma bind_Ok {S A B} (m : M S A) (k : A -> M S B) (s s' : S) (a : A) :
  m s = (Ok a, s') -> bind m k s = k a s'.
Proof. intros H. unfold bind. by rewrite H. Qed.

Lemma bind_Raise {S A B} (m : M S A) (k : A -> M S B) (s s' : S) (e : PyExn) :
  m s = (Raise e, s') -> bind m k s = (Raise e, s').
Proof. intros H. unfold bind. by rewrite H. Qed.

(** ** The token window *)

Section WindowFacts.

Import Handler.

Variable tokenize : SourceRange.t -> list Token.t.

Lemma set_token_set_cached (self : t) (ts : list Token.t) :
  _token_set self = Some ts -> set_token_set ts self = self.
Proof. destruct self. simpl. by intros ->. Qed.

(** A sequence that is kept is returned as it is: no call of the
    tokenizer, no change of state. *)
Lemma getTokenSet_hit (self : t) (w : World) (tok : Token.t) (toks : list Token.t) :
  _token_set self = Some (tok :: toks) ->
  _getTokenSet tokenize (self, w) = (Ok (tok :: toks), (self, w)).
Proof. intros H. unfold _getTokenSet, bind, get. simpl. by rewrite H. Qed.

(** Without a sequence, or with an empty one, the tokenizer is called. *)
Lemma getTokenSet_miss (self : t) (w : World) (n : Cursor.t) :
  _token_set self = None \/ _token_set self = Some [] ->
  node self = Some n ->
  _getTokenSet tokenize (self, w)
  = (Ok (tokenize (Cursor.extent n)),
     (set_token_set (tokenize (Cursor.extent n)) self,
      World_log_tokenize (Cursor.extent n) w)).
Proof.
  intros H Hn. unfold _getTokenSet, bind, get. simpl.
  by destruct H as [-> | ->]; rewrite Hn.
Qed.

Lemma getTokenSet_window (self : t) (w : World) (toks : list Token.t) :
  window tokenize self = Some toks ->
  _getTokenSet tokenize (self, w)
  = (Ok toks, (set_token_set toks self, tokenized self w)).
Proof.
  unfold window, tokenized. intros H.
  destruct (_token_set self) as [[|tok ts]|] eqn:Hts.
  - destruct (node self) as [n|] eqn:Hn; [|done]. injection H as <-.
    apply getTokenSet_miss; auto.
  - injection H as <-. rewrite (set_token_set_cached _ _ Hts).
    by apply getTokenSet_hit.
  - destruct (node self) as [n|] eqn:Hn; [|done]. injection H as <-.
    apply getTokenSet_miss; auto.
Qed.

(** Once a non-empty window is stored, a call returns it and changes
    nothing. *)
Lemma getTokenSet_again (self : t) (w : World) (tok : Token.t) (toks : list Token.t) :
  _getTokenSet tokenize (set_token_set (tok :: toks) self, w)
  = (Ok (tok :: toks), (set_token_set (tok :: toks) self, w)).
Proof. by apply getTokenSet_hit. Qed.

(** An empty window is computed again by every call. *)
Lemma getTokenSet_empty_twice (self : t) (w : World) (n : Cursor.t) :
  _token_set self = None -> node self = Some n ->
  tokenize (Cursor.extent n) = [] ->
  tokenize_calls
    (snd (exec (run _getTokenSet tokenize then _getTokenSet tokenize) (self, w)))
  = (tokenize_calls w ++ [Cursor.extent n; Cursor.extent n])%list.
Proof.
  intros Hts Hn Hempty. unfold exec.
  erewrite bind_Ok by (apply getTokenSet_miss; eauto).
  erewrite getTokenSet_miss; [|right; simpl; by rewrite Hempty | by destruct self].
  simpl. by rewrite <- app_assoc.
Qed.

(** A non-empty window is computed by the first call alone. *)
Lemma getTokenSet_nonempty_twice (self : t) (w : World) (n : Cursor.t) :
  _token_set self = None -> node self = Some n ->
  tokenize (Cursor.extent n) <> [] ->
  tokenize_calls
    (snd (exec (run _getTokenSet tokenize then _getTokenSet tokenize) (self, w)))
  = (tokenize_calls w ++ [Cursor.extent n])%list.
Proof.
  intros Hts Hn Hne. unfold exec.
  erewrite bind_Ok by (apply getTokenSet_miss; eauto).
  destruct (tokenize (Cursor.extent n)) as [|tok toks]; [done|].
  by rewrite getTokenSet_again.
Qed.

End WindowFacts.

(** ** Curly braces *)

Section BraceFacts.

Import Handler.

Variable tokenize : SourceRange.t -> list Token.t.
Variable readFile : string -> outcome (list string).

Lemma first_punctuation_nonempty (sp : string) (toks : list Token.t) (tok : Token.t) :
  first_punctuation sp toks = Some tok -> toks <> [].
Proof. by destruct toks. Qed.

Lemma getLCurlyBrace_window (self : t) (w : World) (toks : list Token.t) :
  window tokenize self = Some toks ->
  getLCurlyBrace tokenize (self, w)
  = (Ok (first_punctuation "{" toks), (set_token_set toks self, tokenized self w)).
Proof.
  intros H. unfold getLCurlyBrace.
  by erewrite bind_Ok by (by apply getTokenSet_window).
Qed.

Lemma getRCurlyBrace_again (self : t) (w : World) (tok : Token.t) (toks : list Token.t) :
  getRCurlyBrace tokenize (set_token_set (tok :: toks) self, w)
  = (Ok (first_punctuation "}" (rev (tok :: toks))),
     (set_token_set (tok :: toks) self, w)).
Proof.
  unfold getRCurlyBrace. by erewrite bind_Ok by apply getTokenSet_again.
Qed.

Lemma getTokenLeft_again (self : t) (w : World) (tok : Token.t) (toks : list Token.t) :
  getTokenLeftOfLeftLCurlyBrace tokenize (set_token_set (tok :: toks) self, w)
  = (Ok (token_left_of_lcurly (tok :: toks) None),
     (set_token_set (tok :: toks) self, w)).
Proof.
  unfold getTokenLeftOfLeftLCurlyBrace.
  by erewrite bind_Ok by apply getTokenSet_again.
Qed.

Lemma getFirstToken_again (self : t) (w : World) (tok : Token.t) (toks : list Token.t) :
  getFirstToken tokenize (set_token_set (tok :: toks) self, w)
  = (Ok tok, (set_token_set (tok :: toks) self, w)).
Proof.
  unfold getFirstToken. by erewrite bind_Ok by apply getTokenSet_again.
Qed.

Lemma logViolation_brace (self : t) (w : World) (tok : Token.t) (text : string) :
  logViolation "indent.brace" (Some (Token.extent tok)) text (self, w)
  = (Ok tt, (self, World_add_violation (brace_violation tok text) w)).
Proof. reflexivity. Qed.

Lemma violations_tokenized (self : t) (w : World) :
  violations (tokenized self w) = violations w.
Proof.
  unfold tokenized. destruct (_token_set self) as [[|]|]; destruct (node self); done.
Qed.

Lemma added_app (w w' : World) (vs : list RuleViolation) :
  violations w' = (violations w ++ vs)%list -> added w w' = vs.
Proof. intros H. unfold added. rewrite H. apply drop_app_length. Qed.

(** The three look-ups at the head of [checkCurlyBraces] leave the window
    stored in the handler; what follows runs on that state. *)
Lemma checkCurlyBraces_lookups (indent_type : string) (self : t) (w : World)
    (tok : Token.t) (toks : list Token.t) (lb : Token.t) :
  window tokenize self = Some (tok :: toks) ->
  first_punctuation "{" (tok :: toks) = Some lb ->
  checkCurlyBraces tokenize readFile indent_type (self, w)
  = (let rbrace := first_punctuation "}" (rev (tok :: toks)) in
     let t := token_left_of_lcurly (tok :: toks) None in
     let lbrace_extent := Some (Token.extent lb) in
     let rbrace_extent := Token.extent <$> rbrace in
     if String.eqb indent_type "same-line" then
       run when (negb (areOnSameLine t (Some lb)))
             (logViolation "indent.brace" lbrace_extent msg_same_line) then
       let* first := getFirstToken tokenize in
       when (negb (areOnSameColumn (Some first) rbrace))
         (logViolation "indent.brace" rbrace_extent msg_close_column)
     else if String.eqb indent_type "next-line" then
       let* first := getFirstToken tokenize in
       run when (negb (areOnSameColumn (Some first) (Some lb)))
             (logViolation "indent.brace" lbrace_extent msg_open_column) then
       let* after := owner_line_is_after_lbrace t lb in
       run when after
             (logViolation "indent.brace" lbrace_extent msg_line_after) then
       let* first' := getFirstToken tokenize in
       when (negb (areOnSameColumn (Some first') rbrace))
         (logViolation "indent.brace" rbrace_extent msg_close_column)
     else
       run assert (String.eqb indent_type "next-line-indent") then
       let* after := owner_line_is_after_lbrace t lb in
       run when after
             (logViolation "indent.brace" lbrace_extent msg_line_after) then
       let* self := get in
       let* next_level :=
         lift (IndentLevel.__init__ None (Some (level (fst self)))
                 (Some (indentation_size (config (fst self))))) in
       run (match rbrace with
            | None => raise AttributeError
            | Some _ => ret tt
            end) then
       let* lcol := lift (expandedTabsColumnNo readFile (fst self) lbrace_extent) in
       run when (negb (IndentLevel.accept next_level lcol))
             (logViolation "indent.brace" lbrace_extent msg_open_indent) then
       let* rcol := lift (expandedTabsColumnNo readFile (fst self) rbrace_extent) in
       when (negb (IndentLevel.accept next_level rcol))
         (logViolation "indent.brace" rbrace_extent msg_close_indent))
      (set_token_set (tok :: toks) self, tokenized self w).
Proof.
  intros Hw Hlb. unfold checkCurlyBraces.
  erewrite bind_Ok by (by apply getLCurlyBrace_window).
  erewrite bind_Ok by apply getRCurlyBrace_again.
  erewrite bind_Ok by apply getTokenLeft_again.
  rewrite Hlb. reflexivity.
Qed.

End BraceFacts.

Lemma violations_add_violations (vs : list RuleViolation) (w : World) :
  violations (World_add_violations vs w) = (violations w ++ vs)%list.
Proof.
  unfold World_add_violations.
  revert w. induction vs as [|v vs IH]; intros w; simpl.
  - by rewrite app_nil_r.
  - rewrite IH. simpl. unfold violations_add. by rewrite <- app_assoc.
Qed.

Section BraceStyles.

Import Handler.

Variable tokenize : SourceRange.t -> list Token.t.
Variable readFile : string -> outcome (list string).

Lemma when_log_brace (c : bool) (self : t) (w : World) (tok : Token.t) (text : string) :
  when c (logViolation "indent.brace" (Some (Token.extent tok)) text) (self, w)
  = (Ok tt, (self, World_add_violations (unless (negb c) (brace_violation tok text)) w)).
Proof. by destruct c. Qed.

Lemma added_add_violations (self : t) (w : World) (vs : list RuleViolation) :
  added w (World_add_violations vs (tokenized self w)) = vs.
Proof.
  apply added_app. by rewrite violations_add_violations, violations_tokenized.
Qed.

Lemma add_violations_app (vs1 vs2 : list RuleViolation) (w : World) :
  World_add_violations vs2 (World_add_violations vs1 w)
  = World_add_violations (vs1 ++ vs2) w.
Proof. unfold World_add_violations. by rewrite foldl_app. Qed.

(** Style [same-line]: the outcome and the state, for a window with both
    braces. *)
Lemma checkCurlyBraces_same_line (self : t) (w : World)
    (first : Token.t) (rest : list Token.t) (lb rb : Token.t) :
  window tokenize self = Some (first :: rest) ->
  first_punctuation "{" (first :: rest) = Some lb ->
  first_punctuation "}" (rev (first :: rest)) = Some rb ->
  checkCurlyBraces tokenize readFile "same-line" (self, w)
  = (Ok tt,
     (set_token_set (first :: rest) self,
      World_add_violations
        (unless (areOnSameLine (token_left_of_lcurly (first :: rest) None) (Some lb))
                (brace_violation lb msg_same_line)
         ++ unless (areOnSameColumn (Some first) (Some rb))
                   (brace_violation rb msg_close_column))
        (tokenized self w))).
Proof.
  intros Hw Hlb Hrb.
  rewrite (checkCurlyBraces_lookups _ _ _ _ _ _ _ lb Hw Hlb).
  cbv zeta. rewrite Hrb.
  change (String.eqb "same-line" "same-line") with true. cbv iota.
  erewrite bind_Ok by apply when_log_brace.
  erewrite bind_Ok by apply getFirstToken_again.
  change (Token.extent <$> Some rb) with (Some (Token.extent rb)).
  rewrite when_log_brace, add_violations_app, !negb_involutive.
  reflexivity.
Qed.

End BraceStyles.

(** Style [same-line], on a handler whose token window has an owner token,
    a left brace and a right brace, the right brace starting on the raw
    column (the character offset [extent.start.column], which
    [areOnSameColumn] compares) of the first token: the check returns; it
    adds no violation when the left brace starts on the line of the owner
    token, and exactly one, of kind [indent.brace], when it starts on
    another line. *)
Theorem same_line_braces
    (tokenize : SourceRange.t -> list Token.t)
    (readFile : string -> outcome (list string))
    (self : Handler.t) (w : World)
    (first : Token.t) (rest : list Token.t) (owner lb rb : Token.t) :
  Handler.window tokenize self = Some (first :: rest) ->
  Handler.token_left_of_lcurly (first :: rest) None = Some owner ->
  Handler.first_punctuation "{" (first :: rest) = Some lb ->
  Handler.first_punctuation "}" (rev (first :: rest)) = Some rb ->
  start_column rb = start_column first ->
  let r := Handler.checkCurlyBraces tokenize readFile "same-line" (self, w) in
  fst r = Ok tt
  /\ (Handler.start_line owner = Handler.start_line lb ->
      added w (snd (snd r)) = [])
  /\ (Handler.start_line owner <> Handler.start_line lb ->
      added w (snd (snd r)) = [brace_violation lb Handler.msg_same_line]
      /\ rule_type (brace_violation lb Handler.msg_same_line) = "indent.brace").
Proof.
  intros Hw Howner Hlb Hrb Hcol r. subst r.
  rewrite (checkCurlyBraces_same_line _ _ _ _ _ _ lb rb Hw Hlb Hrb).
  rewrite Howner. cbn [fst snd]. rewrite added_add_violations.
  unfold Handler.areOnSameLine, Handler.areOnSameColumn.
  fold (Handler.start_line owner) (Handler.start_line lb)
       (start_column first) (start_column rb).
  replace (start_column first =? start_column rb) with true
    by (symmetry; apply Z.eqb_eq; lia).
  split; [done|]. split.
  - intros Heq. apply Z.eqb_eq in Heq. by rewrite Heq.
  - intros Hne. apply Z.eqb_neq in Hne. by rewrite Hne.
Qed.

Section BraceStylesNextLine.

Import Handler.

Variable tokenize : SourceRange.t -> list Token.t.
Variable readFile : string -> outcome (list string).

Lemma expandedTabsColumnNo_set_token_set (self : t) (ts : list Token.t)
    (node : option SourceRange.t) :
  expandedTabsColumnNo readFile (set_token_set ts self) node
  = expandedTabsColumnNo readFile self node.
Proof. reflexivity. Qed.

(** Style [next-line-indent]: the outcome and the state, for a window with
    owner token and both braces whose columns are resolved. *)
Lemma checkCurlyBraces_next_line_indent (self : t) (w : World)
    (first : Token.t) (rest : list Token.t) (owner lb rb : Token.t)
    (lcol rcol : Z) :
  window tokenize self = Some (first :: rest) ->
  token_left_of_lcurly (first :: rest) None = Some owner ->
  first_punctuation "{" (first :: rest) = Some lb ->
  first_punctuation "}" (rev (first :: rest)) = Some rb ->
  expandedTabsColumnNo readFile self (Some (Token.extent lb)) = Ok lcol ->
  expandedTabsColumnNo readFile self (Some (Token.extent rb)) = Ok rcol ->
  let next_level :=
    IndentLevel.Build
      (set_fold (fun l (acc : gset Z) => {[ l + indentation_size (config self) ]} ∪ acc)
                ∅ (IndentLevel.levels (level self))) in
  checkCurlyBraces tokenize readFile "next-line-indent" (self, w)
  = (Ok tt,
     (set_token_set (first :: rest) self,
      World_add_violations
        (unless (negb (start_line owner =? start_line lb + 1))
                (brace_violation lb msg_line_after)
         ++ unless (IndentLevel.accept next_level lcol)
                   (brace_violation lb msg_open_indent)
         ++ unless (IndentLevel.accept next_level rcol)
                   (brace_violation rb msg_close_indent))
        (tokenized self w))).
Proof.
  intros Hw Howner Hlb Hrb Hlcol Hrcol next_level.
  rewrite (checkCurlyBraces_lookups _ _ _ _ _ _ _ lb Hw Hlb).
  cbv zeta. rewrite Hrb, Howner.
  change (String.eqb "next-line-indent" "same-line") with false.
  change (String.eqb "next-line-indent" "next-line") with false.
  change (String.eqb "next-line-indent" "next-line-indent") with true. cbv iota.
  erewrite bind_Ok by reflexivity.
  erewrite bind_Ok by reflexivity.
  erewrite bind_Ok by apply when_log_brace.
  erewrite bind_Ok by reflexivity.
  cbn [fst].
  erewrite bind_Ok by reflexivity.
  erewrite bind_Ok by reflexivity.
  rewrite expandedTabsColumnNo_set_token_set, Hlcol.
  erewrite bind_Ok by reflexivity.
  erewrite bind_Ok by apply when_log_brace.
  change (Token.extent <$> Some rb) with (Some (Token.extent rb)).
  rewrite expandedTabsColumnNo_set_token_set, Hrcol.
  erewrite bind_Ok by reflexivity.
  rewrite when_log_brace, !add_violations_app, !negb_involutive.
  reflexivity.
Qed.

Lemma records_add_violations (text : string) (self : t) (w : World)
    (vs : list RuleViolation) :
  records text w (World_add_violations vs (tokenized self w))
  = existsb (fun v => String.eqb (rv_text v) text) vs.
Proof. unfold records. by rewrite added_add_violations. Qed.

End BraceStylesNextLine.

Section AdjacencyFacts.

Import Handler.

Variable tokenize : SourceRange.t -> list Token.t.
Variable readFile : string -> outcome (list string).

Lemma records_next_line (self : t) (w : World)
    (first : Token.t) (rest : list Token.t) (owner lb : Token.t) :
  window tokenize self = Some (first :: rest) ->
  token_left_of_lcurly (first :: rest) None = Some owner ->
  first_punctuation "{" (first :: rest) = Some lb ->
  records msg_line_after w
    (snd (exec (checkCurlyBraces tokenize readFile "next-line") (self, w)))
  = (start_line owner =? start_line lb + 1).
Proof.
  intros Hw Howner Hlb. unfold exec.
  rewrite (checkCurlyBraces_lookups _ _ _ _ _ _ _ lb Hw Hlb).
  cbv zeta. rewrite Howner.
  change (String.eqb "next-line" "same-line") with false.
  change (String.eqb "next-line" "next-line") with true. cbv iota.
  erewrite bind_Ok by apply getFirstToken_again.
  erewrite bind_Ok by apply when_log_brace.
  erewrite bind_Ok by reflexivity.
  erewrite bind_Ok by apply when_log_brace.
  erewrite bind_Ok by apply getFirstToken_again.
  rewrite !add_violations_app.
  destruct (first_punctuation "}" (rev (first :: rest))) as [rb|].
  - change (Token.extent <$> Some rb) with (Some (Token.extent rb)).
    rewrite when_log_brace, !add_violations_app. cbn [snd].
    rewrite records_add_violations, !negb_involutive.
    destruct (areOnSameColumn (Some first) (Some lb)),
             (start_line owner =? start_line lb + 1),
             (areOnSameColumn (Some first) (Some rb)); reflexivity.
  - generalize (areOnSameColumn (Some first) (Some lb)),
               (start_line owner =? start_line lb + 1).
    intros b1 b2.
    cbn [when areOnSameColumn negb logViolation fmap option_fmap option_map raise snd].
    rewrite records_add_violations, !negb_involutive.
    destruct b1, b2; reflexivity.
Qed.

Lemma records_next_line_indent (self : t) (w : World)
    (first : Token.t) (rest : list Token.t) (owner lb : Token.t) :
  window tokenize self = Some (first :: rest) ->
  token_left_of_lcurly (first :: rest) None = Some owner ->
  first_punctuation "{" (first :: rest) = Some lb ->
  records msg_line_after w
    (snd (exec (checkCurlyBraces tokenize readFile "next-line-indent") (self, w)))
  = (start_line owner =? start_line lb + 1).
Proof.
  intros Hw Howner Hlb. unfold exec.
  rewrite (checkCurlyBraces_lookups _ _ _ _ _ _ _ lb Hw Hlb).
  cbv zeta. rewrite Howner.
  change (String.eqb "next-line-indent" "same-line") with false.
  change (String.eqb "next-line-indent" "next-line") with false.
  change (String.eqb "next-line-indent" "next-line-indent") with true. cbv iota.
  erewrite bind_Ok by reflexivity.
  erewrite bind_Ok by reflexivity.
  erewrite bind_Ok by apply when_log_brace.
  erewrite bind_Ok by reflexivity.
  cbn [fst].
  erewrite bind_Ok by reflexivity.
  rewrite ?negb_involutive.
  generalize (start_line owner =? start_line lb + 1). intros adj.
  destruct (first_punctuation "}" (rev (first :: rest))) as [rb|].
  2: { erewrite bind_Raise by reflexivity. cbn [snd].
       rewrite records_add_violations. by destruct adj. }
  erewrite bind_Ok by reflexivity.
  rewrite expandedTabsColumnNo_set_token_set.
  destruct (expandedTabsColumnNo readFile self (Some (Token.extent lb))) as [lcol|e].
  2: { erewrite bind_Raise by reflexivity. cbn [snd].
       rewrite records_add_violations. by destruct adj. }
  erewrite bind_Ok by reflexivity.
  erewrite bind_Ok by apply when_log_brace.
  change (Token.extent <$> Some rb) with (Some (Token.extent rb)).
  rewrite expandedTabsColumnNo_set_token_set, !add_violations_app, ?negb_involutive.
  destruct (expandedTabsColumnNo readFile self (Some (Token.extent rb))) as [rcol|e].
  - erewrite bind_Ok by reflexivity.
    rewrite when_log_brace, !add_violations_app, ?negb_involutive. cbn [snd].
    rewrite records_add_violations.
    destruct adj, (IndentLevel.accept _ lcol), (IndentLevel.accept _ rcol); reflexivity.
  - erewrite bind_Raise by reflexivity. cbn [snd].
    rewrite records_add_violations.
    destruct adj, (IndentLevel.accept _ lcol); reflexivity.
Qed.

End AdjacencyFacts.

(** An instance: [class C {] with the closing brace on column 1 adds no
    violation; with the opening brace moved to the second line, one. *)
Lemma same_line_braces_witness :
  let check (lbrace_line : Z) :=
    Handler.checkCurlyBraces (fun _ => Sample.same_line_tokens lbrace_line)
      (fun _ => Raise IOError) "same-line"
      (Sample.class_handler IndentationConfig_default Sample.class_node, Sample.world0) in
  (fst (check 1) = Ok tt /\ added Sample.world0 (snd (snd (check 1))) = [])
  /\ (fst (check 2) = Ok tt
      /\ added Sample.world0 (snd (snd (check 2)))
         = [Build_RuleViolation "indent.brace" "a.cpp" 2 9 Handler.msg_same_line]).
Proof.
  intros check. split.
  - destruct (same_line_braces (fun _ => Sample.same_line_tokens 1)
                (fun _ => Raise IOError)
                (Sample.class_handler IndentationConfig_default Sample.class_node)
                Sample.world0
                (Sample.tok KEYWORD "class" 1 1)
                [Sample.tok IDENTIFIER "C" 1 7; Sample.tok PUNCTUATION "{" 1 9;
                 Sample.tok PUNCTUATION "}" 3 1]
                (Sample.tok IDENTIFIER "C" 1 7) (Sample.tok PUNCTUATION "{" 1 9)
                (Sample.tok PUNCTUATION "}" 3 1)
                eq_refl eq_refl eq_refl eq_refl eq_refl) as (Hok & Hsame & _).
    split; [exact Hok | exact (Hsame eq_refl)].
  - destruct (same_line_braces (fun _ => Sample.same_line_tokens 2)
                (fun _ => Raise IOError)
                (Sample.class_handler IndentationConfig_default Sample.class_node)
                Sample.world0
                (Sample.tok KEYWORD "class" 1 1)
                [Sample.tok IDENTIFIER "C" 1 7; Sample.tok PUNCTUATION "{" 2 9;
                 Sample.tok PUNCTUATION "}" 3 1]
                (Sample.tok IDENTIFIER "C" 1 7) (Sample.tok PUNCTUATION "{" 2 9)
                (Sample.tok PUNCTUATION "}" 3 1)
                eq_refl eq_refl eq_refl eq_refl eq_refl) as (Hok & _ & Hother).
    split; [exact Hok|]. apply Hother. vm_compute. discriminate.
Defined.

(** C6.  Style [same-line], tab width 4, on [class C {] after four spaces
    and the closing brace after one tab: the column resolver of the code
    puts the first token and the closing brace on the same column, 4, as
    the next-line-indent path would compare them; [areOnSameColumn]
    compares the raw columns 5 and 2, and the check adds "Closing brace
    should be on the same column as block start.". *)
Theorem same_line_raw_columns_compared :
  let lines := [ "    class C {"; ""; String tab "}" ] in
  let first := Sample.tok KEYWORD "class" 1 5 in
  let rbrace := Sample.tok PUNCTUATION "}" 3 2 in
  let toks := [ first; Sample.tok IDENTIFIER "C" 1 11;
                Sample.tok PUNCTUATION "{" 1 13; rbrace ] in
  let self := Sample.class_handler IndentationConfig_default Sample.class_node in
  let r := Handler.checkCurlyBraces (fun _ => toks) (fun _ => Ok lines) "same-line"
             (self, Sample.world0) in
  Handler.expandedTabsColumnNo (fun _ => Ok lines) self (Some (Token.extent first)) = Ok 4
  /\ Handler.expandedTabsColumnNo (fun _ => Ok lines) self (Some (Token.extent rbrace))
     = Ok 4
  /\ Handler.areOnSameColumn (Some first) (Some rbrace) = false
  /\ fst r = Ok tt
  /\ added Sample.world0 (snd (snd r))
     = [Build_RuleViolation "indent.brace" "a.cpp" 3 2 Handler.msg_close_column].
Proof. cbv zeta. refine (conj _ (conj _ (conj _ (conj _ _)))); reflexivity. Qed.

(** Style [next-line-indent], on a handler whose token window has an owner
    token and both braces, the columns of the braces being resolved by
    [expandedTabsColumnNo], the resolver of the code:
    the check returns, and what it adds to the sink is, in this order, the
    violation of the line test if that test fires, one violation for the
    opening brace unless its tab-expanded column is a member of the level
    derived from the level of the block with one indentation unit as offset,
    and one for the closing brace unless its column is a member of that
    level.  That level accepts [c] exactly when the level of the block
    accepts [c] less one indentation unit. *)
Theorem next_line_indent_braces
    (tokenize : SourceRange.t -> list Token.t)
    (readFile : string -> outcome (list string))
    (self : Handler.t) (w : World)
    (first : Token.t) (rest : list Token.t) (owner lb rb : Token.t)
    (lcol rcol : Z) :
  Handler.window tokenize self = Some (first :: rest) ->
  Handler.token_left_of_lcurly (first :: rest) None = Some owner ->
  Handler.first_punctuation "{" (first :: rest) = Some lb ->
  Handler.first_punctuation "}" (rev (first :: rest)) = Some rb ->
  Handler.expandedTabsColumnNo readFile self (Some (Token.extent lb)) = Ok lcol ->
  Handler.expandedTabsColumnNo readFile self (Some (Token.extent rb)) = Ok rcol ->
  exists next_level : IndentLevel.t,
    IndentLevel.__init__ None (Some (Handler.level self))
      (Some (indentation_size (Handler.config self))) = Ok next_level
    /\ (forall c : Z,
          IndentLevel.accept next_level c
          = IndentLevel.accept (Handler.level self)
              (c - indentation_size (Handler.config self)))
    /\ let r := Handler.checkCurlyBraces tokenize readFile "next-line-indent" (self, w) in
       fst r = Ok tt
       /\ added w (snd (snd r))
          = (unless (negb (Handler.start_line owner =? Handler.start_line lb + 1))
                    (brace_violation lb Handler.msg_line_after)
             ++ unless (IndentLevel.accept next_level lcol)
                       (brace_violation lb Handler.msg_open_indent)
             ++ unless (IndentLevel.accept next_level rcol)
                       (brace_violation rb Handler.msg_close_indent))%list.
Proof.
  intros Hw Howner Hlb Hrb Hlcol Hrcol.
  eexists. split; [apply init_derive|]. split.
  - intros c. unfold IndentLevel.accept. cbn [IndentLevel.levels].
    apply bool_decide_ext, derive_fold_spec.
  - cbv zeta.
    rewrite (checkCurlyBraces_next_line_indent _ _ _ _ _ _ owner lb rb lcol rcol
               Hw Howner Hlb Hrb Hlcol Hrcol).
    cbn [fst snd]. by rewrite added_add_violations.
Qed.

(** Instances, with indentation unit 4 and the block on column 0: an
    opening brace on column 4 adds nothing, one on column 0 and one on
    column 2 add one violation each. *)
Lemma next_line_indent_braces_witness :
  let check (indent : string) :=
    Handler.checkCurlyBraces (fun _ => Sample.next_line_tokens indent)
      (fun _ => Ok (Sample.next_line_lines indent)) "next-line-indent"
      (Sample.class_handler IndentationConfig_default Sample.class_node, Sample.world0) in
  (fst (check "    ") = Ok tt /\ added Sample.world0 (snd (snd (check "    "))) = [])
  /\ (fst (check "") = Ok tt
      /\ added Sample.world0 (snd (snd (check "")))
         = [Build_RuleViolation "indent.brace" "a.cpp" 2 1 Handler.msg_open_indent])
  /\ (fst (check "  ") = Ok tt
      /\ added Sample.world0 (snd (snd (check "  ")))
         = [Build_RuleViolation "indent.brace" "a.cpp" 2 3 Handler.msg_open_indent]).
Proof.
  intros check.
  pose (apply_at (indent : string) (lcol : Z) :=
    next_line_indent_braces (fun _ => Sample.next_line_tokens indent)
      (fun _ => Ok (Sample.next_line_lines indent))
      (Sample.class_handler IndentationConfig_default Sample.class_node)
      Sample.world0
      (Sample.tok KEYWORD "class" 1 1)
      [Sample.tok IDENTIFIER "C" 1 7;
       Sample.tok PUNCTUATION "{" 2 (Z.of_nat (String.length indent) + 1);
       Sample.tok PUNCTUATION "}" 3 5]
      (Sample.tok IDENTIFIER "C" 1 7)
      (Sample.tok PUNCTUATION "{" 2 (Z.of_nat (String.length indent) + 1))
      (Sample.tok PUNCTUATION "}" 3 5) lcol 4).
  refine (conj (conj _ _) (conj (conj _ _) (conj _ _))).
  - destruct (apply_at "    " 4 eq_refl eq_refl eq_refl eq_refl eq_refl eq_refl)
      as (L & HL & _ & Hok & _). exact Hok.
  - destruct (apply_at "    " 4 eq_refl eq_refl eq_refl eq_refl eq_refl eq_refl)
      as (L & HL & _ & _ & Hadded).
    injection HL as <-. exact Hadded.
  - destruct (apply_at "" 0 eq_refl eq_refl eq_refl eq_refl eq_refl eq_refl)
      as (L & HL & _ & Hok & _). exact Hok.
  - destruct (apply_at "" 0 eq_refl eq_refl eq_refl eq_refl eq_refl eq_refl)
      as (L & HL & _ & _ & Hadded).
    injection HL as <-. exact Hadded.
  - destruct (apply_at "  " 2 eq_refl eq_refl eq_refl eq_refl eq_refl eq_refl)
      as (L & HL & _ & Hok & _). exact Hok.
  - destruct (apply_at "  " 2 eq_refl eq_refl eq_refl eq_refl eq_refl eq_refl)
      as (L & HL & _ & _ & Hadded).
    injection HL as <-. exact Hadded.
Defined.

(** C5.  Style [next-line-indent], indentation unit 4, tab width 4, the
    block on column 0, and the opening brace after a space and a tab: the
    tab stop after column 1 is 4, a member of the level derived with one
    indentation unit; the resolver of the code adds the tab stop to the
    column reached and returns 5, and the check adds "Opening brace should
    be indented one level further than block start.". *)
Theorem next_line_indent_tab_after_space :
  let lines := [ "class C"; String " " (String tab "{"); "    }" ] in
  let lbrace := Sample.tok PUNCTUATION "{" 2 3 in
  let toks := [ Sample.tok KEYWORD "class" 1 1; Sample.tok IDENTIFIER "C" 1 7;
                lbrace; Sample.tok PUNCTUATION "}" 3 5 ] in
  let self := Sample.class_handler IndentationConfig_default Sample.class_node in
  let r := Handler.checkCurlyBraces (fun _ => toks) (fun _ => Ok lines)
             "next-line-indent" (self, Sample.world0) in
  next_tab_stop 1 4 = 4
  /\ (exists next_level : IndentLevel.t,
        IndentLevel.__init__ None (Some (Handler.level self))
          (Some (indentation_size (Handler.config self))) = Ok next_level
        /\ IndentLevel.accept next_level 4 = true
        /\ IndentLevel.accept next_level 5 = false)
  /\ Handler.expandedTabsColumnNo (fun _ => Ok lines) self (Some (Token.extent lbrace))
     = Ok 5
  /\ fst r = Ok tt
  /\ added Sample.world0 (snd (snd r))
     = [Build_RuleViolation "indent.brace" "a.cpp" 2 3 Handler.msg_open_indent].
Proof.
  cbv zeta. refine (conj _ (conj _ (conj _ (conj _ _)))); try reflexivity.
  eexists. refine (conj _ (conj _ _)); reflexivity.
Qed.

(** The line test as the code has it.  Styles [next-line] and
    [next-line-indent], on a handler whose token window has a left brace
    and an owner token before it: the check adds the violation "Opening
    brace should be on the line directly after block start." exactly when
    [t.extent.start.line == lbrace.extent.start.line + 1] holds, whatever
    the check does afterwards. *)
Theorem line_after_violation_recorded
    (tokenize : SourceRange.t -> list Token.t)
    (readFile : string -> outcome (list string))
    (indent_type : string) (self : Handler.t) (w : World)
    (first : Token.t) (rest : list Token.t) (owner lb : Token.t) :
  indent_type = "next-line" \/ indent_type = "next-line-indent" ->
  Handler.window tokenize self = Some (first :: rest) ->
  Handler.token_left_of_lcurly (first :: rest) None = Some owner ->
  Handler.first_punctuation "{" (first :: rest) = Some lb ->
  records Handler.msg_line_after w
    (snd (exec (Handler.checkCurlyBraces tokenize readFile indent_type) (self, w)))
  = true
  <-> Handler.start_line owner = Handler.start_line lb + 1.
Proof.
  intros [-> | ->] Hw Howner Hlb.
  - rewrite (records_next_line _ _ _ _ _ _ owner lb Hw Howner Hlb). apply Z.eqb_eq.
  - rewrite (records_next_line_indent _ _ _ _ _ _ owner lb Hw Howner Hlb).
    apply Z.eqb_eq.
Qed.

(** An instance, on tokens in an order no tokenizer yields: the owner token
    on line 3, the opening brace on line 2. *)
Lemma line_after_violation_recorded_witness :
  let toks :=
    [ Sample.tok KEYWORD "class" 1 1; Sample.tok IDENTIFIER "C" 3 1;
      Sample.tok PUNCTUATION "{" 2 1; Sample.tok PUNCTUATION "}" 4 1 ] in
  records Handler.msg_line_after Sample.world0
    (snd (exec (Handler.checkCurlyBraces (fun _ => toks) (fun _ => Raise IOError)
                  "next-line")
            (Sample.class_handler IndentationConfig_default Sample.class_node,
             Sample.world0)))
  = true
  <-> Handler.start_line (Sample.tok IDENTIFIER "C" 3 1)
      = Handler.start_line (Sample.tok PUNCTUATION "{" 2 1) + 1.
Proof.
  intros toks.
  apply (line_after_violation_recorded (fun _ => toks) (fun _ => Raise IOError)
           "next-line"
           (Sample.class_handler IndentationConfig_default Sample.class_node)
           Sample.world0
           (Sample.tok KEYWORD "class" 1 1)
           [Sample.tok IDENTIFIER "C" 3 1; Sample.tok PUNCTUATION "{" 2 1;
            Sample.tok PUNCTUATION "}" 4 1]
           (Sample.tok IDENTIFIER "C" 3 1) (Sample.tok PUNCTUATION "{" 2 1)).
  - left. reflexivity.
  - reflexivity.
  - reflexivity.
  - reflexivity.
Defined.

(** The reading with the two lines exchanged fails: with [class C] on line 1
    and the opening brace on line 2, column 1, the start line of the left
    brace is the start line of the owner token plus one, and style
    [next-line] adds no violation. *)
Lemma line_after_violation_counterexample :
  let toks :=
    [ Sample.tok KEYWORD "class" 1 1; Sample.tok IDENTIFIER "C" 1 7;
      Sample.tok PUNCTUATION "{" 2 1; Sample.tok PUNCTUATION "}" 3 1 ] in
  ~ (records Handler.msg_line_after Sample.world0
       (snd (exec (Handler.checkCurlyBraces (fun _ => toks) (fun _ => Raise IOError)
                     "next-line")
               (Sample.class_handler IndentationConfig_default Sample.class_node,
                Sample.world0)))
     = true
     <-> Handler.start_line (Sample.tok PUNCTUATION "{" 2 1)
         = Handler.start_line (Sample.tok IDENTIFIER "C" 1 7) + 1).
Proof.
  intros toks [_ H]. specialize (H eq_refl). vm_compute in H. discriminate H.
Qed.

(** C2.  Styles [next-line] and [next-line-indent], [class C] on line 1:
    with the opening brace on line 2, the start line of the left brace is
    the start line of the owner token plus one, and the check adds no
    violation of the line test; nor does it with the brace on line 3, where
    the brace is not on the line directly after: the test of the code has
    the two lines exchanged and holds for no window in source order. *)
Theorem line_after_violation_missed :
  let owner := Sample.tok IDENTIFIER "C" 1 7 in
  let lbrace (line : Z) := Sample.tok PUNCTUATION "{" line 1 in
  let toks (line : Z) :=
    [ Sample.tok KEYWORD "class" 1 1; owner; lbrace line;
      Sample.tok PUNCTUATION "}" 4 1 ] in
  let recorded (indent_type : string) (line : Z) :=
    records Handler.msg_line_after Sample.world0
      (snd (exec (Handler.checkCurlyBraces (fun _ => toks line) (fun _ => Raise IOError)
                    indent_type)
              (Sample.class_handler IndentationConfig_default Sample.class_node,
               Sample.world0))) in
  Handler.start_line (lbrace 2) = Handler.start_line owner + 1
  /\ recorded "next-line" 2 = false
  /\ recorded "next-line-indent" 2 = false
  /\ recorded "next-line" 3 = false
  /\ recorded "next-line-indent" 3 = false.
Proof. cbv zeta. refine (conj _ (conj _ (conj _ (conj _ _)))); reflexivity. Qed.

(** ** The tree check *)

Section TraversalFacts.

Variable tokenize : SourceRange.t -> list Token.t.
Variable readFile : string -> outcome (list string).

Lemma py_index_last {A} (l : list A) (x : A) :
  py_index (l ++ [x]) (-1) = Ok x.
Proof.
  unfold py_index. rewrite length_app. simpl length.
  change (-1 <? 0) with true. cbv iota.
  replace (-1 + Z.of_nat (length l + 1)) with (Z.of_nat (length l)) by lia.
  destruct (Z.ltb_spec (Z.of_nat (length l)) 0) as [?|_]; [lia|].
  destruct (Z.leb_spec (Z.of_nat (length l + 1)) (Z.of_nat (length l))) as [?|_]; [lia|].
  simpl. rewrite Nat2Z.id.
  by rewrite lookup_app_r, Nat.sub_diag by lia.
Qed.

Lemma py_index_nonempty {A} (l : list A) :
  l <> [] -> exists x, py_index l (-1) = Ok x.
Proof.
  intros Hl. destruct (exists_last Hl) as (l' & x & ->).
  exists x. apply py_index_last.
Qed.

(** Entering a node whose handler is built and whose check returns. *)
Lemma enterNode_Ok (node : Cursor.t) (self : IndentationCheck.t)
    (parent handler handler' : Handler.t) (w' : World) :
  py_index (IndentationCheck.handlers self) (-1) = Ok parent ->
  getHandler (IndentationCheck.config self) node parent = Ok handler ->
  Handler.checkIndentation tokenize readFile (handler, IndentationCheck.world self)
  = (Ok tt, (handler', w')) ->
  IndentationCheck.enterNode tokenize readFile node self
  = (Ok tt,
     IndentationCheck.Build (IndentationCheck.config self)
       (IndentationCheck.handlers self ++ [handler'])%list
       (IndentationCheck.level self + 1) w').
Proof.
  intros Hparent Hhandler Hcheck. unfold IndentationCheck.enterNode.
  erewrite bind_Ok by reflexivity.
  rewrite Hparent. erewrite bind_Ok by reflexivity.
  rewrite Hhandler. erewrite bind_Ok by reflexivity.
  erewrite bind_Ok
    by (unfold IndentationCheck.append_and_check; rewrite Hcheck; reflexivity).
  reflexivity.
Qed.

Lemma exitNode_Ok (cfg : IndentationConfig) (hs : list Handler.t) (h : Handler.t)
    (l : Z) (w : World) :
  IndentationCheck.exitNode (IndentationCheck.Build cfg (hs ++ [h])%list l w)
  = (Ok tt, IndentationCheck.Build cfg hs (l - 1) w).
Proof.
  unfold IndentationCheck.exitNode.
  erewrite bind_Ok by reflexivity.
  erewrite bind_Ok by reflexivity.
  cbn [IndentationCheck.handlers].
  destruct (hs ++ [h])%list eqn:E; [by destruct hs|].
  rewrite <- E. unfold put. cbn. by rewrite removelast_last.
Qed.

(** A kind without handler class: [getHandler] raises [NameError]. *)
Lemma getHandler_unknown (cfg : IndentationConfig) (node : Cursor.t) (parent : Handler.t) :
  eval (class_name_of (kind_name_of node)) = Raise NameError ->
  getHandler cfg node parent = Raise NameError.
Proof. intros H. unfold getHandler. by rewrite H. Qed.

(** Entering a node of a kind without handler class raises and changes
    nothing; with a handler on the stack the exception is [NameError]. *)
Lemma enterNode_unknown (node : Cursor.t) (self : IndentationCheck.t) :
  eval (class_name_of (kind_name_of node)) = Raise NameError ->
  exists e : PyExn,
    IndentationCheck.enterNode tokenize readFile node self = (Raise e, self)
    /\ (IndentationCheck.handlers self <> [] -> e = NameError).
Proof.
  intros Heval. unfold IndentationCheck.enterNode.
  erewrite bind_Ok by reflexivity.
  destruct (py_index (IndentationCheck.handlers self) (-1)) as [parent|e] eqn:Hparent.
  - exists NameError. split; [|done].
    erewrite bind_Ok by reflexivity.
    rewrite (getHandler_unknown _ _ _ Heval).
    by erewrite bind_Raise by reflexivity.
  - exists e. split; [by erewrite bind_Raise by reflexivity|].
    intros Hne. destruct (py_index_nonempty _ Hne) as [x Hx]. congruence.
Qed.

(** An exception in the walk of the first child ends the walk of the
    parent: no sibling is entered and the parent is not left. *)
Lemma walk_first_child_raises (node : Cursor.t) (child : Tree) (siblings : list Tree)
    (s s' s'' : IndentationCheck.t) (e : PyExn) :
  IndentationCheck.enterNode tokenize readFile node s = (Ok tt, s') ->
  IndentationCheck.walk tokenize readFile child s' = (Raise e, s'') ->
  IndentationCheck.walk tokenize readFile (TreeNode node (child :: siblings)) s
  = (Raise e, s'').
Proof.
  intros Henter Hchild. cbn [IndentationCheck.walk].
  erewrite bind_Ok by exact Henter.
  erewrite bind_Raise; [reflexivity|].
  by erewrite bind_Raise by exact Hchild.
Qed.

End TraversalFacts.

(** C7.  A node whose kind names no handler class: [enterNode] raises and
    leaves the check as it is, so that no handler is pushed and no violation
    added; inside a session, where the stack holds the root handler at
    least, the exception is the [NameError] of [getHandler]; the walk of a
    tree with such a node at its root ends with that exception at once,
    before any child is entered; and a traversal of that tree ends with
    [NameError] right after [beginTree], the sink being what it was. *)
Theorem enterNode_unknown_kind
    (tokenize : SourceRange.t -> list Token.t)
    (readFile : string -> outcome (list string))
    (node : Cursor.t) (children : list Tree) (self : IndentationCheck.t) :
  eval (class_name_of (kind_name_of node)) = Raise NameError ->
  (exists e : PyExn,
     IndentationCheck.enterNode tokenize readFile node self = (Raise e, self)
     /\ (IndentationCheck.handlers self <> [] -> e = NameError)
     /\ IndentationCheck.walk tokenize readFile (TreeNode node children) self
        = (Raise e, self))
  /\ (forall (cfg : IndentationConfig) (w : World),
        IndentationCheck.traverse tokenize readFile (TreeNode node children)
          (IndentationCheck.__init__ cfg w)
        = (Raise NameError, IndentationCheck.Build cfg [root_handler cfg] 0 w)).
Proof.
  intros Heval. split.
  - destruct (enterNode_unknown tokenize readFile node self Heval) as (e & Henter & He).
    exists e. split; [done|]. split; [done|].
    cbn [IndentationCheck.walk]. by erewrite bind_Raise by exact Henter.
  - intros cfg w. unfold IndentationCheck.traverse.
    erewrite bind_Ok by reflexivity.
    destruct (enterNode_unknown tokenize readFile node
                (IndentationCheck.Build cfg [root_handler cfg] 0 w) Heval)
      as (e & Henter & He).
    rewrite (He ltac:(done)) in Henter.
    erewrite bind_Raise; [reflexivity|].
    cbn [IndentationCheck.walk]. by erewrite bind_Raise by exact Henter.
Qed.

(** An instance: the kind [CONDITIONAL_OPERATOR], for which [getHandler]
    asks for the name [ConditionalOperatorHandler]. *)
Lemma enterNode_unknown_kind_witness :
  let node := Sample.cursor "CursorKind.CONDITIONAL_OPERATOR" "" 1 1 in
  let self := IndentationCheck.__init__ IndentationConfig_default Sample.world0 in
  (exists e : PyExn,
     IndentationCheck.enterNode (fun _ => []) (fun _ => Raise IOError) node self
     = (Raise e, self)
     /\ (IndentationCheck.handlers self <> [] -> e = NameError)
     /\ IndentationCheck.walk (fun _ => []) (fun _ => Raise IOError) (TreeNode node []) self
        = (Raise e, self))
  /\ (forall (cfg : IndentationConfig) (w : World),
        IndentationCheck.traverse (fun _ => []) (fun _ => Raise IOError) (TreeNode node [])
          (IndentationCheck.__init__ cfg w)
        = (Raise NameError, IndentationCheck.Build cfg [root_handler cfg] 0 w)).
Proof.
  intros node self.
  apply (enterNode_unknown_kind (fun _ => []) (fun _ => Raise IOError) node [] self).
  vm_compute. reflexivity.
Defined.

Section EndToEnd.

Variable tokenize : SourceRange.t -> list Token.t.
Variable readFile : string -> outcome (list string).

Lemma beginTree_fresh (cfg : IndentationConfig) (w : World) :
  IndentationCheck.beginTree (IndentationCheck.__init__ cfg w)
  = (Ok tt, IndentationCheck.Build cfg [root_handler cfg] 0 w).
Proof. reflexivity. Qed.

Lemma endTree_root (cfg : IndentationConfig) (h : Handler.t) (l : Z) (w : World) :
  IndentationCheck.endTree (IndentationCheck.Build cfg [h] l w)
  = (Ok tt, IndentationCheck.Build cfg [] l w).
Proof. reflexivity. Qed.

Lemma getHandler_known (cfg : IndentationConfig) (node : Cursor.t) (parent : Handler.t)
    (k : HandlerClass) (lvl : IndentLevel.t) :
  eval (class_name_of (kind_name_of node)) = Ok k ->
  k <> RootHandler ->
  Handler.suggestedChildLevel parent = Ok lvl ->
  getHandler cfg node parent
  = Ok (Handler.Build k (Some (kind_name_of node)) (Some node) (Some parent) cfg lvl None).
Proof.
  intros Heval Hk Hlvl. unfold getHandler. rewrite Heval. simpl.
  unfold Handler.__init__, Handler._getLevelImpl.
  destruct k; try done; by rewrite Hlvl.
Qed.

Lemma accept_derived (P : IndentLevel.t) (k c : Z) :
  IndentLevel.accept
    (IndentLevel.Build
       (set_fold (fun l (acc : gset Z) => {[ l + k ]} ∪ acc) ∅ (IndentLevel.levels P))) c
  = IndentLevel.accept P (c - k).
Proof.
  unfold IndentLevel.accept. cbn [IndentLevel.levels].
  apply bool_decide_ext, derive_fold_spec.
Qed.

End EndToEnd.

(** A class declaration whose braces pass the test of style [same-line]
    and that contains one typedef declaration for which the resolver of the
    code returns column 3 or 5, with [indentation_size = 4] and
    [indent_inside_class_struct_body = True]: one traversal returns and adds
    exactly one violation, the "Invalid indentation level." of the member. *)
Lemma traverse_class_with_typedef
    (tokenize : SourceRange.t -> list Token.t)
    (readFile : string -> outcome (list string))
    (cfg : IndentationConfig) (w : World) (c m : Cursor.t)
    (first : Token.t) (rest : list Token.t) (owner lb rb : Token.t)
    (lines : list string) (line : string) (col : Z) :
  Cursor.kind c = "CursorKind.CLASS_DECL" ->
  Cursor.kind m = "CursorKind.TYPEDEF_DECL" ->
  indentation_size cfg = 4 ->
  indent_inside_class_struct_body cfg = true ->
  brace_positions_class_struct_declaration cfg = "same-line" ->
  tokenize (Cursor.extent c) = first :: rest ->
  Handler.token_left_of_lcurly (first :: rest) None = Some owner ->
  Handler.first_punctuation "{" (first :: rest) = Some lb ->
  Handler.first_punctuation "}" (rev (first :: rest)) = Some rb ->
  Handler.start_line owner = Handler.start_line lb ->
  start_column rb = start_column first ->
  readFile (SourceLocation.file (SourceRange.start (Cursor.extent m))) = Ok lines ->
  py_index lines (SourceLocation.line (SourceRange.start (Cursor.extent m)) - 1) = Ok line ->
  lengthExpandedTabs line
    (SourceLocation.column (SourceRange.start (Cursor.extent m)) - 1) (tab_size cfg)
  = Ok col ->
  col = 3 \/ col = 5 ->
  let r := IndentationCheck.traverse tokenize readFile (TreeNode c [TreeNode m []])
             (IndentationCheck.__init__ cfg w) in
  fst r = Ok tt
  /\ added w (IndentationCheck.world (snd r))
     = [Build_RuleViolation "indent.statement"
          (SourceLocation.file (SourceRange.start (Cursor.extent m)))
          (SourceLocation.line (SourceRange.start (Cursor.extent m)))
          (SourceLocation.column (SourceRange.start (Cursor.extent m)))
          "Invalid indentation level."].
Proof.
  intros Hkc Hkm Hsize Hinside Hstyle Htoks Howner Hlb Hrb Hline Hcolumn
         Hfile Hindex Hexpand Hcol.
  set (root := root_handler cfg).
  set (L1 := IndentLevel.Build
               (set_fold (fun l (acc : gset Z) => {[ l + 0 ]} ∪ acc) ∅
                  (IndentLevel.levels (Handler.level root)))).
  set (hc := Handler.Build ClassDeclHandler (Some (kind_name_of c)) (Some c)
               (Some root) cfg L1 None).
  set (hc' := Handler.set_token_set (first :: rest) hc).
  set (L2 := IndentLevel.Build
               (set_fold (fun l (acc : gset Z) => {[ l + indentation_size cfg ]} ∪ acc) ∅
                  (IndentLevel.levels L1))).
  set (hm := Handler.Build TypedefDeclHandler (Some (kind_name_of m)) (Some m)
               (Some hc') cfg L2 None).
  set (w1 := Handler.tokenized hc w).
  set (v := Build_RuleViolation "indent.statement"
              (SourceLocation.file (SourceRange.start (Cursor.extent m)))
              (SourceLocation.line (SourceRange.start (Cursor.extent m)))
              (SourceLocation.column (SourceRange.start (Cursor.extent m)))
              "Invalid indentation level.").
  assert (Hgc : getHandler cfg c root = Ok hc).
  { apply getHandler_known; [|done|reflexivity].
    unfold kind_name_of. rewrite Hkc. vm_compute. reflexivity. }
  assert (Hcc : Handler.checkIndentation tokenize readFile (hc, w) = (Ok tt, (hc', w1))).
  { unfold Handler.checkIndentation. erewrite bind_Ok by reflexivity.
    cbn [fst Handler.klass Handler.config hc]. rewrite Hstyle.
    rewrite (checkCurlyBraces_same_line _ _ _ _ first rest lb rb);
      [| by unfold Handler.window; cbn; rewrite Htoks | done | done].
    rewrite Howner. unfold Handler.areOnSameLine, Handler.areOnSameColumn.
    fold (Handler.start_line owner) (Handler.start_line lb)
         (start_column first) (start_column rb).
    rewrite Hline, Hcolumn, !Z.eqb_refl. reflexivity. }
  assert (Hgm : getHandler cfg m hc' = Ok hm).
  { apply getHandler_known; [|done|].
    - unfold kind_name_of. rewrite Hkm. vm_compute. reflexivity.
    - unfold Handler.suggestedChildLevel, Handler.shouldIncreaseIndent.
      cbn [Handler.klass hc' hc Handler.set_token_set Handler.config obind].
      rewrite Hinside. reflexivity. }
  assert (Hreject : IndentLevel.accept L2 col = false).
  { unfold L2, L1. rewrite !accept_derived, Hsize.
    apply bool_decide_eq_false. cbn. set_solver by lia. }
  assert (Hexp : Handler.expandedTabsColumnNo readFile hm (Some (Cursor.extent m)) = Ok col).
  { unfold Handler.expandedTabsColumnNo. rewrite Hfile. cbn [obind].
    rewrite Hindex. cbn [obind]. exact Hexpand. }
  assert (Hcm : Handler.checkIndentation tokenize readFile (hm, w1)
                = (Ok tt, (hm, World_add_violation v w1))).
  { unfold Handler.checkIndentation. erewrite bind_Ok by reflexivity.
    change (Handler.klass (fst (hm, w1))) with TypedefDeclHandler. cbv iota.
    unfold Handler.TypedefDecl_checkIndentation.
    erewrite bind_Ok by reflexivity.
    change (Cursor.extent <$> Handler.node (fst (hm, w1)))
      with (Some (Cursor.extent m)).
    cbv zeta. cbn [fst]. rewrite Hexp.
    erewrite bind_Ok by reflexivity. erewrite bind_Ok by reflexivity.
    change (Handler.level hm) with L2. rewrite Hreject. reflexivity. }
  cbv zeta. unfold IndentationCheck.traverse.
  erewrite bind_Ok by apply beginTree_fresh.
  cbn [IndentationCheck.walk].
  erewrite bind_Ok.
  2: { erewrite bind_Ok by (eapply enterNode_Ok; [reflexivity | exact Hgc | exact Hcc]).
       cbn [IndentationCheck.config IndentationCheck.handlers IndentationCheck.level app].
       erewrite bind_Ok.
       2: { erewrite bind_Ok.
            2: { erewrite bind_Ok
                   by (eapply enterNode_Ok; [reflexivity | exact Hgm | exact Hcm]).
                 erewrite bind_Ok by reflexivity.
                 apply (exitNode_Ok cfg [root_handler cfg; hc'] hm). }
            reflexivity. }
       apply (exitNode_Ok cfg [root_handler cfg] hc'). }
  rewrite endTree_root. cbn [fst snd IndentationCheck.world]. split; [done|].
  apply added_app. cbn [violations World_add_violation]. unfold violations_add, w1.
  by rewrite violations_tokenized.
Qed.

(** Before an index that only spaces precede, the column is the index. *)
Lemma lengthExpandedTabs_spaces (s : string) (n : nat) (w : Z) :
  (forall i, (i < n)%nat -> String.get i s = Some " "%char) ->
  lengthExpandedTabs s (Z.of_nat n) w = Ok (Z.of_nat n).
Proof.
  induction n as [|n IH]; intros Hsp; [reflexivity|].
  rewrite lengthExpandedTabs_succ, IH by (intros i Hi; apply Hsp; lia). simpl.
  rewrite (lengthExpandedTabs_body_other s w _ n " "%char); [|apply Hsp; lia|done].
  f_equal. lia.
Qed.

(** C3, as amended.  A class declaration whose first token and closing
    brace start at the first character of their lines and whose opening
    brace is on the line of the token before it, containing one typedef
    declaration whose first token stands after 3 or 5 spaces and nothing
    else on its line, one space off column 4, with [indentation_size = 4],
    [indent_inside_class_struct_body = True] and brace style [same-line],
    whatever the tab width: one traversal returns and adds exactly one
    violation, the "Invalid indentation level." of the member, of kind
    [indent.statement]; no brace violation is added. *)
Theorem class_with_misaligned_typedef
    (tokenize : SourceRange.t -> list Token.t)
    (readFile : string -> outcome (list string))
    (cfg : IndentationConfig) (w : World) (c m : Cursor.t)
    (first : Token.t) (rest : list Token.t) (owner lb rb : Token.t)
    (lines : list string) (line : string) (spaces : nat) :
  Cursor.kind c = "CursorKind.CLASS_DECL" ->
  Cursor.kind m = "CursorKind.TYPEDEF_DECL" ->
  indentation_size cfg = 4 ->
  indent_inside_class_struct_body cfg = true ->
  brace_positions_class_struct_declaration cfg = "same-line" ->
  tokenize (Cursor.extent c) = first :: rest ->
  Handler.token_left_of_lcurly (first :: rest) None = Some owner ->
  Handler.first_punctuation "{" (first :: rest) = Some lb ->
  Handler.first_punctuation "}" (rev (first :: rest)) = Some rb ->
  Handler.start_line owner = Handler.start_line lb ->
  start_column first = 1 ->
  start_column rb = 1 ->
  readFile (SourceLocation.file (SourceRange.start (Cursor.extent m))) = Ok lines ->
  py_index lines (SourceLocation.line (SourceRange.start (Cursor.extent m)) - 1) = Ok line ->
  SourceLocation.column (SourceRange.start (Cursor.extent m)) = Z.of_nat spaces + 1 ->
  (forall i, (i < spaces)%nat -> String.get i line = Some " "%char) ->
  spaces = 3%nat \/ spaces = 5%nat ->
  let r := IndentationCheck.traverse tokenize readFile (TreeNode c [TreeNode m []])
             (IndentationCheck.__init__ cfg w) in
  fst r = Ok tt
  /\ added w (IndentationCheck.world (snd r))
     = [Build_RuleViolation "indent.statement"
          (SourceLocation.file (SourceRange.start (Cursor.extent m)))
          (SourceLocation.line (SourceRange.start (Cursor.extent m)))
          (SourceLocation.column (SourceRange.start (Cursor.extent m)))
          "Invalid indentation level."].
Proof.
  intros Hkc Hkm Hsize Hinside Hstyle Htoks Howner Hlb Hrb Hline Hfirst Hrbcol
         Hfile Hindex Hcolumn Hspaces Hoff.
  apply (traverse_class_with_typedef tokenize readFile cfg w c m first rest owner lb rb
           lines line (Z.of_nat spaces)); try done.
  - congruence.
  - rewrite Hcolumn. replace (Z.of_nat spaces + 1 - 1) with (Z.of_nat spaces) by lia.
    by apply lengthExpandedTabs_spaces.
  - destruct Hoff as [-> | ->]; [by left | by right].
Qed.

Lemma class_with_misaligned_typedef_witness :
  let r := IndentationCheck.traverse (SampleTree.tokenize SampleTree.typedef_tokens)
             (fun _ => Ok (SampleTree.lines "typedef int T;"))
             (TreeNode Sample.class_node [TreeNode SampleTree.typedef_node []])
             (IndentationCheck.__init__ IndentationConfig_default Sample.world0) in
  fst r = Ok tt
  /\ added Sample.world0 (IndentationCheck.world (snd r))
     = [Build_RuleViolation "indent.statement" "a.cpp" 2 6 "Invalid indentation level."].
Proof.
  apply (class_with_misaligned_typedef
           (SampleTree.tokenize SampleTree.typedef_tokens)
           (fun _ => Ok (SampleTree.lines "typedef int T;"))
           IndentationConfig_default Sample.world0
           Sample.class_node SampleTree.typedef_node
           (Sample.tok KEYWORD "class" 1 1)
           (tail (SampleTree.class_tokens SampleTree.typedef_tokens))
           (Sample.tok IDENTIFIER "C" 1 7) (Sample.tok PUNCTUATION "{" 1 9)
           (Sample.tok PUNCTUATION "}" 3 1)
           (SampleTree.lines "typedef int T;") "     typedef int T;" 5);
    first [ reflexivity
          | right; reflexivity
          | intros i Hi; destruct i as [|[|[|[|[|i]]]]]; simpl;
            first [reflexivity | lia] ].
Defined.

(** A member that is a field declaration gets no violation:
    [FieldDeclHandler.checkIndentation] is [pass], and the traversal of the
    class with the field after five spaces adds nothing to the sink. *)
Lemma class_with_misaligned_field_counterexample :
  let r := IndentationCheck.traverse (SampleTree.tokenize SampleTree.field_tokens)
             (fun _ => Ok (SampleTree.lines "int x;"))
             (TreeNode Sample.class_node [TreeNode SampleTree.field_node []])
             (IndentationCheck.__init__ IndentationConfig_default Sample.world0) in
  ~ (exists v : RuleViolation,
       added Sample.world0 (IndentationCheck.world (snd r)) = [v]
       /\ rv_text v = "Invalid indentation level.").
Proof.
  intros r (v & H & _). vm_compute in H. discriminate H.
Qed.

(** C9.  A handler whose node has an empty token window: the second call of
    [_getTokenSet] calls the tokenizer again, so that two calls on the same
    handler make two calls of the tokenizer. *)
Theorem getTokenSet_empty_window_recomputed :
  let self := Sample.class_handler IndentationConfig_default Sample.class_node in
  let twice :=
    (run Handler._getTokenSet (fun _ => []) then Handler._getTokenSet (fun _ => [])) in
  fst (twice (self, Sample.world0)) = Ok []
  /\ tokenize_calls (snd (exec twice (self, Sample.world0)))
     = [Cursor.extent Sample.class_node; Cursor.extent Sample.class_node].
Proof. split; reflexivity. Qed.

(** * Further properties *)

(** ** Column resolver: bounds and closed forms *)

Section ColumnBounds.

Lemma get_in_range (s : string) (i : nat) :
  (i < String.length s)%nat -> exists c, String.get i s = Some c.
Proof.
  revert i. induction s as [|c s IH]; intros i Hi; simpl in *; [lia|].
  destruct i as [|i]; [by eexists|]. apply IH. lia.
Qed.

Lemma get_out_of_range (s : string) (i : nat) :
  (String.length s <= i)%nat -> String.get i s = None.
Proof.
  revert i. induction s as [|c s IH]; intros i Hi; simpl in *; [by destruct i|].
  destruct i as [|i]; [lia|]. apply IH. lia.
Qed.

(** The body of the loop on a character of the line, for a tab width that
    is not zero: a column, which is greater by one at least if the tab
    width and the column before are not negative. *)
Lemma lengthExpandedTabs_body_in_range (s : string) (w l : Z) (i : nat) :
  (i < String.length s)%nat -> w <> 0 ->
  exists l', lengthExpandedTabs_body s w l i = Ok l' /\ (0 < w -> 0 <= l -> l + 1 <= l').
Proof.
  intros Hi Hw. destruct (get_in_range s i Hi) as [c Hc].
  unfold lengthExpandedTabs_body. rewrite Hc.
  destruct (Ascii.eqb c tab).
  - destruct (Z.eqb_spec w 0); [done|]. eexists. split; [done|].
    intros Hpos Hl. assert (0 <= l / w) by (apply Z.div_pos; lia). nia.
  - eexists. split; [done|]. lia.
Qed.

End ColumnBounds.

(** X1.  Up to an index within the line, and with no tab before the index,
    the column is the index, whatever the tab width, zero included. *)
Theorem lengthExpandedTabs_no_tab (s : string) (n : nat) (w : Z) :
  (n <= String.length s)%nat ->
  (forall i, (i < n)%nat -> String.get i s <> Some tab) ->
  lengthExpandedTabs s (Z.of_nat n) w = Ok (Z.of_nat n).
Proof.
  induction n as [|n IH]; intros Hn Htab; [reflexivity|].
  rewrite lengthExpandedTabs_succ, IH by (auto with lia). simpl.
  destruct (get_in_range s n) as [c Hc]; [lia|].
  rewrite (lengthExpandedTabs_body_other s w _ n c Hc).
  - f_equal. lia.
  - intros ->. by apply (Htab n); [lia|].
Qed.

Lemma lengthExpandedTabs_no_tab_witness :
  lengthExpandedTabs "    typedef" 4 0 = Ok 4.
Proof.
  apply (lengthExpandedTabs_no_tab "    typedef" 4 0).
  - simpl. lia.
  - intros i Hi. destruct i as [|[|[|[|i]]]]; simpl; first [discriminate | lia].
Defined.

(** X2.  With a tab width that is not zero, an index within the line gives
    a column, and for a positive tab width the column is not less than the
    index; an index beyond the end of the line raises [IndexError]. *)
Theorem lengthExpandedTabs_bounds (s : string) (n : nat) (w : Z) :
  w <> 0 ->
  ((n <= String.length s)%nat ->
   exists l, lengthExpandedTabs s (Z.of_nat n) w = Ok l /\ (0 < w -> Z.of_nat n <= l))
  /\ ((String.length s < n)%nat ->
      lengthExpandedTabs s (Z.of_nat n) w = Raise IndexError).
Proof.
  intros Hw.
  assert (Hin : forall m, (m <= String.length s)%nat ->
            exists l, lengthExpandedTabs s (Z.of_nat m) w = Ok l
                      /\ (0 < w -> Z.of_nat m <= l)).
  { induction m as [|m IH]; intros Hm; [exists 0; split; [done | lia]|].
    destruct IH as (l & Hl & Hle); [lia|].
    rewrite lengthExpandedTabs_succ, Hl. simpl.
    destruct (lengthExpandedTabs_body_in_range s w l m) as (l' & Hl' & Hle'); [lia|done|].
    exists l'. split; [done|]. intros Hpos. specialize (Hle Hpos).
    specialize (Hle' Hpos). lia. }
  split; [apply Hin|].
  induction n as [|n IH]; intros Hn; [lia|].
  rewrite lengthExpandedTabs_succ.
  destruct (decide (String.length s < n)%nat) as [Hlt|Hge].
  - by rewrite IH.
  - destruct (Hin n) as (l & Hl & _); [lia|]. rewrite Hl. simpl.
    unfold lengthExpandedTabs_body. by rewrite get_out_of_range by lia.
Qed.

Lemma lengthExpandedTabs_bounds_witness :
  (exists l, lengthExpandedTabs (String tab "x") 2 4 = Ok l /\ (0 < 4 -> 2 <= l))
  /\ lengthExpandedTabs (String tab "x") 3 4 = Raise IndexError.
Proof.
  destruct (lengthExpandedTabs_bounds (String tab "x") 2 4 ltac:(lia)) as [Hin _].
  destruct (lengthExpandedTabs_bounds (String tab "x") 3 4 ltac:(lia)) as [_ Hout].
  split; [apply Hin; simpl; lia | apply Hout; simpl; lia].
Defined.

(** With tab width zero and an index within the line: the index itself as
    long as no tab was met, [ZeroDivisionError] from the first tab on. *)
Lemma lengthExpandedTabs_zero_width_cases (s : string) (n : nat) :
  (n <= String.length s)%nat ->
  (lengthExpandedTabs s (Z.of_nat n) 0 = Ok (Z.of_nat n)
   /\ forall i, (i < n)%nat -> String.get i s <> Some tab)
  \/ (lengthExpandedTabs s (Z.of_nat n) 0 = Raise ZeroDivisionError
      /\ exists i, (i < n)%nat /\ String.get i s = Some tab).
Proof.
  induction n as [|n IH]; intros Hn.
  - left. split; [done | intros i Hi; lia].
  - rewrite lengthExpandedTabs_succ.
    destruct IH as [[Hl Hnone] | [Hl (i & Hi & Hget)]]; [lia | |].
    + rewrite Hl. simpl. destruct (get_in_range s n) as [c Hc]; [lia|].
      unfold lengthExpandedTabs_body. rewrite Hc.
      destruct (Ascii.eqb_spec c tab) as [->|Hne]; simpl.
      * right. split; [done|]. exists n. split; [lia | done].
      * left. split; [f_equal; lia|]. intros i Hi Hget.
        destruct (decide (i = n)) as [->|Hin]; [congruence|].
        apply (Hnone i); [lia | done].
    + rewrite Hl. right. split; [done|]. exists i. split; [lia | done].
Qed.

(** X3.  With tab width zero and an index within the line, the call raises
    [ZeroDivisionError] exactly when a tab stands before the index. *)
Theorem lengthExpandedTabs_zero_width (s : string) (n : nat) :
  (n <= String.length s)%nat ->
  lengthExpandedTabs s (Z.of_nat n) 0 = Raise ZeroDivisionError
  <-> exists i, (i < n)%nat /\ String.get i s = Some tab.
Proof.
  intros Hn.
  destruct (lengthExpandedTabs_zero_width_cases s n Hn)
    as [[Hl Hnone] | [Hl Hex]]; rewrite Hl.
  - split; [done|]. intros (i & Hi & Hget). by destruct (Hnone i Hi).
  - done.
Qed.

Lemma lengthExpandedTabs_zero_width_witness :
  lengthExpandedTabs (String tab "x") 2 0 = Raise ZeroDivisionError
  <-> exists i, (i < 2)%nat /\ String.get i (String tab "x") = Some tab.
Proof.
  apply (lengthExpandedTabs_zero_width (String tab "x") 2). simpl. lia.
Defined.

(** X4.  After [n] tabs at the start of a line the column is
    [(2^n - 1) * tab_width]: each tab adds the next tab stop to the column
    reached, so that the column doubles and a tab width is added. *)
Theorem lengthExpandedTabs_leading_tabs (s : string) (n : nat) (w : Z) :
  w <> 0 ->
  (forall i, (i < n)%nat -> String.get i s = Some tab) ->
  lengthExpandedTabs s (Z.of_nat n) w = Ok ((2 ^ Z.of_nat n - 1) * w).
Proof.
  intros Hw. induction n as [|n IH]; intros Htab; [reflexivity|].
  rewrite lengthExpandedTabs_succ, IH by (auto with lia). simpl.
  rewrite lengthExpandedTabs_body_tab by (auto with lia).
  f_equal. unfold next_tab_stop. rewrite Z.div_mul by done.
  rewrite Nat2Z.inj_succ, Z.pow_succ_r by lia. lia.
Qed.

Lemma lengthExpandedTabs_leading_tabs_witness :
  lengthExpandedTabs (String tab (String tab (String tab "x"))) 3 4 = Ok 28.
Proof.
  apply (lengthExpandedTabs_leading_tabs (String tab (String tab (String tab "x"))) 3 4).
  - lia.
  - intros i Hi. destruct i as [|[|[|i]]]; simpl; first [reflexivity | lia].
Defined.

(** ** Indent levels: errors and composition *)

Section IndentLevelMore.

Import IndentLevel.

Lemma Build_levels_eq (L1 L2 : t) : levels L1 = levels L2 -> L1 = L2.
Proof. destruct L1, L2. simpl. by intros ->. Qed.

Lemma derived_levels_elem (X : gset Z) (k c : Z) :
  c ∈ set_fold (fun l (acc : gset Z) => {[ l + k ]} ∪ acc) ∅ X
  <-> c - k ∈ X.
Proof. apply derive_fold_spec. Qed.

(** The last member of a sorted list bounds its members. *)
Lemma last_StronglySorted (l : list Z) (m : Z) :
  StronglySorted Z.le l -> last l = Some m -> forall x, x ∈ l -> x <= m.
Proof.
  induction 1 as [|y l Hl IH Hy]; intros Hlast x Hx; [by inversion Hx|].
  destruct l as [|z l'].
  - simpl in Hlast. injection Hlast as <-. apply list_elem_of_singleton in Hx. lia.
  - assert (Hlast' : last (z :: l') = Some m) by exact Hlast.
    apply elem_of_cons in Hx as [->|Hx]; [|by apply IH].
    assert (Hm : m ∈ z :: l').
    { rewrite last_lookup in Hlast'. by apply list_elem_of_lookup_2 in Hlast'. }
    rewrite List.Forall_forall in Hy. apply Hy. by apply list_elem_of_In.
Qed.

Lemma addAcceptedIndent_result (σ : store) (self : ref) (v : arg) (L : t) :
  σ !! self = Some L ->
  addAcceptedIndent self v σ
  = match v with
    | Int x => Some (<[ self := Build ({[ x ]} ∪ levels L) ]> σ)
    | Level r =>
        match σ !! r with
        | Some V => Some (<[ self := Build (levels V ∪ levels L) ]> σ)
        | None => None
        end
    end.
Proof.
  intros HL. unfold addAcceptedIndent. rewrite HL. destruct v as [x|r].
  - unfold levels_add. by rewrite HL.
  - destruct (σ !! r) as [V|]; [|done].
    rewrite (levels_add_fold _ _ _ L HL). by rewrite list_to_set_elements_L.
Qed.

End IndentLevelMore.

(** The constructor raises [AssertionError] exactly when no column is
    given and the base or the offset is missing; a given column makes the
    singleton of that column, whatever base and offset are. *)
Theorem IndentLevel_init_errors
    (indent : option Z) (base : option IndentLevel.t) (offset : option Z) :
  (IndentLevel.__init__ indent base offset = Raise AssertionError
   <-> indent = None /\ (base = None \/ offset = None))
  /\ (forall c, indent = Some c ->
        IndentLevel.__init__ indent base offset = Ok (IndentLevel.Build {[ c ]}))
  /\ (forall e, IndentLevel.__init__ indent base offset = Raise e -> e = AssertionError).
Proof.
  split; [|split].
  - destruct indent as [c|].
    + rewrite init_singleton. split; [done | by intros [? _]].
    + destruct base as [b|], offset as [k|]; cbn; split; intros H; try done;
        first [by auto | by destruct H as [_ [?|?]]].
  - intros c ->. apply init_singleton.
  - intros e. destruct indent as [c|]; [by rewrite init_singleton|].
    destruct base as [b|], offset as [k|]; cbn; congruence.
Qed.

(** X5.  Derivations compose: deriving with offset [a] and then with offset
    [b] gives the level derived with offset [a + b], and deriving with
    offset 0 gives a level equal to the base. *)
Theorem derive_compose (P : IndentLevel.t) (a b : Z) :
  (exists L1 L2 : IndentLevel.t,
     IndentLevel.__init__ None (Some P) (Some a) = Ok L1
     /\ IndentLevel.__init__ None (Some L1) (Some b) = Ok L2
     /\ IndentLevel.__init__ None (Some P) (Some (a + b)) = Ok L2)
  /\ IndentLevel.__init__ None (Some P) (Some 0) = Ok P.
Proof.
  split.
  - do 2 eexists. split; [apply init_derive|]. split; [apply init_derive|].
    rewrite init_derive. f_equal. apply Build_levels_eq. cbn [IndentLevel.levels].
    apply set_eq. intros c. rewrite !derived_levels_elem.
    by replace (c - b - a) with (c - (a + b)) by lia.
  - rewrite init_derive. f_equal. apply Build_levels_eq. cbn [IndentLevel.levels].
    apply set_eq. intros c. rewrite derived_levels_elem.
    by replace (c - 0) with c by lia.
Qed.

(** X6.  [gt] on a level without member raises [IndexError]; on a level with
    members it returns, and it holds exactly when some member is greater
    than the column. *)
Theorem gt_some_member_greater (L : IndentLevel.t) (c : Z) :
  (IndentLevel.levels L = ∅ -> IndentLevel.gt L c = Raise IndexError)
  /\ (IndentLevel.levels L <> ∅ ->
      exists b : bool,
        IndentLevel.gt L c = Ok b
        /\ (b = true <-> exists m, m ∈ IndentLevel.levels L /\ m > c)).
Proof.
  unfold IndentLevel.gt. split.
  - intros ->. by rewrite elements_empty.
  - intros Hne.
    pose proof (merge_sort_Permutation Z.le (elements (IndentLevel.levels L))) as Hperm.
    pose proof (StronglySorted_merge_sort Z.le (elements (IndentLevel.levels L))) as Hsorted.
    destruct (last (merge_sort Z.le (elements (IndentLevel.levels L)))) as [m|] eqn:Hlast.
    + eexists. split; [done|]. rewrite bool_decide_eq_true.
      assert (Hm : m ∈ IndentLevel.levels L).
      { rewrite last_lookup in Hlast. apply list_elem_of_lookup_2 in Hlast.
        rewrite Hperm in Hlast. by apply elem_of_elements. }
      split; [by exists m|]. intros (x & Hx & Hgt).
      assert (x <= m); [|lia].
      apply (last_StronglySorted _ m Hsorted Hlast).
      rewrite Hperm. by apply elem_of_elements.
    + exfalso. apply last_None in Hlast.
      rewrite Hlast in Hperm. symmetry in Hperm. apply Permutation_nil_r in Hperm.
      apply elements_empty_inv in Hperm. by apply leibniz_equiv in Hperm.
Qed.

Lemma gt_some_member_greater_witness :
  exists b : bool,
    IndentLevel.gt (IndentLevel.Build {[ 0; 4 ]}) 2 = Ok b
    /\ (b = true <-> exists m, m ∈ ({[ 0; 4 ]} : gset Z) /\ m > 2).
Proof.
  destruct (gt_some_member_greater (IndentLevel.Build {[ 0; 4 ]}) 2) as [_ H].
  apply H. vm_compute. discriminate.
Defined.

(** X7.  Two widenings of the same level commute, whatever the arguments
    are: integers, other levels, or the level itself. *)
Theorem addAcceptedIndent_commute
    (σ : gmap IndentLevel.ref IndentLevel.t) (self : IndentLevel.ref)
    (v1 v2 : IndentLevel.arg) :
  IndentLevel.addAcceptedIndent self v1 σ ≫= IndentLevel.addAcceptedIndent self v2
  = IndentLevel.addAcceptedIndent self v2 σ ≫= IndentLevel.addAcceptedIndent self v1.
Proof.
  destruct (σ !! self) as [L|] eqn:HL.
  2: { unfold IndentLevel.addAcceptedIndent. by rewrite HL. }
  rewrite (addAcceptedIndent_result σ self v1 L HL),
          (addAcceptedIndent_result σ self v2 L HL).
  assert (Hstep : forall (X : gset Z) (v : IndentLevel.arg),
            IndentLevel.addAcceptedIndent self v
              (<[self:=IndentLevel.Build (X ∪ IndentLevel.levels L)]> σ)
            = match v with
              | IndentLevel.Int x =>
                  Some (<[self:=IndentLevel.Build
                                 ({[ x ]} ∪ (X ∪ IndentLevel.levels L))]> σ)
              | IndentLevel.Level r =>
                  if decide (r = self)
                  then Some (<[self:=IndentLevel.Build
                                      ((X ∪ IndentLevel.levels L)
                                       ∪ (X ∪ IndentLevel.levels L))]> σ)
                  else match σ !! r with
                       | Some V =>
                           Some (<[self:=IndentLevel.Build
                                          (IndentLevel.levels V
                                           ∪ (X ∪ IndentLevel.levels L))]> σ)
                       | None => None
                       end
              end).
  { intros X v.
    rewrite (addAcceptedIndent_result _ self v
               (IndentLevel.Build (X ∪ IndentLevel.levels L)))
      by apply lookup_insert_eq.
    destruct v as [x|r]; cbn [IndentLevel.levels]; [by rewrite insert_insert_eq|].
    destruct (decide (r = self)) as [->|Hne].
    - rewrite lookup_insert_eq. cbn [IndentLevel.levels]. by rewrite insert_insert_eq.
    - rewrite lookup_insert_ne by done.
      destruct (σ !! r); [by rewrite insert_insert_eq | done]. }
  destruct v1 as [x1|r1], v2 as [x2|r2]; simpl.
  - rewrite !Hstep. do 3 f_equal. set_solver.
  - destruct (σ !! r2) as [V2|] eqn:H2; simpl; rewrite ?Hstep.
    + destruct (decide (r2 = self)) as [->|Hne].
      * rewrite HL in H2. injection H2 as <-. do 3 f_equal. set_solver.
      * rewrite H2. do 3 f_equal. set_solver.
    + destruct (decide (r2 = self)) as [->|Hne]; [congruence | by rewrite H2].
  - destruct (σ !! r1) as [V1|] eqn:H1; simpl; rewrite ?Hstep.
    + destruct (decide (r1 = self)) as [->|Hne].
      * rewrite HL in H1. injection H1 as <-. do 3 f_equal. set_solver.
      * rewrite H1. do 3 f_equal. set_solver.
    + destruct (decide (r1 = self)) as [->|Hne]; [congruence | by rewrite H1].
  - destruct (σ !! r1) as [V1|] eqn:H1, (σ !! r2) as [V2|] eqn:H2; simpl;
      rewrite ?Hstep;
      repeat match goal with
             | |- context [decide (?r = self)] =>
                 destruct (decide (r = self)) as [->|?]
             end;
      rewrite ?H1, ?H2; try congruence;
      repeat match goal with
             | H : σ !! self = Some ?V, H' : σ !! self = Some ?V' |- _ =>
                 rewrite H in H'; injection H' as <-
             end;
      try (do 3 f_equal; set_solver).
Qed.

(** ** Brace look-ups and the remaining paths of the brace check *)

Section BraceLookups.

Import Handler.

Variable tokenize : SourceRange.t -> list Token.t.
Variable readFile : string -> outcome (list string).

Lemma window_set_token_set (self : t) (toks : list Token.t) :
  window tokenize self = Some toks ->
  window tokenize (set_token_set toks self) = Some toks.
Proof.
  unfold window. destruct toks as [|tok toks]; [|done].
  cbn [_token_set set_token_set node].
  destruct (_token_set self) as [[|]|]; destruct (node self); congruence.
Qed.

Lemma set_token_set_twice (self : t) (ts : list Token.t) :
  set_token_set ts (set_token_set ts self) = set_token_set ts self.
Proof. reflexivity. Qed.

Lemma getRCurlyBrace_window (self : t) (w : World) (toks : list Token.t) :
  window tokenize self = Some toks ->
  getRCurlyBrace tokenize (self, w)
  = (Ok (first_punctuation "}" (rev toks)), (set_token_set toks self, tokenized self w)).
Proof.
  intros H. unfold getRCurlyBrace.
  by erewrite bind_Ok by (by apply getTokenSet_window).
Qed.

Lemma getTokenLeft_window (self : t) (w : World) (toks : list Token.t) :
  window tokenize self = Some toks ->
  getTokenLeftOfLeftLCurlyBrace tokenize (self, w)
  = (Ok (token_left_of_lcurly toks None), (set_token_set toks self, tokenized self w)).
Proof.
  intros H. unfold getTokenLeftOfLeftLCurlyBrace.
  by erewrite bind_Ok by (by apply getTokenSet_window).
Qed.

Lemma Forall_rev_iff {A} (P : A -> Prop) (l : list A) :
  Forall P (rev l) <-> Forall P l.
Proof.
  split; intros H; [|by apply List.Forall_rev].
  rewrite <- (rev_involutive l). by apply List.Forall_rev.
Qed.

(** The scan for the first token of a spelling. *)
Lemma first_punctuation_app (sp : string) (pre post : list Token.t) (tok : Token.t) :
  Forall (fun t => is_punctuation sp t = false) pre ->
  is_punctuation sp tok = true ->
  first_punctuation sp (pre ++ tok :: post) = Some tok.
Proof.
  induction 1 as [|x pre Hx _ IH]; intros Htok; simpl; [by rewrite Htok|].
  rewrite Hx. by apply IH.
Qed.

Lemma first_punctuation_None (sp : string) (toks : list Token.t) :
  first_punctuation sp toks = None
  <-> Forall (fun t => is_punctuation sp t = false) toks.
Proof.
  induction toks as [|x toks IH]; simpl; [by split|].
  destruct (is_punctuation sp x) eqn:Hx.
  - split; [done|]. intros H. apply Forall_cons in H as [H _]. congruence.
  - rewrite IH. split; [by constructor | by intros [_ ?]%Forall_cons].
Qed.

Lemma token_left_of_lcurly_app (pre post : list Token.t) (lb : Token.t)
    (res : option Token.t) :
  Forall (fun t => is_punctuation "{" t = false) pre ->
  is_punctuation "{" lb = true ->
  token_left_of_lcurly (pre ++ lb :: post) res
  = match last pre with Some t => Some t | None => res end.
Proof.
  intros Hpre Hlb. revert res.
  induction Hpre as [|x pre Hx _ IH]; intros res; simpl; [by rewrite Hlb|].
  rewrite Hx, IH. destruct pre as [|y pre']; [done|].
  change (last (x :: y :: pre')) with (last (y :: pre')).
  destruct (last (y :: pre')) eqn:E; [done|]. by apply last_None in E.
Qed.

Lemma token_left_of_lcurly_None (toks : list Token.t) (res : option Token.t) :
  first_punctuation "{" toks = None -> token_left_of_lcurly toks res = None.
Proof.
  revert res. induction toks as [|x toks IH]; intros res; simpl; [done|].
  destruct (is_punctuation "{" x); [done | apply IH].
Qed.

(** The head of [checkCurlyBraces] on any window, an empty one included. *)
Lemma checkCurlyBraces_no_lbrace (indent_type : string) (self : t) (w : World)
    (toks : list Token.t) :
  window tokenize self = Some toks ->
  first_punctuation "{" toks = None ->
  checkCurlyBraces tokenize readFile indent_type (self, w)
  = (if is_None (first_punctuation "}" (rev toks)) then Ok tt else Raise AssertionError,
     (set_token_set toks self,
      tokenized (set_token_set toks self)
        (tokenized (set_token_set toks self) (tokenized self w)))).
Proof.
  intros Hw Hlb. unfold checkCurlyBraces.
  pose proof (window_set_token_set _ _ Hw) as Hw'.
  erewrite bind_Ok by (by apply getLCurlyBrace_window).
  erewrite bind_Ok by (by apply getRCurlyBrace_window).
  erewrite bind_Ok by (by apply getTokenLeft_window).
  rewrite !set_token_set_twice, Hlb, (token_left_of_lcurly_None _ _ Hlb).
  by destruct (first_punctuation "}" (rev toks)).
Qed.

End BraceLookups.

(** X8.  The left brace the look-up returns is the first punctuation token
    spelled as an opening brace, and the owner token is the token right
    before it: none when the brace is the first token of the window. *)
Theorem left_brace_and_owner_lookup
    (tokenize : SourceRange.t -> list Token.t)
    (self : Handler.t) (w : World) (pre post : list Token.t) (lb : Token.t) :
  Handler.window tokenize self = Some (pre ++ lb :: post)%list ->
  Forall (fun t => Handler.is_punctuation "{" t = false) pre ->
  Handler.is_punctuation "{" lb = true ->
  fst (Handler.getLCurlyBrace tokenize (self, w)) = Ok (Some lb)
  /\ fst (Handler.getTokenLeftOfLeftLCurlyBrace tokenize (self, w)) = Ok (last pre).
Proof.
  intros Hw Hpre Hlb.
  rewrite (getLCurlyBrace_window _ _ _ _ Hw), (getTokenLeft_window _ _ _ _ Hw).
  cbn [fst]. rewrite first_punctuation_app, token_left_of_lcurly_app by done.
  split; [done|]. by destruct (last pre).
Qed.

Lemma left_brace_and_owner_lookup_witness :
  fst (Handler.getLCurlyBrace (fun _ => Sample.same_line_tokens 1)
         (Sample.class_handler IndentationConfig_default Sample.class_node, Sample.world0))
  = Ok (Some (Sample.tok PUNCTUATION "{" 1 9))
  /\ fst (Handler.getTokenLeftOfLeftLCurlyBrace (fun _ => Sample.same_line_tokens 1)
            (Sample.class_handler IndentationConfig_default Sample.class_node,
             Sample.world0))
     = Ok (Some (Sample.tok IDENTIFIER "C" 1 7)).
Proof.
  apply (left_brace_and_owner_lookup (fun _ => Sample.same_line_tokens 1)
           (Sample.class_handler IndentationConfig_default Sample.class_node)
           Sample.world0
           [Sample.tok KEYWORD "class" 1 1; Sample.tok IDENTIFIER "C" 1 7]
           [Sample.tok PUNCTUATION "}" 3 1] (Sample.tok PUNCTUATION "{" 1 9)).
  - reflexivity.
  - repeat constructor.
  - reflexivity.
Defined.

(** X9.  The right brace the look-up returns is the last punctuation token
    spelled as a closing brace. *)
Theorem right_brace_lookup
    (tokenize : SourceRange.t -> list Token.t)
    (self : Handler.t) (w : World) (pre post : list Token.t) (rb : Token.t) :
  Handler.window tokenize self = Some (pre ++ rb :: post)%list ->
  Forall (fun t => Handler.is_punctuation "}" t = false) post ->
  Handler.is_punctuation "}" rb = true ->
  fst (Handler.getRCurlyBrace tokenize (self, w)) = Ok (Some rb).
Proof.
  intros Hw Hpost Hrb. rewrite (getRCurlyBrace_window _ _ _ _ Hw). cbn [fst].
  rewrite rev_app_distr. simpl. rewrite <- app_assoc. simpl.
  rewrite first_punctuation_app; [done | | done].
  by apply Forall_rev_iff.
Qed.

Lemma right_brace_lookup_witness :
  fst (Handler.getRCurlyBrace
         (fun _ => SampleTree.class_tokens SampleTree.typedef_tokens)
         (Sample.class_handler IndentationConfig_default Sample.class_node, Sample.world0))
  = Ok (Some (Sample.tok PUNCTUATION "}" 3 1)).
Proof.
  apply (right_brace_lookup
           (fun _ => SampleTree.class_tokens SampleTree.typedef_tokens)
           (Sample.class_handler IndentationConfig_default Sample.class_node)
           Sample.world0
           ([Sample.tok KEYWORD "class" 1 1; Sample.tok IDENTIFIER "C" 1 7;
             Sample.tok PUNCTUATION "{" 1 9] ++ SampleTree.typedef_tokens)%list
           [Sample.tok PUNCTUATION ";" 3 2] (Sample.tok PUNCTUATION "}" 3 1)).
  - reflexivity.
  - repeat constructor.
  - reflexivity.
Defined.

(** X10.  A window without opening brace: whatever the style string is, the
    brace check adds no violation; it returns if the window has no closing
    brace either and raises [AssertionError] if it has one.  The assertion
    on the owner token cannot fail. *)
Theorem checkCurlyBraces_without_left_brace
    (tokenize : SourceRange.t -> list Token.t)
    (readFile : string -> outcome (list string))
    (indent_type : string) (self : Handler.t) (w : World) (toks : list Token.t) :
  Handler.window tokenize self = Some toks ->
  Forall (fun t => Handler.is_punctuation "{" t = false) toks ->
  let r := Handler.checkCurlyBraces tokenize readFile indent_type (self, w) in
  added w (snd (snd r)) = []
  /\ (Forall (fun t => Handler.is_punctuation "}" t = false) toks -> fst r = Ok tt)
  /\ (~ Forall (fun t => Handler.is_punctuation "}" t = false) toks ->
      fst r = Raise AssertionError).
Proof.
  intros Hw Hno r. subst r.
  apply first_punctuation_None in Hno.
  rewrite (checkCurlyBraces_no_lbrace _ _ _ _ _ _ Hw Hno). cbn [fst snd].
  split; [|split].
  - apply added_app. by rewrite !violations_tokenized, app_nil_r.
  - intros Hr. apply Forall_rev_iff, first_punctuation_None in Hr. by rewrite Hr.
  - intros Hr. destruct (Handler.first_punctuation "}" (rev toks)) eqn:E; [reflexivity|].
    exfalso. apply Hr. apply first_punctuation_None in E.
    apply (proj1 (Forall_rev_iff _ toks)). exact E.
Qed.

Lemma checkCurlyBraces_without_left_brace_witness :
  let r := Handler.checkCurlyBraces (fun _ => SampleTree.typedef_tokens)
             (fun _ => Raise IOError) "no-such-style"
             (Sample.class_handler IndentationConfig_default SampleTree.typedef_node,
              Sample.world0) in
  added Sample.world0 (snd (snd r)) = [] /\ fst r = Ok tt.
Proof.
  destruct (checkCurlyBraces_without_left_brace (fun _ => SampleTree.typedef_tokens)
              (fun _ => Raise IOError) "no-such-style"
              (Sample.class_handler IndentationConfig_default SampleTree.typedef_node)
              Sample.world0 SampleTree.typedef_tokens eq_refl
              ltac:(repeat constructor)) as (Hadded & Hok & _).
  split; [exact Hadded|]. apply Hok. repeat constructor.
Defined.

Section BraceStylesMore.

Import Handler.

Variable tokenize : SourceRange.t -> list Token.t.
Variable readFile : string -> outcome (list string).

(** Style [next-line]: the outcome and the state, for a window with owner
    token and both braces. *)
Lemma checkCurlyBraces_next_line (self : t) (w : World)
    (first : Token.t) (rest : list Token.t) (owner lb rb : Token.t) :
  window tokenize self = Some (first :: rest) ->
  token_left_of_lcurly (first :: rest) None = Some owner ->
  first_punctuation "{" (first :: rest) = Some lb ->
  first_punctuation "}" (rev (first :: rest)) = Some rb ->
  checkCurlyBraces tokenize readFile "next-line" (self, w)
  = (Ok tt,
     (set_token_set (first :: rest) self,
      World_add_violations
        (unless (areOnSameColumn (Some first) (Some lb))
                (brace_violation lb msg_open_column)
         ++ unless (negb (start_line owner =? start_line lb + 1))
                   (brace_violation lb msg_line_after)
         ++ unless (areOnSameColumn (Some first) (Some rb))
                   (brace_violation rb msg_close_column))
        (tokenized self w))).
Proof.
  intros Hw Howner Hlb Hrb.
  rewrite (checkCurlyBraces_lookups _ _ _ _ _ _ _ lb Hw Hlb).
  cbv zeta. rewrite Hrb, Howner.
  change (String.eqb "next-line" "same-line") with false.
  change (String.eqb "next-line" "next-line") with true. cbv iota.
  erewrite bind_Ok by apply getFirstToken_again.
  erewrite bind_Ok by apply when_log_brace.
  erewrite bind_Ok by reflexivity.
  erewrite bind_Ok by apply when_log_brace.
  erewrite bind_Ok by apply getFirstToken_again.
  change (Token.extent <$> Some rb) with (Some (Token.extent rb)).
  rewrite when_log_brace, !add_violations_app, !negb_involutive.
  by rewrite <- ?app_assoc.
Qed.

End BraceStylesMore.

(** X11.  Style [next-line], on a window with owner token and both braces:
    the check returns, and what it adds is, in this order, one violation
    unless the opening brace starts on the column of the first token, one if
    the owner token starts one line below the opening brace, and one unless
    the closing brace starts on the column of the first token.  The columns
    compared are the raw ones, not the tab-expanded ones. *)
Theorem next_line_braces
    (tokenize : SourceRange.t -> list Token.t)
    (readFile : string -> outcome (list string))
    (self : Handler.t) (w : World)
    (first : Token.t) (rest : list Token.t) (owner lb rb : Token.t) :
  Handler.window tokenize self = Some (first :: rest) ->
  Handler.token_left_of_lcurly (first :: rest) None = Some owner ->
  Handler.first_punctuation "{" (first :: rest) = Some lb ->
  Handler.first_punctuation "}" (rev (first :: rest)) = Some rb ->
  let r := Handler.checkCurlyBraces tokenize readFile "next-line" (self, w) in
  fst r = Ok tt
  /\ added w (snd (snd r))
     = (unless (start_column first =? start_column lb)
               (brace_violation lb Handler.msg_open_column)
        ++ unless (negb (Handler.start_line owner =? Handler.start_line lb + 1))
                  (brace_violation lb Handler.msg_line_after)
        ++ unless (start_column first =? start_column rb)
                  (brace_violation rb Handler.msg_close_column))%list.
Proof.
  intros Hw Howner Hlb Hrb r. subst r.
  rewrite (checkCurlyBraces_next_line _ _ _ _ _ _ owner lb rb Hw Howner Hlb Hrb).
  cbn [fst snd]. by rewrite added_add_violations.
Qed.

Lemma next_line_braces_witness :
  let r := Handler.checkCurlyBraces (fun _ => Sample.next_line_tokens "    ")
             (fun _ => Raise IOError) "next-line"
             (Sample.class_handler IndentationConfig_default Sample.class_node,
              Sample.world0) in
  fst r = Ok tt
  /\ added Sample.world0 (snd (snd r))
     = [ Build_RuleViolation "indent.brace" "a.cpp" 2 5 Handler.msg_open_column;
         Build_RuleViolation "indent.brace" "a.cpp" 3 5 Handler.msg_close_column ].
Proof.
  apply (next_line_braces (fun _ => Sample.next_line_tokens "    ")
           (fun _ => Raise IOError)
           (Sample.class_handler IndentationConfig_default Sample.class_node)
           Sample.world0
           (Sample.tok KEYWORD "class" 1 1)
           [Sample.tok IDENTIFIER "C" 1 7; Sample.tok PUNCTUATION "{" 2 5;
            Sample.tok PUNCTUATION "}" 3 5]
           (Sample.tok IDENTIFIER "C" 1 7) (Sample.tok PUNCTUATION "{" 2 5)
           (Sample.tok PUNCTUATION "}" 3 5)); reflexivity.
Defined.

(** X12.  A style string that is none of the three styles, on a window with
    an opening brace: the check raises [AssertionError] and adds no
    violation.  The style is looked at only here, when a node with a brace
    is checked. *)
Theorem checkCurlyBraces_unknown_style
    (tokenize : SourceRange.t -> list Token.t)
    (readFile : string -> outcome (list string))
    (indent_type : string) (self : Handler.t) (w : World)
    (first : Token.t) (rest : list Token.t) (lb : Token.t) :
  Handler.window tokenize self = Some (first :: rest) ->
  Handler.first_punctuation "{" (first :: rest) = Some lb ->
  indent_type <> "same-line" ->
  indent_type <> "next-line" ->
  indent_type <> "next-line-indent" ->
  let r := Handler.checkCurlyBraces tokenize readFile indent_type (self, w) in
  fst r = Raise AssertionError /\ added w (snd (snd r)) = [].
Proof.
  intros Hw Hlb H1 H2 H3 r. subst r.
  rewrite (checkCurlyBraces_lookups _ _ _ _ _ _ _ lb Hw Hlb). cbv zeta.
  apply String.eqb_neq in H1, H2, H3. rewrite H1, H2, H3.
  erewrite bind_Raise by reflexivity. cbn [fst snd].
  split; [done|]. apply added_app. by rewrite violations_tokenized, app_nil_r.
Qed.

Lemma checkCurlyBraces_unknown_style_witness :
  let r := Handler.checkCurlyBraces (fun _ => Sample.same_line_tokens 1)
             (fun _ => Raise IOError) "next-line-indented"
             (Sample.class_handler IndentationConfig_default Sample.class_node,
              Sample.world0) in
  fst r = Raise AssertionError /\ added Sample.world0 (snd (snd r)) = [].
Proof.
  apply (checkCurlyBraces_unknown_style (fun _ => Sample.same_line_tokens 1)
           (fun _ => Raise IOError) "next-line-indented"
           (Sample.class_handler IndentationConfig_default Sample.class_node)
           Sample.world0
           (Sample.tok KEYWORD "class" 1 1)
           [Sample.tok IDENTIFIER "C" 1 7; Sample.tok PUNCTUATION "{" 1 9;
            Sample.tok PUNCTUATION "}" 3 1]
           (Sample.tok PUNCTUATION "{" 1 9));
    first [reflexivity | discriminate].
Defined.

(** X13.  A window with an opening brace and no closing brace: under each of
    the three styles the check raises [AttributeError]. *)
Theorem checkCurlyBraces_missing_right_brace
    (tokenize : SourceRange.t -> list Token.t)
    (readFile : string -> outcome (list string))
    (indent_type : string) (self : Handler.t) (w : World)
    (first : Token.t) (rest : list Token.t) (lb : Token.t) :
  Handler.window tokenize self = Some (first :: rest) ->
  Handler.first_punctuation "{" (first :: rest) = Some lb ->
  Handler.first_punctuation "}" (rev (first :: rest)) = None ->
  indent_type = "same-line" \/ indent_type = "next-line"
  \/ indent_type = "next-line-indent" ->
  fst (Handler.checkCurlyBraces tokenize readFile indent_type (self, w))
  = Raise AttributeError.
Proof.
  intros Hw Hlb Hrb Hstyle.
  rewrite (checkCurlyBraces_lookups _ _ _ _ _ _ _ lb Hw Hlb). cbv zeta. rewrite Hrb.
  destruct Hstyle as [-> | [-> | ->]].
  - change (String.eqb "same-line" "same-line") with true. cbv iota.
    erewrite bind_Ok by apply when_log_brace.
    erewrite bind_Ok by apply getFirstToken_again.
    reflexivity.
  - change (String.eqb "next-line" "same-line") with false.
    change (String.eqb "next-line" "next-line") with true. cbv iota.
    erewrite bind_Ok by apply getFirstToken_again.
    erewrite bind_Ok by apply when_log_brace.
    destruct (Handler.token_left_of_lcurly (first :: rest) None) as [owner|].
    + erewrite bind_Ok by reflexivity.
      erewrite bind_Ok by apply when_log_brace.
      erewrite bind_Ok by apply getFirstToken_again.
      reflexivity.
    + by erewrite bind_Raise by reflexivity.
  - change (String.eqb "next-line-indent" "same-line") with false.
    change (String.eqb "next-line-indent" "next-line") with false.
    change (String.eqb "next-line-indent" "next-line-indent") with true. cbv iota.
    erewrite bind_Ok by reflexivity.
    destruct (Handler.token_left_of_lcurly (first :: rest) None) as [owner|].
    + erewrite bind_Ok by reflexivity.
      erewrite bind_Ok by apply when_log_brace.
      erewrite bind_Ok by reflexivity.
      erewrite bind_Ok by reflexivity.
      by erewrite bind_Raise by reflexivity.
    + by erewrite bind_Raise by reflexivity.
Qed.

Lemma checkCurlyBraces_missing_right_brace_witness :
  fst (Handler.checkCurlyBraces
         (fun _ => [ Sample.tok KEYWORD "class" 1 1; Sample.tok IDENTIFIER "C" 1 7;
                     Sample.tok PUNCTUATION "{" 1 9 ])
         (fun _ => Raise IOError) "same-line"
         (Sample.class_handler IndentationConfig_default Sample.class_node, Sample.world0))
  = Raise AttributeError.
Proof.
  apply (checkCurlyBraces_missing_right_brace _ (fun _ => Raise IOError) "same-line"
           (Sample.class_handler IndentationConfig_default Sample.class_node)
           Sample.world0
           (Sample.tok KEYWORD "class" 1 1)
           [Sample.tok IDENTIFIER "C" 1 7; Sample.tok PUNCTUATION "{" 1 9]
           (Sample.tok PUNCTUATION "{" 1 9));
    first [reflexivity | left; reflexivity].
Defined.

(** X14.  A window whose first token is the opening brace, so that there is
    no owner token: style [same-line] always reports the opening brace (and
    nothing else if the closing brace starts on its column), and the styles
    [next-line] and [next-line-indent] raise [AttributeError]. *)
Theorem checkCurlyBraces_brace_first
    (tokenize : SourceRange.t -> list Token.t)
    (readFile : string -> outcome (list string))
    (self : Handler.t) (w : World)
    (lb : Token.t) (rest : list Token.t) (rb : Token.t) :
  Handler.window tokenize self = Some (lb :: rest) ->
  Handler.is_punctuation "{" lb = true ->
  Handler.first_punctuation "}" (rev (lb :: rest)) = Some rb ->
  (let r := Handler.checkCurlyBraces tokenize readFile "same-line" (self, w) in
   fst r = Ok tt
   /\ added w (snd (snd r))
      = (brace_violation lb Handler.msg_same_line
         :: unless (start_column lb =? start_column rb)
                   (brace_violation rb Handler.msg_close_column)))
  /\ fst (Handler.checkCurlyBraces tokenize readFile "next-line" (self, w))
     = Raise AttributeError
  /\ fst (Handler.checkCurlyBraces tokenize readFile "next-line-indent" (self, w))
     = Raise AttributeError.
Proof.
  intros Hw Hlb Hrb.
  assert (Hfirst : Handler.first_punctuation "{" (lb :: rest) = Some lb)
    by (simpl; by rewrite Hlb).
  assert (Howner : Handler.token_left_of_lcurly (lb :: rest) None = None)
    by (simpl; by rewrite Hlb).
  split; [|split].
  - cbv zeta.
    rewrite (checkCurlyBraces_same_line _ _ _ _ _ _ lb rb Hw Hfirst Hrb).
    rewrite Howner. cbn [fst snd]. by rewrite added_add_violations.
  - rewrite (checkCurlyBraces_lookups _ _ _ _ _ _ _ lb Hw Hfirst). cbv zeta.
    rewrite Howner.
    change (String.eqb "next-line" "same-line") with false.
    change (String.eqb "next-line" "next-line") with true. cbv iota.
    erewrite bind_Ok by apply getFirstToken_again.
    erewrite bind_Ok by apply when_log_brace.
    by erewrite bind_Raise by reflexivity.
  - rewrite (checkCurlyBraces_lookups _ _ _ _ _ _ _ lb Hw Hfirst). cbv zeta.
    rewrite Howner.
    change (String.eqb "next-line-indent" "same-line") with false.
    change (String.eqb "next-line-indent" "next-line") with false.
    change (String.eqb "next-line-indent" "next-line-indent") with true. cbv iota.
    erewrite bind_Ok by reflexivity.
    by erewrite bind_Raise by reflexivity.
Qed.

Lemma checkCurlyBraces_brace_first_witness :
  let toks := [ Sample.tok PUNCTUATION "{" 1 1; Sample.tok PUNCTUATION "}" 2 1 ] in
  let s := (Sample.class_handler IndentationConfig_default Sample.class_node,
            Sample.world0) in
  (let r := Handler.checkCurlyBraces (fun _ => toks) (fun _ => Raise IOError)
              "same-line" s in
   fst r = Ok tt
   /\ added Sample.world0 (snd (snd r))
      = [Build_RuleViolation "indent.brace" "a.cpp" 1 1 Handler.msg_same_line])
  /\ fst (Handler.checkCurlyBraces (fun _ => toks) (fun _ => Raise IOError)
            "next-line" s) = Raise AttributeError
  /\ fst (Handler.checkCurlyBraces (fun _ => toks) (fun _ => Raise IOError)
            "next-line-indent" s) = Raise AttributeError.
Proof.
  intros toks s.
  apply (checkCurlyBraces_brace_first (fun _ => toks) (fun _ => Raise IOError)
           (Sample.class_handler IndentationConfig_default Sample.class_node)
           Sample.world0
           (Sample.tok PUNCTUATION "{" 1 1) [Sample.tok PUNCTUATION "}" 2 1]
           (Sample.tok PUNCTUATION "}" 2 1)); reflexivity.
Defined.

(** ** What a check changes *)

Section SteadyFacts.

Import Handler.

Variable tokenize : SourceRange.t -> list Token.t.
Variable readFile : string -> outcome (list string).

Lemma same_handler_refl (h : t) : same_handler h h.
Proof. by repeat split. Qed.

Lemma same_handler_trans (h1 h2 h3 : t) :
  same_handler h1 h2 -> same_handler h2 h3 -> same_handler h1 h3.
Proof.
  unfold same_handler. intros (?&?&?&?&?&?) (?&?&?&?&?&?).
  repeat split; congruence.
Qed.

Lemma same_handler_set_token_set (h : t) (ts : list Token.t) :
  same_handler h (set_token_set ts h).
Proof. by repeat split. Qed.

Lemma grows_refl (w : World) : grows w w.
Proof. by split. Qed.

Lemma grows_trans (w1 w2 w3 : World) : grows w1 w2 -> grows w2 w3 -> grows w1 w3.
Proof. intros [? ?] [? ?]. split; by etrans. Qed.

Lemma grows_add_violation (v : RuleViolation) (w : World) :
  grows w (World_add_violation v w).
Proof. split; [by apply prefix_app_r | done]. Qed.

Lemma grows_log_tokenize (extent : SourceRange.t) (w : World) :
  grows w (World_log_tokenize extent w).
Proof. split; [done | by apply prefix_app_r]. Qed.

Lemma steady_ret {A} (a : A) : steady (ret a).
Proof. intros s. split; [apply same_handler_refl | apply grows_refl]. Qed.

Lemma steady_raise {A} (e : PyExn) : steady (@raise st A e).
Proof. intros s. split; [apply same_handler_refl | apply grows_refl]. Qed.

Lemma steady_get : steady (@get st).
Proof. intros s. split; [apply same_handler_refl | apply grows_refl]. Qed.

Lemma steady_lift {A} (o : outcome A) : steady (@lift st A o).
Proof. intros s. split; [apply same_handler_refl | apply grows_refl]. Qed.

Lemma steady_assert (c : bool) : steady (@assert st c).
Proof. destruct c; [apply steady_ret | apply steady_raise]. Qed.

Lemma steady_bind {A B} (m : M st A) (k : A -> M st B) :
  steady m -> (forall a, steady (k a)) -> steady (bind m k).
Proof.
  intros Hm Hk s. specialize (Hm s). unfold exec, bind in *.
  destruct (m s) as [[a|e] s1]; simpl in *; [|done].
  destruct (Hk a s1) as [H1 H2]. destruct Hm as [H3 H4].
  split; [by eapply same_handler_trans | by eapply grows_trans].
Qed.

Lemma steady_getTokenSet : steady (_getTokenSet tokenize).
Proof.
  intros [h w]. unfold exec, _getTokenSet, bind, get. simpl.
  destruct (_token_set h) as [[|tok toks]|]; simpl;
    try (split; [apply same_handler_refl | apply grows_refl]);
    destruct (node h); simpl;
    first [ split; [apply same_handler_set_token_set | apply grows_log_tokenize]
          | split; [apply same_handler_refl | apply grows_refl] ].
Qed.

Lemma steady_logViolation (rule : string) (n : option SourceRange.t) (text : string) :
  steady (logViolation rule n text).
Proof.
  destruct n as [extent|]; [|apply steady_raise].
  intros [h w]. split; [apply same_handler_refl | apply grows_add_violation].
Qed.

Lemma steady_when (c : bool) (body : M st unit) : steady body -> steady (when c body).
Proof. destruct c; [done | intros _; apply steady_ret]. Qed.

Ltac steady_step :=
  first
    [ apply steady_ret | apply steady_raise | apply steady_get | apply steady_lift
    | apply steady_assert | apply steady_getTokenSet | apply steady_logViolation
    | apply steady_when
    | apply steady_bind; [|intros ?]
    | match goal with
      | |- steady (match ?x with _ => _ end) => destruct x
      end ].

Lemma steady_checkCurlyBraces (indent_type : string) :
  steady (checkCurlyBraces tokenize readFile indent_type).
Proof.
  unfold checkCurlyBraces, getLCurlyBrace, getRCurlyBrace,
    getTokenLeftOfLeftLCurlyBrace, getFirstToken, owner_line_is_after_lbrace.
  cbv zeta. repeat steady_step.
Qed.

Lemma steady_checkIndentation : steady (checkIndentation tokenize readFile).
Proof.
  unfold checkIndentation. apply steady_bind; [apply steady_get|]. intros s.
  destruct (klass (fst s));
    first [ apply steady_ret | apply steady_raise | apply steady_checkCurlyBraces
          | unfold TypedefDecl_checkIndentation; cbv zeta; repeat steady_step ].
Qed.

End SteadyFacts.

(** ** The walk as a whole *)

Section WalkFacts.

Variable tokenize : SourceRange.t -> list Token.t.
Variable readFile : string -> outcome (list string).

Lemma Tree_nested_ind (P : Tree -> Prop) :
  (forall node children, Forall P children -> P (TreeNode node children)) ->
  forall tree, P tree.
Proof.
  intros H. fix IH 1. intros [node children]. apply H.
  induction children as [|c cs IHcs]; constructor; [apply IH | apply IHcs].
Qed.

Lemma walk_unfold (node : Cursor.t) (children : list Tree) :
  IndentationCheck.walk tokenize readFile (TreeNode node children)
  = (run IndentationCheck.enterNode tokenize readFile node then
     run walk_children tokenize readFile children then
     IndentationCheck.exitNode).
Proof. reflexivity. Qed.

Lemma py_index_last_inv {A} (l : list A) (x : A) :
  py_index l (-1) = Ok x -> exists l', l = (l' ++ [x])%list.
Proof.
  intros H. destruct l as [|y l0] using rev_ind; [done|].
  rewrite py_index_last in H. injection H as ->. by eexists.
Qed.

(** What [getHandler] returns, when it returns. *)
Lemma getHandler_inv (cfg : IndentationConfig) (node : Cursor.t)
    (parent h : Handler.t) :
  getHandler cfg node parent = Ok h ->
  exists (k : HandlerClass) (increase : bool),
    eval (class_name_of (kind_name_of node)) = Ok k
    /\ k <> RootHandler
    /\ Handler.shouldIncreaseIndent parent = Ok increase
    /\ h = Handler.Build k (Some (kind_name_of node)) (Some node) (Some parent) cfg
             (IndentLevel.Build
                (set_fold
                   (fun l (acc : gset Z) =>
                      {[ l + (if increase
                              then indentation_size (Handler.config parent)
                              else 0) ]} ∪ acc)
                   ∅ (IndentLevel.levels (Handler.level parent))))
             None.
Proof.
  unfold getHandler. destruct (eval (class_name_of (kind_name_of node))) as [k|e];
    [|done]. simpl. intros H. exists k.
  assert (Hk : k <> RootHandler) by (by intros ->).
  assert (Hinit : Handler.__init__ k cfg (Some (kind_name_of node)) (Some node)
                    (Some parent) = Ok h) by (by destruct k).
  clear H. unfold Handler.__init__ in Hinit.
  assert (Hlvl : Handler._getLevelImpl k (Some parent)
                 = Handler.suggestedChildLevel parent) by (by destruct k).
  rewrite Hlvl in Hinit. unfold Handler.suggestedChildLevel in Hinit.
  destruct (Handler.shouldIncreaseIndent parent) as [increase|e]; [|done].
  exists increase. repeat split; [done|]. simpl in Hinit.
  destruct increase; rewrite init_derive in Hinit; simpl in Hinit; congruence.
Qed.

Lemma getHandler_level_size (cfg : IndentationConfig) (node : Cursor.t)
    (parent h : Handler.t) :
  getHandler cfg node parent = Ok h ->
  size (IndentLevel.levels (Handler.level h))
  = size (IndentLevel.levels (Handler.level parent)).
Proof.
  intros H. destruct (getHandler_inv _ _ _ _ H) as (k & inc & _ & _ & _ & ->).
  cbn [Handler.level IndentLevel.levels]. apply derive_fold_spec.
Qed.

(** [enterNode] either raises before it pushes, leaving the check as it is,
    or pushes the handler that [getHandler] built from the top of the
    stack, with the window the check may have stored in it. *)
Lemma enterNode_shape (node : Cursor.t) (s : IndentationCheck.t) :
  (exists e, IndentationCheck.enterNode tokenize readFile node s = (Raise e, s))
  \/ (exists (below : list Handler.t) (parent h h' : Handler.t) (w' : World)
             (o : outcome unit),
        IndentationCheck.handlers s = (below ++ [parent])%list
        /\ getHandler (IndentationCheck.config s) node parent = Ok h
        /\ same_handler h h'
        /\ grows (IndentationCheck.world s) w'
        /\ IndentationCheck.enterNode tokenize readFile node s
           = (o,
              IndentationCheck.Build (IndentationCheck.config s)
                (IndentationCheck.handlers s ++ [h'])%list
                (match o with
                 | Ok _ => IndentationCheck.level s + 1
                 | Raise _ => IndentationCheck.level s
                 end) w')).
Proof.
  unfold IndentationCheck.enterNode.
  erewrite bind_Ok by reflexivity.
  destruct (py_index (IndentationCheck.handlers s) (-1)) as [parent|e] eqn:Hparent.
  2: { left. exists e. by erewrite bind_Raise by reflexivity. }
  erewrite bind_Ok by reflexivity.
  destruct (getHandler (IndentationCheck.config s) node parent) as [h|e] eqn:Hh.
  2: { left. exists e. by erewrite bind_Raise by reflexivity. }
  erewrite bind_Ok by reflexivity.
  destruct (py_index_last_inv _ _ Hparent) as [below Hbelow].
  pose proof (steady_checkIndentation tokenize readFile (h, IndentationCheck.world s))
    as [Hsame Hgrows].
  unfold exec in Hsame, Hgrows.
  destruct (Handler.checkIndentation tokenize readFile (h, IndentationCheck.world s))
    as [o [h' w']] eqn:Hcheck.
  simpl in Hsame, Hgrows.
  right. exists below, parent, h, h', w', o.
  split; [done|]. split; [done|]. split; [exact Hsame|]. split; [exact Hgrows|].
  unfold bind at 1. unfold IndentationCheck.append_and_check at 1.
  rewrite Hcheck. by destruct o as [[]|e].
Qed.

Lemma walk_shape_node (node : Cursor.t) (children : M IndentationCheck.t unit) :
  walk_shape children ->
  walk_shape (run IndentationCheck.enterNode tokenize readFile node then
              run children then IndentationCheck.exitNode).
Proof.
  intros Hchildren s. cbv zeta.
  destruct (enterNode_shape node s)
    as [[e He] | (below & parent & h & h' & w' & o & Hs & Hh & Hsame & Hgrows & He)].
  { erewrite bind_Raise by exact He. cbn [fst snd].
    split; [done|]. split; [apply grows_refl|]. by split. }
  assert (Hsingle : single_levels s ->
            single_levels (IndentationCheck.Build (IndentationCheck.config s)
                             (IndentationCheck.handlers s ++ [h'])%list
                             (match o with
                              | Ok _ => IndentationCheck.level s + 1
                              | Raise _ => IndentationCheck.level s
                              end) w')).
  { unfold single_levels. cbn [IndentationCheck.handlers]. intros Hall.
    apply Forall_app. split; [done|]. apply Forall_singleton.
    destruct Hsame as (_ & _ & _ & _ & _ & ->).
    rewrite (getHandler_level_size _ _ _ _ Hh).
    rewrite Hs in Hall. apply Forall_app in Hall as [_ Hp].
    exact (List.Forall_inv Hp). }
  destruct o as [[]|e].
  2: { erewrite bind_Raise by exact He. cbn [fst snd IndentationCheck.config
         IndentationCheck.world IndentationCheck.handlers].
       split; [done|]. split; [done|]. split; [done|]. by apply prefix_app_r. }
  erewrite bind_Ok by exact He.
  specialize (Hchildren (IndentationCheck.Build (IndentationCheck.config s)
                           (IndentationCheck.handlers s ++ [h'])%list
                           (IndentationCheck.level s + 1) w')).
  cbv zeta in Hchildren.
  destruct (children _) as [o2 s2] eqn:Hc. cbn [fst snd] in Hchildren.
  cbn [IndentationCheck.config IndentationCheck.world IndentationCheck.handlers
       IndentationCheck.level] in Hchildren.
  destruct Hchildren as (Hcfg & Hg2 & Hs2 & Hstack).
  destruct o2 as [[]|e].
  2: { erewrite bind_Raise by exact Hc. cbn [fst snd].
       split; [done|]. split; [by eapply grows_trans|]. split; [by auto|].
       etrans; [|exact Hstack]. by apply prefix_app_r. }
  destruct Hstack as [Hstack Hlevel].
  erewrite bind_Ok by exact Hc.
  destruct s2 as [cfg2 hs2 l2 w2]. cbn [IndentationCheck.config
    IndentationCheck.world IndentationCheck.handlers IndentationCheck.level] in *.
  subst cfg2 hs2 l2. rewrite exitNode_Ok. cbn [fst snd IndentationCheck.config
    IndentationCheck.world IndentationCheck.handlers IndentationCheck.level].
  split; [done|]. split; [by eapply grows_trans|]. split; [|split; [done | lia]].
  intros Hall. specialize (Hs2 (Hsingle Hall)). unfold single_levels in *.
  cbn [IndentationCheck.handlers] in *. by apply Forall_app in Hs2 as [? _].
Qed.

Lemma walk_shape_ret : walk_shape (ret tt).
Proof.
  intros s. cbv zeta. cbn. split; [done|]. split; [apply grows_refl|]. by split.
Qed.

(** Two walks in a row. *)
Lemma walk_shape_seq (m1 m2 : M IndentationCheck.t unit) :
  walk_shape m1 -> walk_shape m2 -> walk_shape (run m1 then m2).
Proof.
  intros H1 H2 s. specialize (H1 s). cbv zeta in *. unfold bind.
  destruct (m1 s) as [[[]|e] s1]; cbn [fst snd] in *; [|done].
  destruct H1 as (Hc1 & Hg1 & Hs1 & Hh1 & Hl1).
  specialize (H2 s1). cbv zeta in H2.
  destruct (m2 s1) as [o2 s2]; cbn [fst snd] in *.
  destruct H2 as (Hc2 & Hg2 & Hs2 & Hstack).
  split; [congruence|]. split; [by eapply grows_trans|]. split; [by auto|].
  destruct o2; [destruct Hstack; split; congruence | by rewrite <- Hh1].
Qed.

Lemma walk_shape_walk (tree : Tree) :
  walk_shape (IndentationCheck.walk tokenize readFile tree).
Proof.
  induction tree as [node children IH] using Tree_nested_ind.
  rewrite walk_unfold. apply walk_shape_node.
  induction IH as [|c cs Hc _ IHcs]; [apply walk_shape_ret|].
  by apply walk_shape_seq.
Qed.

Lemma walk_shape_traverse (root : Tree) :
  walk_shape (IndentationCheck.traverse tokenize readFile root).
Proof.
  intros s. cbv zeta. unfold IndentationCheck.traverse.
  destruct s as [cfg hs l w]. destruct hs as [|h hs].
  2: { cbn. split; [done|]. split; [apply grows_refl|]. by split. }
  erewrite bind_Ok by reflexivity.
  pose proof (walk_shape_walk root
                (IndentationCheck.Build cfg [root_handler cfg] l w)) as Hw.
  cbv zeta in Hw.
  destruct (IndentationCheck.walk tokenize readFile root _) as [o s1] eqn:Hwalk.
  cbn [fst snd IndentationCheck.config IndentationCheck.world
       IndentationCheck.handlers IndentationCheck.level] in Hw.
  destruct Hw as (Hc & Hg & Hs & Hstack).
  assert (Hroot : single_levels (IndentationCheck.Build cfg [root_handler cfg] l w)).
  { apply Forall_singleton. cbn. by rewrite (right_id_L ∅ (∪)), size_singleton. }
  destruct o as [[]|e].
  2: { erewrite bind_Raise by exact Hwalk. cbn [fst snd].
       cbn [IndentationCheck.config IndentationCheck.world IndentationCheck.handlers].
       split; [done|]. split; [done|]. split; [by auto|]. apply prefix_nil. }
  erewrite bind_Ok by exact Hwalk.
  destruct s1 as [cfg1 hs1 l1 w1]. cbn [IndentationCheck.config
    IndentationCheck.world IndentationCheck.handlers IndentationCheck.level] in *.
  destruct Hstack as [-> ->]. subst cfg1. rewrite endTree_root.
  cbn [fst snd IndentationCheck.config IndentationCheck.world
       IndentationCheck.handlers IndentationCheck.level].
  split; [done|]. split; [done|]. split; [|done]. intros _. by apply Forall_nil.
Qed.

End WalkFacts.

(** X15.  A traversal, and the walk of any tree, never removes or reorders
    what the sink holds: the violations before are a prefix of the
    violations after, whether the walk returns or raises; the same holds for
    the calls of the tokenizer, and the configuration is not changed. *)
Theorem traversal_only_adds
    (tokenize : SourceRange.t -> list Token.t)
    (readFile : string -> outcome (list string))
    (tree : Tree) (s : IndentationCheck.t) :
  let after_walk := exec (IndentationCheck.walk tokenize readFile tree) s in
  let after_traverse := exec (IndentationCheck.traverse tokenize readFile tree) s in
  (violations (IndentationCheck.world s)
     `prefix_of` violations (IndentationCheck.world after_walk)
   /\ tokenize_calls (IndentationCheck.world s)
        `prefix_of` tokenize_calls (IndentationCheck.world after_walk)
   /\ IndentationCheck.config after_walk = IndentationCheck.config s)
  /\ (violations (IndentationCheck.world s)
        `prefix_of` violations (IndentationCheck.world after_traverse)
      /\ tokenize_calls (IndentationCheck.world s)
           `prefix_of` tokenize_calls (IndentationCheck.world after_traverse)
      /\ IndentationCheck.config after_traverse = IndentationCheck.config s).
Proof.
  cbv zeta. unfold exec. split.
  - destruct (walk_shape_walk tokenize readFile tree s) as (Hc & [Hv Ht] & _). done.
  - destruct (walk_shape_traverse tokenize readFile tree s) as (Hc & [Hv Ht] & _). done.
Qed.

(** X16.  A walk that returns leaves the stack of handlers and the depth
    counter as it found them: every node entered is left; a traversal that
    returns started from an empty stack and ends with one. *)
Theorem walk_restores_stack
    (tokenize : SourceRange.t -> list Token.t)
    (readFile : string -> outcome (list string))
    (tree : Tree) (s : IndentationCheck.t) :
  (fst (IndentationCheck.walk tokenize readFile tree s) = Ok tt ->
   IndentationCheck.handlers (exec (IndentationCheck.walk tokenize readFile tree) s)
   = IndentationCheck.handlers s
   /\ IndentationCheck.level (exec (IndentationCheck.walk tokenize readFile tree) s)
      = IndentationCheck.level s)
  /\ (fst (IndentationCheck.traverse tokenize readFile tree s) = Ok tt ->
      IndentationCheck.handlers s = []
      /\ IndentationCheck.handlers
           (exec (IndentationCheck.traverse tokenize readFile tree) s) = []
      /\ IndentationCheck.level
           (exec (IndentationCheck.traverse tokenize readFile tree) s)
         = IndentationCheck.level s).
Proof.
  unfold exec. split.
  - intros Hok.
    destruct (walk_shape_walk tokenize readFile tree s) as (_ & _ & _ & H).
    by rewrite Hok in H.
  - intros Hok.
    destruct (walk_shape_traverse tokenize readFile tree s) as (_ & _ & _ & H).
    rewrite Hok in H. destruct H as [Hh Hl].
    assert (Hempty : IndentationCheck.handlers s = []).
    { destruct s as [cfg [|h hs] l w]; [done|]. by cbn in Hok. }
    rewrite Hh. done.
Qed.

Lemma walk_restores_stack_witness :
  let tree := TreeNode Sample.class_node [TreeNode SampleTree.typedef_node []] in
  let tok := SampleTree.tokenize SampleTree.typedef_tokens in
  let rf := fun _ : string => Ok (SampleTree.lines "typedef int T;") in
  let s := IndentationCheck.__init__ IndentationConfig_default Sample.world0 in
  IndentationCheck.handlers s = []
  /\ IndentationCheck.handlers (exec (IndentationCheck.traverse tok rf tree) s) = []
  /\ IndentationCheck.level (exec (IndentationCheck.traverse tok rf tree) s)
     = IndentationCheck.level s.
Proof.
  intros tree tok rf s.
  destruct (walk_restores_stack tok rf tree s) as [_ H]. apply H.
  vm_compute. reflexivity.
Defined.

(** X17.  A traversal that raises, started on an empty stack, leaves
    handlers on the stack (the root handler at least): nothing unwinds it,
    and the next [beginTree] on the same check fails its assertion. *)
Theorem aborted_traversal_blocks_the_check
    (tokenize : SourceRange.t -> list Token.t)
    (readFile : string -> outcome (list string))
    (tree : Tree) (s : IndentationCheck.t) (e : PyExn) :
  IndentationCheck.handlers s = [] ->
  fst (IndentationCheck.traverse tokenize readFile tree s) = Raise e ->
  let s' := exec (IndentationCheck.traverse tokenize readFile tree) s in
  IndentationCheck.handlers s' <> []
  /\ IndentationCheck.beginTree s' = (Raise AssertionError, s').
Proof.
  intros Hempty Hraise s'.
  assert (Hne : IndentationCheck.handlers s' <> []).
  { subst s'. unfold exec. unfold IndentationCheck.traverse in *.
    destruct s as [cfg hs l w]. cbn in Hempty. subst hs.
    erewrite bind_Ok in * by reflexivity.
    pose proof (walk_shape_walk tokenize readFile tree
                  (IndentationCheck.Build cfg [root_handler cfg] l w)) as Hw.
    cbv zeta in Hw.
    destruct (IndentationCheck.walk tokenize readFile tree _) as [o s1] eqn:Hwalk.
    cbn [fst snd IndentationCheck.handlers] in Hw.
    destruct Hw as (_ & _ & _ & Hstack).
    destruct o as [[]|e'].
    - erewrite bind_Ok in Hraise by exact Hwalk.
      destruct s1 as [cfg1 hs1 l1 w1]. cbn [IndentationCheck.handlers] in Hstack.
      destruct Hstack as [-> _]. by rewrite endTree_root in Hraise.
    - erewrite bind_Raise by exact Hwalk. cbn [snd].
      intros Hnil. rewrite Hnil in Hstack. by apply prefix_nil_inv in Hstack. }
  split; [done|].
  destruct s' as [cfg' [|h hs'] l' w']; [done | reflexivity].
Qed.

Lemma aborted_traversal_blocks_the_check_witness :
  let tree := TreeNode (Sample.cursor "CursorKind.CONDITIONAL_OPERATOR" "" 1 1) [] in
  let s := IndentationCheck.__init__ IndentationConfig_default Sample.world0 in
  let s' := exec (IndentationCheck.traverse (fun _ => []) (fun _ => Raise IOError) tree) s in
  IndentationCheck.handlers s' <> []
  /\ IndentationCheck.beginTree s' = (Raise AssertionError, s').
Proof.
  intros tree s.
  apply (aborted_traversal_blocks_the_check (fun _ => []) (fun _ => Raise IOError)
           tree s NameError); reflexivity.
Defined.

(** X18.  The levels of the handlers stay single: if every handler on the
    stack accepts exactly one column, so does every handler on the stack
    after the walk of a tree, returned or raised; a traversal starts from
    the root handler, which accepts column 0 alone. *)
Theorem walk_keeps_single_levels
    (tokenize : SourceRange.t -> list Token.t)
    (readFile : string -> outcome (list string))
    (tree : Tree) (s : IndentationCheck.t) :
  single_levels s ->
  single_levels (exec (IndentationCheck.walk tokenize readFile tree) s)
  /\ single_levels (exec (IndentationCheck.traverse tokenize readFile tree) s)
  /\ Forall (fun h => IndentLevel.isMultilevel (Handler.level h) = false)
       (IndentationCheck.handlers
          (exec (IndentationCheck.walk tokenize readFile tree) s)).
Proof.
  intros Hs. unfold exec.
  destruct (walk_shape_walk tokenize readFile tree s) as (_ & _ & Hw & _).
  destruct (walk_shape_traverse tokenize readFile tree s) as (_ & _ & Ht & _).
  split; [by auto|]. split; [by auto|].
  specialize (Hw Hs). unfold single_levels in Hw.
  eapply Forall_impl; [exact Hw|]. intros h Hh. cbn beta in Hh.
  unfold IndentLevel.isMultilevel. apply bool_decide_eq_false. lia.
Qed.

Lemma walk_keeps_single_levels_witness :
  let tree := TreeNode Sample.class_node
                [TreeNode (Sample.cursor "CursorKind.CONDITIONAL_OPERATOR" "" 2 1) []] in
  let tok := SampleTree.tokenize SampleTree.typedef_tokens in
  let rf := fun _ : string => Ok (SampleTree.lines "typedef int T;") in
  let s := IndentationCheck.Build IndentationConfig_default
             [root_handler IndentationConfig_default] 0 Sample.world0 in
  single_levels (exec (IndentationCheck.walk tok rf tree) s)
  /\ single_levels (exec (IndentationCheck.traverse tok rf tree) s)
  /\ Forall (fun h => IndentLevel.isMultilevel (Handler.level h) = false)
       (IndentationCheck.handlers (exec (IndentationCheck.walk tok rf tree) s)).
Proof.
  intros tree tok rf s.
  apply (walk_keeps_single_levels tok rf tree s).
  apply Forall_singleton. vm_compute. reflexivity.
Defined.

(** ** Handlers built and nodes entered *)

Section EnterFacts.

Variable tokenize : SourceRange.t -> list Token.t.
Variable readFile : string -> outcome (list string).

Lemma shouldIncreaseIndent_returns (p : Handler.t) :
  Handler.klass p <> SwitchStmtHandler ->
  exists b, Handler.shouldIncreaseIndent p = Ok b.
Proof.
  intros Hk. unfold Handler.shouldIncreaseIndent.
  destruct (Handler.klass p); try done; by eexists.
Qed.

Lemma checkIndentation_nothing (h : Handler.t) (w : World) :
  checks_nothing (Handler.klass h) = true ->
  Handler.checkIndentation tokenize readFile (h, w) = (Ok tt, (h, w)).
Proof.
  intros Hk. unfold Handler.checkIndentation.
  erewrite bind_Ok by reflexivity. cbn [fst].
  by destruct (Handler.klass h).
Qed.

Lemma checks_nothing_not_switch (k : HandlerClass) :
  checks_nothing k = true -> k <> SwitchStmtHandler /\ k <> RootHandler.
Proof. by destruct k. Qed.

(** Entering a node of an unchecked kind below a handler that is not the
    one of a switch statement: a handler is pushed and nothing else
    happens. *)
Lemma enterNode_unchecked (node : Cursor.t) (s : IndentationCheck.t)
    (below : list Handler.t) (top : Handler.t) :
  IndentationCheck.handlers s = (below ++ [top])%list ->
  Handler.klass top <> SwitchStmtHandler ->
  unchecked_kind node = true ->
  exists h,
    Handler.klass h <> SwitchStmtHandler
    /\ IndentationCheck.enterNode tokenize readFile node s
       = (Ok tt,
          IndentationCheck.Build (IndentationCheck.config s)
            (IndentationCheck.handlers s ++ [h])%list
            (IndentationCheck.level s + 1) (IndentationCheck.world s)).
Proof.
  intros Hs Htop Hkind. unfold unchecked_kind in Hkind.
  destruct (eval (class_name_of (kind_name_of node))) as [k|e] eqn:Heval; [|done].
  destruct (checks_nothing_not_switch k Hkind) as [Hsw Hroot].
  destruct (shouldIncreaseIndent_returns top Htop) as [b Hb].
  assert (exists lvl, Handler.suggestedChildLevel top = Ok lvl) as [lvl Hlvl].
  { unfold Handler.suggestedChildLevel. rewrite Hb. simpl.
    destruct b; rewrite init_derive; by eexists. }
  exists (Handler.Build k (Some (kind_name_of node)) (Some node) (Some top)
            (IndentationCheck.config s) lvl None).
  split; [exact Hsw|]. eapply enterNode_Ok.
  - rewrite Hs. apply py_index_last.
  - by apply getHandler_known.
  - by apply checkIndentation_nothing.
Qed.

Lemma walk_unchecked (tree : Tree) :
  tree_forall unchecked_kind tree = true ->
  forall (s : IndentationCheck.t) (below : list Handler.t) (top : Handler.t),
    IndentationCheck.handlers s = (below ++ [top])%list ->
    Handler.klass top <> SwitchStmtHandler ->
    IndentationCheck.walk tokenize readFile tree s = (Ok tt, s).
Proof.
  induction tree as [node children IH] using Tree_nested_ind.
  intros Hall s below top Hs Htop.
  cbn [tree_forall] in Hall. apply andb_true_iff in Hall as [Hnode Hchildren].
  destruct (enterNode_unchecked node s below top Hs Htop Hnode) as (h & Hh & Henter).
  rewrite walk_unfold. erewrite bind_Ok by exact Henter.
  set (s1 := IndentationCheck.Build (IndentationCheck.config s)
               (IndentationCheck.handlers s ++ [h])%list
               (IndentationCheck.level s + 1) (IndentationCheck.world s)).
  assert (Hcs : walk_children tokenize readFile children s1 = (Ok tt, s1)).
  { clear Henter. induction IH as [|c cs Hc _ IHcs]; [done|].
    apply andb_true_iff in Hchildren as [Hc' Hcs'].
    cbn [walk_children].
    erewrite bind_Ok by (eapply (Hc Hc' s1 (IndentationCheck.handlers s) h); done).
    by apply IHcs. }
  erewrite bind_Ok by exact Hcs.
  unfold s1. rewrite exitNode_Ok. destruct s as [cfg hs l w].
  cbn [IndentationCheck.config IndentationCheck.handlers IndentationCheck.level
       IndentationCheck.world]. do 3 f_equal. lia.
Qed.

End EnterFacts.

(** X19.  A tree all of whose nodes are of kinds with a handler class whose
    check is [pass] (and that is not the one of a switch statement): a
    traversal from a new check returns and leaves the check exactly as it
    was: no violation, no call of the tokenizer, no file read. *)
Theorem unchecked_tree_is_silent
    (tokenize : SourceRange.t -> list Token.t)
    (readFile : string -> outcome (list string))
    (tree : Tree) (cfg : IndentationConfig) (w : World) :
  tree_forall unchecked_kind tree = true ->
  IndentationCheck.traverse tokenize readFile tree (IndentationCheck.__init__ cfg w)
  = (Ok tt, IndentationCheck.__init__ cfg w).
Proof.
  intros Hall. unfold IndentationCheck.traverse.
  erewrite bind_Ok by apply beginTree_fresh.
  erewrite bind_Ok
    by (apply (walk_unchecked tokenize readFile tree Hall _ [] (root_handler cfg));
        done).
  apply endTree_root.
Qed.

Lemma unchecked_tree_is_silent_witness :
  let tree :=
    TreeNode (Sample.cursor "CursorKind.FUNCTION_DECL" "f" 1 1)
      [ TreeNode (Sample.cursor "CursorKind.PARM_DECL" "x" 1 7) [];
        TreeNode (Sample.cursor "CursorKind.COMPOUND_STMT" "" 1 14)
          [ TreeNode (Sample.cursor "CursorKind.RETURN_STMT" "" 2 3) [] ] ] in
  IndentationCheck.traverse (fun _ => []) (fun _ => Raise IOError) tree
    (IndentationCheck.__init__ IndentationConfig_default Sample.world0)
  = (Ok tt, IndentationCheck.__init__ IndentationConfig_default Sample.world0).
Proof.
  intros tree.
  apply (unchecked_tree_is_silent (fun _ => []) (fun _ => Raise IOError) tree
           IndentationConfig_default Sample.world0).
  vm_compute. reflexivity.
Defined.

(** X20.  Below the handler of a switch statement no node can be entered:
    for every node whose kind has a handler class, [enterNode] raises
    [AttributeError] and leaves the check as it is, because
    [SwitchStmtHandler.shouldIncreaseIndent] reads an attribute the
    configuration does not have. *)
Theorem enterNode_below_switch
    (tokenize : SourceRange.t -> list Token.t)
    (readFile : string -> outcome (list string))
    (node : Cursor.t) (s : IndentationCheck.t)
    (below : list Handler.t) (top : Handler.t) (k : HandlerClass) :
  IndentationCheck.handlers s = (below ++ [top])%list ->
  Handler.klass top = SwitchStmtHandler ->
  eval (class_name_of (kind_name_of node)) = Ok k ->
  k <> RootHandler ->
  IndentationCheck.enterNode tokenize readFile node s = (Raise AttributeError, s).
Proof.
  intros Hs Htop Heval Hk. unfold IndentationCheck.enterNode.
  erewrite bind_Ok by reflexivity.
  rewrite Hs, py_index_last. erewrite bind_Ok by reflexivity.
  assert (Hh : getHandler (IndentationCheck.config s) node top = Raise AttributeError).
  { unfold getHandler. rewrite Heval. simpl.
    unfold Handler.__init__.
    assert (Hlvl : Handler._getLevelImpl k (Some top) = Raise AttributeError).
    { unfold Handler._getLevelImpl, Handler.suggestedChildLevel,
        Handler.shouldIncreaseIndent. rewrite Htop. by destruct k. }
    rewrite Hlvl. by destruct k. }
  rewrite Hh. by erewrite bind_Raise by reflexivity.
Qed.

Lemma enterNode_below_switch_witness :
  let tree := TreeNode (Sample.cursor "CursorKind.SWITCH_STMT" "" 1 1)
                [TreeNode (Sample.cursor "CursorKind.CASE_STMT" "" 2 1) []] in
  let s := IndentationCheck.Build IndentationConfig_default
             [ root_handler IndentationConfig_default;
               Handler.Build SwitchStmtHandler (Some "SWITCH_STMT'")
                 (Some (Sample.cursor "CursorKind.SWITCH_STMT" "" 1 1))
                 (Some (root_handler IndentationConfig_default))
                 IndentationConfig_default (IndentLevel.Build {[ 0 ]}) None ]
             1 Sample.world0 in
  IndentationCheck.enterNode (fun _ => []) (fun _ => Raise IOError)
    (Sample.cursor "CursorKind.CASE_STMT" "" 2 1) s
  = (Raise AttributeError, s).
Proof.
  intros tree s.
  apply (enterNode_below_switch (fun _ => []) (fun _ => Raise IOError)
           (Sample.cursor "CursorKind.CASE_STMT" "" 2 1) s
           [root_handler IndentationConfig_default]
           (Handler.Build SwitchStmtHandler (Some "SWITCH_STMT'")
              (Some (Sample.cursor "CursorKind.SWITCH_STMT" "" 1 1))
              (Some (root_handler IndentationConfig_default))
              IndentationConfig_default (IndentLevel.Build {[ 0 ]}) None)
           CaseStmtHandler).
  - reflexivity.
  - reflexivity.
  - vm_compute. reflexivity.
  - discriminate.
Defined.

(** X21.  The handler [getHandler] builds for a node accepts a column
    exactly when its parent accepts the column less an offset, which is the
    indentation size of the parent's configuration if the parent increases
    the indent and 0 otherwise; it holds the node, no token window yet, and
    is never of class [RootHandler]. *)
Theorem getHandler_level
    (cfg : IndentationConfig) (node : Cursor.t) (parent h : Handler.t) :
  getHandler cfg node parent = Ok h ->
  exists increase : bool,
    Handler.shouldIncreaseIndent parent = Ok increase
    /\ (forall c : Z,
          IndentLevel.accept (Handler.level h) c
          = IndentLevel.accept (Handler.level parent)
              (c - (if increase then indentation_size (Handler.config parent) else 0)))
    /\ Handler.node h = Some node
    /\ Handler._token_set h = None
    /\ Handler.config h = cfg
    /\ Handler.klass h <> RootHandler.
Proof.
  intros H. destruct (getHandler_inv _ _ _ _ H) as (k & inc & _ & Hk & Hinc & ->).
  exists inc. split; [done|]. split; [|done].
  intros c. cbn [Handler.level]. apply accept_derived.
Qed.

Lemma getHandler_level_witness :
  let parent := Sample.class_handler IndentationConfig_default Sample.class_node in
  let h := Handler.Build TypedefDeclHandler (Some "TYPEDEF_DECL'")
             (Some SampleTree.typedef_node) (Some parent) IndentationConfig_default
             (IndentLevel.Build {[ 4 ]}) None in
  exists increase : bool,
    Handler.shouldIncreaseIndent parent = Ok increase
    /\ (forall c : Z,
          IndentLevel.accept (Handler.level h) c
          = IndentLevel.accept (Handler.level parent)
              (c - (if increase then indentation_size (Handler.config parent) else 0)))
    /\ Handler.node h = Some SampleTree.typedef_node
    /\ Handler._token_set h = None
    /\ Handler.config h = IndentationConfig_default
    /\ Handler.klass h <> RootHandler.
Proof.
  intros parent h.
  apply (getHandler_level IndentationConfig_default SampleTree.typedef_node parent h).
  vm_compute. reflexivity.
Defined.

(** ** Columns of nodes and the check of a typedef *)

Section NodeColumn.

Lemma py_index_nonneg {A} (l : list A) (i : Z) :
  0 <= i ->
  py_index l i = match l !! Z.to_nat i with
                 | Some x => Ok x
                 | None => Raise IndexError
                 end.
Proof.
  intros Hi. unfold py_index.
  destruct (Z.ltb_spec i 0) as [?|_]; [lia|].
  destruct (Z.ltb_spec i 0) as [?|_]; [lia|]. simpl.
  destruct (Z.leb_spec (Z.of_nat (length l)) i) as [Hge|Hlt]; [|done].
  by rewrite lookup_ge_None_2 by lia.
Qed.

End NodeColumn.

(** X22.  The column of a node is resolved on the line of the file that the
    start line of the node names, lines being counted from 1: a start line
    beyond the last line raises [IndexError], and the start line 0, which
    stands before the first line, selects the last line of the file. *)
Theorem expandedTabsColumnNo_line
    (readFile : string -> outcome (list string))
    (self : Handler.t) (extent : SourceRange.t) (lines : list string) :
  readFile (SourceLocation.file (SourceRange.start extent)) = Ok lines ->
  let line := SourceLocation.line (SourceRange.start extent) in
  let column := SourceLocation.column (SourceRange.start extent) in
  let result := Handler.expandedTabsColumnNo readFile self (Some extent) in
  (Z.of_nat (length lines) < line -> result = Raise IndexError)
  /\ (forall l : string,
        1 <= line -> lines !! Z.to_nat (line - 1) = Some l ->
        result = lengthExpandedTabs l (column - 1) (tab_size (Handler.config self)))
  /\ (forall l : string,
        line = 0 -> last lines = Some l ->
        result = lengthExpandedTabs l (column - 1) (tab_size (Handler.config self))).
Proof.
  intros Hfile line column result. subst result line column.
  unfold Handler.expandedTabsColumnNo. rewrite Hfile. cbn [obind].
  split; [|split].
  - intros Hline. rewrite py_index_nonneg by lia.
    by rewrite lookup_ge_None_2 by lia.
  - intros l Hline Hl. rewrite py_index_nonneg by lia. by rewrite Hl.
  - intros l Hline Hl. rewrite Hline. change (0 - 1) with (-1).
    destruct lines as [|x lines0] using rev_ind; [done|].
    rewrite last_snoc in Hl. injection Hl as ->. by rewrite py_index_last.
Qed.

Lemma expandedTabsColumnNo_line_witness :
  let rf := fun _ : string => Ok (SampleTree.lines "typedef int T;") in
  let self := Sample.class_handler IndentationConfig_default Sample.class_node in
  Handler.expandedTabsColumnNo rf self
    (Some (Cursor.extent (Sample.cursor "CursorKind.TYPEDEF_DECL" "T" 4 1)))
  = Raise IndexError
  /\ Handler.expandedTabsColumnNo rf self (Some (Cursor.extent SampleTree.typedef_node))
     = lengthExpandedTabs "     typedef int T;" 5 4
  /\ Handler.expandedTabsColumnNo rf self
       (Some (Cursor.extent (Sample.cursor "CursorKind.TYPEDEF_DECL" "T" 0 2)))
     = lengthExpandedTabs "};" 1 4.
Proof.
  intros rf self.
  pose (at_extent (extent : SourceRange.t) :=
          expandedTabsColumnNo_line rf self extent
            (SampleTree.lines "typedef int T;") eq_refl).
  refine (conj _ (conj _ _)).
  - destruct (at_extent (Cursor.extent (Sample.cursor "CursorKind.TYPEDEF_DECL" "T" 4 1)))
      as (H & _ & _). apply H. simpl. lia.
  - destruct (at_extent (Cursor.extent SampleTree.typedef_node)) as (_ & H & _).
    apply (H "     typedef int T;"); [simpl; lia | reflexivity].
  - destruct (at_extent (Cursor.extent (Sample.cursor "CursorKind.TYPEDEF_DECL" "T" 0 2)))
      as (_ & _ & H).
    apply (H "};"); reflexivity.
Defined.

(** X23.  The check of a typedef declaration, on any level, one of several
    columns included: if the column of the node is resolved, the check
    returns, adds the violation "Invalid indentation level." of kind
    [indent.statement] at the start of the node exactly when the level does
    not accept the column, and calls no tokenizer; if resolving the column
    raises, the check raises the same exception and adds nothing. *)
Theorem typedef_checkIndentation
    (tokenize : SourceRange.t -> list Token.t)
    (readFile : string -> outcome (list string))
    (self : Handler.t) (w : World) (n : Cursor.t) :
  Handler.klass self = TypedefDeclHandler ->
  Handler.node self = Some n ->
  match Handler.expandedTabsColumnNo readFile self (Some (Cursor.extent n)) with
  | Ok col =>
      Handler.checkIndentation tokenize readFile (self, w)
      = (Ok tt,
         (self,
          World_add_violations
            (unless (IndentLevel.accept (Handler.level self) col)
                    (Build_RuleViolation "indent.statement"
                       (SourceLocation.file (SourceRange.start (Cursor.extent n)))
                       (SourceLocation.line (SourceRange.start (Cursor.extent n)))
                       (SourceLocation.column (SourceRange.start (Cursor.extent n)))
                       "Invalid indentation level."))
            w))
  | Raise e =>
      Handler.checkIndentation tokenize readFile (self, w) = (Raise e, (self, w))
  end.
Proof.
  intros Hk Hn. unfold Handler.checkIndentation.
  erewrite bind_Ok by reflexivity. cbn [fst]. rewrite Hk.
  unfold Handler.TypedefDecl_checkIndentation.
  erewrite bind_Ok by reflexivity. cbv zeta. cbn [fst]. rewrite Hn.
  change (Cursor.extent <$> Some n) with (Some (Cursor.extent n)).
  destruct (Handler.expandedTabsColumnNo readFile self (Some (Cursor.extent n)))
    as [col|e].
  - erewrite bind_Ok by reflexivity. erewrite bind_Ok by reflexivity.
    by destruct (IndentLevel.accept (Handler.level self) col).
  - by erewrite bind_Raise by reflexivity.
Qed.

Lemma typedef_checkIndentation_witness :
  let self := Handler.Build TypedefDeclHandler (Some "TYPEDEF_DECL'")
                (Some SampleTree.typedef_node) None IndentationConfig_default
                (IndentLevel.Build {[ 4; 8 ]}) None in
  Handler.checkIndentation (fun _ => []) (fun _ => Ok (SampleTree.lines "typedef int T;"))
    (self, Sample.world0)
  = (Ok tt,
     (self,
      Build_World
        [Build_RuleViolation "indent.statement" "a.cpp" 2 6 "Invalid indentation level."]
        [])).
Proof.
  intros self.
  exact (typedef_checkIndentation (fun _ => [])
           (fun _ => Ok (SampleTree.lines "typedef int T;"))
           self Sample.world0 SampleTree.typedef_node eq_refl eq_refl).
Defined.

(** X24.  The brace check on a new handler whose window has no opening
    brace calls the tokenizer once if the window has tokens, and three times
    if it is empty: each of the three look-ups computes an empty window
    again. *)
Theorem checkCurlyBraces_tokenizer_calls
    (tokenize : SourceRange.t -> list Token.t)
    (readFile : string -> outcome (list string))
    (indent_type : string) (self : Handler.t) (w : World) (n : Cursor.t) :
  Handler._token_set self = None ->
  Handler.node self = Some n ->
  Handler.first_punctuation "{" (tokenize (Cursor.extent n)) = None ->
  tokenize_calls
    (snd (exec (Handler.checkCurlyBraces tokenize readFile indent_type) (self, w)))
  = (tokenize_calls w
     ++ match tokenize (Cursor.extent n) with
        | [] => [Cursor.extent n; Cursor.extent n; Cursor.extent n]
        | _ :: _ => [Cursor.extent n]
        end)%list.
Proof.
  intros Hts Hn Hlb. unfold exec.
  assert (Hw : Handler.window tokenize self = Some (tokenize (Cursor.extent n)))
    by (unfold Handler.window; by rewrite Hts, Hn).
  rewrite (checkCurlyBraces_no_lbrace _ _ _ _ _ _ Hw Hlb). cbn [snd].
  unfold Handler.tokenized at 3. rewrite Hts, Hn.
  unfold Handler.tokenized.
  cbn [Handler._token_set Handler.set_token_set Handler.node]. rewrite Hn.
  destruct (tokenize (Cursor.extent n)) as [|tok toks]; simpl.
  - by rewrite <- !app_assoc.
  - done.
Qed.

Lemma checkCurlyBraces_tokenizer_calls_witness :
  let self := Sample.class_handler IndentationConfig_default Sample.class_node in
  tokenize_calls
    (snd (exec (Handler.checkCurlyBraces (fun _ => []) (fun _ => Raise IOError)
                  "same-line") (self, Sample.world0)))
  = [ Cursor.extent Sample.class_node; Cursor.extent Sample.class_node;
      Cursor.extent Sample.class_node ].
Proof.
  intros self.
  exact (checkCurlyBraces_tokenizer_calls (fun _ => []) (fun _ => Raise IOError)
           "same-line" self Sample.world0 Sample.class_node eq_refl eq_refl eq_refl).
Defined.
